(** * Term and week assignment of the makerspace usage logs

  A shallow embedding of [prepare_data.py], [api_integration.py] and
  [analyze_usage.py]: pandas frames are values in a store of objects,
  the functions are programs of a small state-and-exception monad, and
  the theorems are about running those programs. *)

From Stdlib Require Import ZArith QArith Qminmax Lia Ascii String Sorted.
From stdpp Require Import gmap strings list fin_maps pretty.

#[local] Set Warnings "-register-all".
#[local] Open Scope string_scope.
#[local] Open Scope list_scope.
#[local] Open Scope Z_scope.

(** ** Time

  A [datetime] (and a pandas [Timestamp] of a [datetime64[ns]] column) is
  the number of nanoseconds since 1970-01-01T00:00, a Thursday. A
  [Timedelta] is a number of nanoseconds. *)
Module Time.

Definition ns_per_day : Z := 86400000000000.

(** [pd.Timedelta(days=d)] *)
Definition Timedelta_days (d : Z) : Z := d * ns_per_day.

(** Days since 1970-01-01 of the calendar date of [t]. *)
Definition date_ordinal (t : Z) : Z := t / ns_per_day.

(** [t.weekday()]: 0 for Monday ... 6 for Sunday. *)
Definition weekday (t : Z) : Z := (date_ordinal t + 3) mod 7.

(** [timedelta.days] / [Series.dt.days]: the whole days of a difference,
    rounded towards minus infinity. *)
Definition days (delta : Z) : Z := delta / ns_per_day.



End Time.

(** ** Python values, exceptions and the store *)
Module Py.

Inductive exn :=
| KeyError (msg : string)
| TypeError (msg : string)
| ValueError (msg : string)
| AttributeError (msg : string)
| FileNotFoundError (msg : string)
| RequestException (msg : string)
| IndexError (msg : string)
| ReferenceError.

Inductive result (A : Type) :=
| Ok (a : A)
| Raise (e : exn).
Arguments Ok {A} a.
Arguments Raise {A} e.

Definition rbind {A B} (r : result A) (k : A → result B) : result B :=
  match r with
  | Ok a => k a
  | Raise e => Raise e
  end.

Fixpoint rmap {A B} (f : A → result B) (l : list A) : result (list B) :=
  match l with
  | [] => Ok []
  | x :: l' => rbind (f x) (λ y, rbind (rmap f l') (λ ys, Ok (y :: ys)))
  end.

(** A cell of a frame. *)
Inductive cell :=
| CTime (t : Z)
| CStr (s : string)
| CInt (n : Z)
| CNone.

#[export] Instance cell_eq_dec : EqDecision cell.
Proof. solve_decision. Defined.

(** A frame: its column labels and its rows, each row a map from column
    label to cell. The row labels are taken to be distinct (a RangeIndex
    or a part of one), so that boolean masks and aligned assignments act
    by position. *)
Record DataFrame := mkDataFrame {
  columns : list string;
  rows : list (gmap string cell)
}.

(** What [print] writes: a line of text, or the table that pandas prints
    for [series.value_counts()], kept as the series it was computed
    from. *)
Inductive output :=
| Text (s : string)
| ValueCounts (series : list cell).

(** A reply of the HTTP server to one GET request. *)
Inductive json :=
| JNull
| JBool (b : bool)
| JNum (n : Z)
| JStr (s : string)
| JArr (items : list json)
| JObj (members : list (string * json)).

Inductive reply :=
| ConnectionError (msg : string)
| Response (status_code : Z) (body : option json).

Abbreviation loc := nat.

Record world := mkWorld {
  heap : gmap loc DataFrame;
  stdout : list output;
  files : gmap string DataFrame;
  network : string → list (string * string) → reply
}.

Definition set_heap (f : gmap loc DataFrame → gmap loc DataFrame) (w : world) : world :=
  mkWorld (f (heap w)) (stdout w) (files w) (network w).
Definition set_stdout (f : list output → list output) (w : world) : world :=
  mkWorld (heap w) (f (stdout w)) (files w) (network w).
Definition set_files (f : gmap string DataFrame → gmap string DataFrame) (w : world) : world :=
  mkWorld (heap w) (stdout w) (f (files w)) (network w).

(** Programs: a run starts in a world and ends in a value or a raised
    exception, and in the world as it is then. *)
Definition M (A : Type) : Type := world → result A * world.

Definition ret {A} (a : A) : M A := λ w, (Ok a, w).
Definition raise {A} (e : exn) : M A := λ w, (Raise e, w).
Definition bind {A B} (m : M A) (k : A → M B) : M B :=
  λ w, match m w with
       | (Ok a, w') => k a w'
       | (Raise e, w') => (Raise e, w')
       end.
Definition lift {A} (r : result A) : M A := λ w, (r, w).

(** [try: body except: handler], for the exceptions [handles] accepts. *)
Definition try_except {A} (body : M A) (handles : exn → bool) (handler : exn → M A) : M A :=
  λ w, match body w with
       | (Ok a, w') => (Ok a, w')
       | (Raise e, w') => if handles e then handler e w' else (Raise e, w')
       end.

(** [for x in l: body x] *)
Fixpoint for_each {A} (l : list A) (body : A → M unit) : M unit :=
  match l with
  | [] => ret tt
  | x :: l' => bind (body x) (λ _, for_each l' body)
  end.

Definition print (o : output) : M unit := λ w, (Ok tt, set_stdout (λ out, out ++ [o]) w).

Definition deref (r : loc) : M DataFrame :=
  λ w, match heap w !! r with
       | Some d => (Ok d, w)
       | None => (Raise ReferenceError, w)
       end.
Definition alloc (d : DataFrame) : M loc :=
  λ w, let r := fresh (dom (heap w)) in (Ok r, set_heap (insert r d) w).
Definition store (r : loc) (d : DataFrame) : M unit :=
  λ w, (Ok tt, set_heap (insert r d) w).

End Py.

Export Py.

Declare Scope py_scope.
Delimit Scope py_scope with py.
Notation "'let!' x ':=' c1 'in' c2" := (bind c1 (λ x, c2))
  (at level 10, x name, c1 at level 100, c2 at level 200) : py_scope.
Notation "'do!' c1 'in' c2" := (bind c1 (λ _, c2))
  (at level 10, c1 at level 100, c2 at level 200) : py_scope.
#[local] Open Scope py_scope.

(** ** The fragment of pandas the programs use *)
Module Pandas.

(** [df.copy()] *)
Definition DataFrame_copy (df : loc) : M loc :=
  let! d := deref df in
  alloc d.

(** [len(df)] *)
Definition len (df : loc) : M nat :=
  let! d := deref df in
  ret (length (rows d)).

(** The cells of column [c]; a row without a cell there holds NaN. *)
Definition column_values (c : string) (d : DataFrame) : list cell :=
  map (λ r, default CNone (r !! c)) (rows d).

(** [df[c]] *)
Definition getitem (df : loc) (c : string) : M (list cell) :=
  let! d := deref df in
  if bool_decide (c ∈ columns d) then ret (column_values c d)
  else raise (KeyError c).

Definition add_column (c : string) (cols : list string) : list string :=
  if bool_decide (c ∈ cols) then cols else cols ++ [c].

(** [df[c] = v] for a scalar [v] *)
Definition setitem (df : loc) (c : string) (v : cell) : M unit :=
  let! d := deref df in
  store df (mkDataFrame (add_column c (columns d)) (map (insert c v) (rows d))).

(** [df[c] = series] *)
Definition setitem_series (df : loc) (c : string) (series : list cell) : M unit :=
  let! d := deref df in
  if bool_decide (length series = length (rows d)) then
    store df (mkDataFrame (add_column c (columns d))
                          (zip_with (λ r v, <[c:=v]> r) (rows d) series))
  else raise (ValueError "Length of values does not match length of index").

(** [series >= when] and [series <= when] on a datetime column; a cell
    that is no datetime cannot be compared with one. *)
Definition ge_datetime (series : list cell) (when : Z) : result (list bool) :=
  rmap (λ c, match c with
             | CTime t => Ok (when <=? t)
             | _ => Raise (TypeError "'>=' not supported between these instances")
             end) series.

Definition le_datetime (series : list cell) (when : Z) : result (list bool) :=
  rmap (λ c, match c with
             | CTime t => Ok (t <=? when)
             | _ => Raise (TypeError "'<=' not supported between these instances")
             end) series.

(** [series - when]: a series of time differences *)
Definition sub_datetime (series : list cell) (when : Z) : result (list Z) :=
  rmap (λ c, match c with
             | CTime t => Ok (t - when)
             | _ => Raise (TypeError "unsupported operand type(s) for -")
             end) series.

(** [m1 & m2] and [~m] *)
Definition mask_and (m1 m2 : list bool) : list bool := zip_with andb m1 m2.
Definition mask_not (m : list bool) : list bool := map negb m.

(** [series != s] *)
Definition ne_str (series : list cell) (s : string) : list bool :=
  map (λ c, negb (bool_decide (c = CStr s))) series.

(** The entries of [xs] at the positions where [mask] holds. *)
Fixpoint select {A} (mask : list bool) (xs : list A) : list A :=
  match mask, xs with
  | b :: mask', x :: xs' => if b then x :: select mask' xs' else select mask' xs'
  | _, _ => []
  end.

(** [df.loc[mask, c]] *)
Definition loc_getitem (df : loc) (mask : list bool) (c : string) : M (list cell) :=
  let! d := deref df in
  if bool_decide (c ∈ columns d) then ret (select mask (column_values c d))
  else raise (KeyError c).

Fixpoint put_scalar (c : string) (v : cell) (mask : list bool)
    (rs : list (gmap string cell)) : list (gmap string cell) :=
  match mask, rs with
  | b :: mask', r :: rs' => (if b then <[c:=v]> r else r) :: put_scalar c v mask' rs'
  | _, _ => rs
  end.

(** [df.loc[mask, c] = v] for a scalar [v] *)
Definition loc_setitem (df : loc) (mask : list bool) (c : string) (v : cell) : M unit :=
  let! d := deref df in
  store df (mkDataFrame (add_column c (columns d)) (put_scalar c v mask (rows d))).

Fixpoint put_series (c : string) (mask : list bool) (series : list cell)
    (rs : list (gmap string cell)) : list (gmap string cell) :=
  match mask, rs with
  | true :: mask', r :: rs' =>
      match series with
      | v :: series' => <[c:=v]> r :: put_series c mask' series' rs'
      | [] => r :: put_series c mask' [] rs'
      end
  | false :: mask', r :: rs' => r :: put_series c mask' series rs'
  | _, _ => rs
  end.

(** [df.loc[mask, c] = series], the series being the one selected by
    [mask]: its entries go to the masked rows in order. *)
Definition loc_setitem_series (df : loc) (mask : list bool) (c : string)
    (series : list cell) : M unit :=
  let! d := deref df in
  store df (mkDataFrame (add_column c (columns d)) (put_series c mask series (rows d))).

(** [df[mask]]: a new frame of the rows where [mask] holds *)
Definition getitem_mask (df : loc) (mask : list bool) : M loc :=
  let! d := deref df in
  alloc (mkDataFrame (columns d) (select mask (rows d))).

Fixpoint keep_first (seen : list (gmap string cell)) (rs : list (gmap string cell))
    : list (gmap string cell) :=
  match rs with
  | [] => []
  | r :: rs' =>
      if bool_decide (r ∈ seen) then keep_first seen rs'
      else r :: keep_first (r :: seen) rs'
  end.

(** [df.drop_duplicates()]: a new frame, the first of equal rows kept *)
Definition drop_duplicates (df : loc) : M loc :=
  let! d := deref df in
  alloc (mkDataFrame (columns d) (keep_first [] (rows d))).

(** [pd.read_csv(path, parse_dates=["Timestamp"])]; the file system holds
    the table each file parses to. *)
Definition read_csv (path : string) : M loc :=
  let! found := (λ w, (Ok (files w !! path), w)) in
  match found with
  | Some d => alloc d
  | None => raise (FileNotFoundError path)
  end.

(** [df.to_csv(path, index=False)] *)
Definition to_csv (df : loc) (path : string) : M unit :=
  let! d := deref df in
  λ w, (Ok tt, set_files (insert path d) w).

(** [series.replace(mapping)] *)
Definition replace_cell (mapping : list (string * string)) (c : cell) : cell :=
  match c with
  | CStr s => match list_find (λ kv, kv.1 = s) mapping with
              | Some (_, kv) => CStr kv.2
              | None => c
              end
  | _ => c
  end.
Definition replace (mapping : list (string * string)) (series : list cell) : list cell :=
  map (replace_cell mapping) series.

(** [series.nunique()]: NaN is not counted *)
Fixpoint unique (seen : list cell) (series : list cell) : list cell :=
  match series with
  | [] => []
  | c :: series' =>
      if bool_decide (c ∈ seen) then unique seen series'
      else c :: unique (c :: seen) series'
  end.
Definition nunique (series : list cell) : nat :=
  length (unique [CNone] series).

End Pandas.

(** ** prepare_data.py *)
Module prepare_data.
Import Time Pandas.

(** A term: [(semester_name, start_date, end_date)] *)
Abbreviation term := (string * Z * Z)%type.

Fixpoint insort {A} (key : A → Z) (x : A) (l : list A) : list A :=
  match l with
  | [] => [x]
  | y :: l' => if key x <=? key y then x :: y :: l' else y :: insort key x l'
  end.

(** [sorted(l, key=key)]: ascending, and stable: entries of equal key
    keep the order they have in [l]. *)
Fixpoint sorted {A} (key : A → Z) (l : list A) : list A :=
  match l with
  | [] => []
  | x :: l' => insort key x (sorted key l')
  end.

(** [if output_file_path:] *)
Definition given (output_file_path : option string) : option string :=
  match output_file_path with
  | Some "" => None
  | p => p
  end.

Definition clean_and_load (file_path : string) (covid_start covid_end : Z) : M loc :=
  let! df := read_csv file_path in
  let! df := drop_duplicates df in
  let! ts1 := getitem df "Timestamp" in
  let! ge := lift (ge_datetime ts1 covid_start) in
  let! ts2 := getitem df "Timestamp" in
  let! le := lift (le_datetime ts2 covid_end) in
  let! df := getitem_mask df (mask_not (mask_and ge le)) in
  ret df.

Definition add_semester_info (df : loc) (terms_data : list term)
    (output_file_path : option string) : M loc :=
  let! enhanced_df := DataFrame_copy df in
  do! setitem enhanced_df "Semester" (CStr "Unknown") in
  do! setitem enhanced_df "Semester_Week" CNone in
  let sorted_terms := sorted (λ x : term, x.1.2) terms_data in
  do! for_each sorted_terms (λ '(semester_name, start_date, end_date),
    let! ts1 := getitem enhanced_df "Timestamp" in
    let! ge := lift (ge_datetime ts1 start_date) in
    let! ts2 := getitem enhanced_df "Timestamp" in
    let! le := lift (le_datetime ts2 end_date) in
    let mask := mask_and ge le in
    do! loc_setitem enhanced_df mask "Semester" (CStr semester_name) in
    let days_to_monday := weekday start_date in
    let first_monday := start_date - Timedelta_days days_to_monday in
    let! ts3 := loc_getitem enhanced_df mask "Timestamp" in
    let! since := lift (sub_datetime ts3 first_monday) in
    let days_since_first_monday := map days since in
    loc_setitem_series enhanced_df mask "Semester_Week"
      (map (λ n, CInt (n / 7 + 1)) days_since_first_monday)) in
  let! rows_before := len enhanced_df in
  let! semester := getitem enhanced_df "Semester" in
  let! enhanced_df := getitem_mask enhanced_df (ne_str semester "Unknown") in
  let! rows_after := len enhanced_df in
  let rows_removed := (rows_before - rows_after)%nat in
  do! print (Text ("Removed " +:+ pretty rows_removed +:+
        " rows with 'Unknown' semester data (Summer sessions & COVID semesters)")) in
  do! match given output_file_path with
      | Some path =>
          do! to_csv enhanced_df path in
          print (Text ("Enhanced data saved to '" +:+ path +:+ "'"))
      | None => ret tt
      end in
  ret enhanced_df.

(** The mapping of [add_equipment_category], in the order it is written. *)
Definition equipment_categories : list (string * string) :=
  [ ("Jacobs Connex", "Advanced 3D Printing");
    ("Jacobs Dimension", "Advanced 3D Printing");
    ("Jacobs Form 3", "Advanced 3D Printing");
    ("Jacobs Fortus", "Advanced 3D Printing");
    ("Jacobs FabLight Laser", "Advanced Prototyping");
    ("Jacobs OMAX Waterjet", "Advanced Prototyping");
    ("Jacobs Shopbot", "Advanced Prototyping");
    ("Jacobs Type A", "Basic 3D Printing");
    ("Jacobs DiWire", "Basic Prototyping");
    ("Jacobs Inkjet", "Basic Prototyping");
    ("Jacobs Vinyl Cutter", "Basic Prototyping");
    ("Jacobs Laser Access", "Laser Cutting");
    ("Jacobs Metal Shop", "Metal Shop");
    ("Jacobs Wood Shop", "Wood Shop");
    ("Jacobs MakerPass Access", "Entry") ].

(** [s.lower()], on ASCII letters *)
Definition lower_ascii (a : ascii) : ascii :=
  let n := nat_of_ascii a in
  if ((65 <=? n) && (n <=? 90))%nat then ascii_of_nat (n + 32) else a.
Fixpoint lower (s : string) : string :=
  match s with
  | EmptyString => EmptyString
  | String a s' => String (lower_ascii a) (lower s')
  end.

(** [needle in haystack] *)
Definition contains (needle haystack : string) : bool :=
  match String.index 0 needle haystack with
  | Some _ => true
  | None => false
  end.

Definition map_equipment_category (access_type : cell) : result cell :=
  match access_type with
  | CStr s =>
      match list_find (λ kv, kv.1 = s) equipment_categories with
      | Some (_, kv) => Ok (CStr kv.2)
      | None =>
          match list_find (λ kv, contains (lower kv.1) (lower s) = true) equipment_categories with
          | Some (_, kv) => Ok (CStr kv.2)
          | None => Ok (CStr "Other")
          end
      end
  | _ => Raise (AttributeError "object has no attribute 'lower'")
  end.

Definition newline : string := String (ascii_of_nat 10) EmptyString.

Definition add_equipment_category (df : loc) : M loc :=
  let! enhanced_df := DataFrame_copy df in
  let! access := getitem enhanced_df "Access Type" in
  let! category := lift (rmap map_equipment_category access) in
  do! setitem_series enhanced_df "Equipment_Category" category in
  do! print (Text (newline +:+ "Equipment Categorization Summary:")) in
  let! access := getitem enhanced_df "Access Type" in
  do! print (Text ("Total equipment types: " +:+ pretty (nunique access))) in
  let! category := getitem enhanced_df "Equipment_Category" in
  do! print (Text ("Total categories: " +:+ pretty (nunique category))) in
  do! print (Text (newline +:+ "Category counts:")) in
  let! category := getitem enhanced_df "Equipment_Category" in
  do! print (ValueCounts category) in
  ret enhanced_df.

Definition enhance_dataset (df : loc) (terms_data : list term)
    (output_file_path : option string) : M loc :=
  let! enhanced_df := DataFrame_copy df in
  let equipment_normalization :=
    [ ("Jacobs DiWire Room 220C", "Jacobs DiWire");
      ("Jacobs Vinyl Cutter and Inkjet", "Jacobs Vinyl Cutter") ] in
  let! access := getitem enhanced_df "Access Type" in
  do! setitem_series enhanced_df "Access Type" (replace equipment_normalization access) in
  do! print (Text "Normalized equipment names: merged 'Jacobs DiWire Room 220C' and 'Jacobs Vinyl Cutter and Inkjet'") in
  do! setitem enhanced_df "Semester" (CStr "Unknown") in
  do! setitem enhanced_df "Semester_Week" CNone in
  let sorted_terms := sorted (λ x : term, x.1.2) terms_data in
  do! for_each sorted_terms (λ '(semester_name, start_date, end_date),
    let! ts1 := getitem enhanced_df "Timestamp" in
    let! ge := lift (ge_datetime ts1 start_date) in
    let! ts2 := getitem enhanced_df "Timestamp" in
    let! le := lift (le_datetime ts2 end_date) in
    let mask := mask_and ge le in
    do! loc_setitem enhanced_df mask "Semester" (CStr semester_name) in
    let days_to_monday := weekday start_date in
    let first_monday := start_date - Timedelta_days days_to_monday in
    let! ts3 := loc_getitem enhanced_df mask "Timestamp" in
    let! since := lift (sub_datetime ts3 first_monday) in
    let days_since_first_monday := map days since in
    loc_setitem_series enhanced_df mask "Semester_Week"
      (map (λ n, CInt (n / 7 + 1)) days_since_first_monday)) in
  let! rows_before := len enhanced_df in
  let! semester := getitem enhanced_df "Semester" in
  let! enhanced_df := getitem_mask enhanced_df (ne_str semester "Unknown") in
  let! rows_after := len enhanced_df in
  let rows_removed := (rows_before - rows_after)%nat in
  do! print (Text ("Removed " +:+ pretty rows_removed +:+
        " rows with 'Unknown' semester data (Summer sessions & COVID semesters)")) in
  let! enhanced_df := add_equipment_category enhanced_df in
  do! match given output_file_path with
      | Some path =>
          do! to_csv enhanced_df path in
          print (Text ("Enhanced data saved to '" +:+ path +:+ "'"))
      | None => ret tt
      end in
  ret enhanced_df.

End prepare_data.

(** ** api_integration.py *)
Module api_integration.

(** [d.get(key, default)]; only a dict has [get]. *)
Definition dict_get (d : json) (key : string) (default : json) : result json :=
  match d with
  | JObj members =>
      match list_find (λ kv, kv.1 = key) members with
      | Some (_, kv) => Ok kv.2
      | None => Ok default
      end
  | _ => Raise (AttributeError "object has no attribute 'get'")
  end.

(** The truth value of [x], as [not x] tests it. *)
Definition truthy (x : json) : bool :=
  match x with
  | JNull => false
  | JBool b => b
  | JNum n => negb (n =? 0)
  | JStr s => negb (bool_decide (s = ""))
  | JArr items => negb (bool_decide (items = []))
  | JObj members => negb (bool_decide (members = []))
  end.

(** [x[0]] *)
Definition getitem0 (x : json) : result json :=
  match x with
  | JArr (item :: _) => Ok item
  | JArr [] => Raise (IndexError "list index out of range")
  | JObj _ => Raise (KeyError "0")
  | JStr (String a _) => Ok (JStr (String a EmptyString))
  | JStr EmptyString => Raise (IndexError "string index out of range")
  | _ => Raise (TypeError "object is not subscriptable")
  end.

(** [requests.get(url, headers=headers)] *)
Definition requests_get (url : string) (headers : list (string * string)) : M (Z * option json) :=
  λ w, match network w url headers with
       | ConnectionError msg => (Raise (RequestException msg), w)
       | Response status_code body => (Ok (status_code, body), w)
       end.

(** [response.raise_for_status()] *)
Definition raise_for_status (response : Z * option json) : M unit :=
  if (400 <=? response.1) && (response.1 <? 600)
  then raise (RequestException ("HTTPError: " +:+ pretty response.1))
  else ret tt.

(** [response.json()]; the error of a body that is no JSON is a
    [RequestException] of requests. *)
Definition response_json (response : Z * option json) : M json :=
  match response.2 with
  | Some data => ret data
  | None => raise (RequestException "JSONDecodeError")
  end.

Section Fetch.

(** [datetime.strptime(s, "%Y-%m-%d")] on a string: the midnight of the
    date, or nothing where it raises [ValueError]. *)
Variable strptime_ymd : string → option Z.

Definition strptime (x : json) : result Z :=
  match x with
  | JStr s =>
      match strptime_ymd s with
      | Some t => Ok t
      | None => Raise (ValueError ("time data '" +:+ s +:+ "' does not match format '%Y-%m-%d'"))
      end
  | _ => Raise (TypeError "strptime() argument 1 must be str")
  end.

Definition base_url : string := "https://gateway.api.berkeley.edu/uat/sis/v2/terms".

(** The body of the [try] block for one term ID; its value is the tuple
    that is appended to [terms_data]. *)
Definition request_term (headers : list (string * string)) (term_id : Z) : M (json * Z * Z) :=
  let url := base_url +:+ "/" +:+ pretty term_id +:+ "?career-code=ugrd" in
  let! response := requests_get url headers in
  do! raise_for_status response in
  let! data := response_json response in
  let! resp := lift (dict_get data "response" (JObj [])) in
  let! ugrd_term := lift (dict_get resp "terms" (JArr [])) in
  do! (if truthy ugrd_term then ret tt
       else raise (KeyError ("'No UGRD term data found for term ID: " +:+ pretty term_id +:+ "'"))) in
  let! term := lift (getitem0 ugrd_term) in
  let! semester_name := lift (dict_get term "name" JNull) in
  do! (if truthy semester_name then ret tt
       else raise (KeyError ("'Semester name not found for term ID: " +:+ pretty term_id +:+ "'"))) in
  let! sessions := lift (dict_get term "sessions" (JArr [])) in
  do! (if truthy sessions then ret tt
       else raise (KeyError ("'No sessions found for term ID: " +:+ pretty term_id +:+ "'"))) in
  let! session := lift (getitem0 sessions) in
  let! start_date := lift (dict_get session "beginDate" JNull) in
  do! (if truthy start_date then ret tt
       else raise (KeyError ("'Start date not found for term ID: " +:+ pretty term_id +:+ "'"))) in
  let! end_date := lift (dict_get term "fullyGradedDeadline" JNull) in
  do! (if truthy end_date then ret tt
       else raise (KeyError ("'End date not found for term ID: " +:+ pretty term_id +:+ "'"))) in
  let! start_date := lift (strptime start_date) in
  let! end_date := lift (strptime end_date) in
  ret (semester_name, start_date, end_date).

(** The three [except] clauses of the loop. *)
Definition handled (e : exn) : bool :=
  match e with
  | RequestException _ | KeyError _ | ValueError _ => true
  | _ => false
  end.

Definition report (term_id : Z) (e : exn) : output :=
  match e with
  | RequestException msg =>
      Text ("API request failed for term ID " +:+ pretty term_id +:+ ": " +:+ msg)
  | KeyError msg =>
      Text ("Key error for term ID " +:+ pretty term_id +:+ ": " +:+ msg)
  | ValueError msg =>
      Text ("Date parsing error for term ID " +:+ pretty term_id +:+ ": " +:+ msg)
  | _ => Text ""
  end.

(** [for term_id in term_ids:] with the list [terms_data] it appends to. *)
Fixpoint fetch_loop (headers : list (string * string)) (term_ids : list Z)
    (terms_data : list (json * Z * Z)) : M (list (json * Z * Z)) :=
  match term_ids with
  | [] => ret terms_data
  | term_id :: term_ids' =>
      let! terms_data :=
        try_except
          (let! tuple := request_term headers term_id in
           ret (terms_data ++ [tuple]))
          handled
          (λ e, do! print (report term_id e) in ret terms_data) in
      fetch_loop headers term_ids' terms_data
  end.

Definition fetch_terms (term_ids : list Z) (app_id app_key : string) : M (list (json * Z * Z)) :=
  let terms_data := [] in
  let headers := [("app_id", app_id); ("app_key", app_key)] in
  fetch_loop headers term_ids terms_data.

End Fetch.
End api_integration.

(** ** analyze_usage.py *)
Module analyze_usage.

(** A row of [weekly_stats]: its index label, the week number, and the two
    columns that [identify_peak_weeks] reads. [avg_usage] is a finite
    float, given by the rational it denotes; [num_semesters] is a count. *)
Record week_row := mkWeekRow {
  Semester_Week : Z;
  avg_usage : Q;
  num_semesters : nat
}.

(** The first row of the largest [avg_usage] among [best :: l]. *)
Fixpoint first_max (best : week_row) (l : list week_row) : week_row :=
  match l with
  | [] => best
  | r :: l' => first_max (if Qle_bool (avg_usage r) (avg_usage best) then best else r) l'
  end.

(** The first row of the smallest [avg_usage] among [best :: l]. *)
Fixpoint first_min (best : week_row) (l : list week_row) : week_row :=
  match l with
  | [] => best
  | r :: l' => first_min (if Qle_bool (avg_usage best) (avg_usage r) then best else r) l'
  end.

(** [frame["avg_usage"].idxmax()] and [idxmin()] *)
Definition idxmax (frame : list week_row) : result Z :=
  match frame with
  | [] => Raise (ValueError "attempt to get argmax of an empty sequence")
  | r :: l => Ok (Semester_Week (first_max r l))
  end.

Definition idxmin (frame : list week_row) : result Z :=
  match frame with
  | [] => Raise (ValueError "attempt to get argmin of an empty sequence")
  | r :: l => Ok (Semester_Week (first_min r l))
  end.

(** [frame.loc[idx, "avg_usage"]], the labels of [frame] being distinct *)
Definition loc_avg_usage (frame : list week_row) (idx : Z) : result Q :=
  match list_find (λ r, Semester_Week r = idx) frame with
  | Some (_, r) => Ok (avg_usage r)
  | None => Raise (KeyError (pretty idx))
  end.

(** [frame["num_semesters"].max()] *)
Definition max_num_semesters (frame : list week_row) : nat :=
  foldr Nat.max 0%nat (map num_semesters frame).

Definition identify_peak_weeks (weekly_stats : list week_row) : result ((Z * Q) * (Z * Q)) :=
  rbind (idxmax weekly_stats) (λ highest_idx,
  rbind (loc_avg_usage weekly_stats highest_idx) (λ highest_avg,
  let highest_week := (highest_idx, highest_avg) in
  let common_weeks :=
    filter (λ r, Qle_bool ((75 # 100) * inject_Z (Z.of_nat (max_num_semesters weekly_stats)))
                          (inject_Z (Z.of_nat (num_semesters r))) = true) weekly_stats in
  rbind (idxmin common_weeks) (λ lowest_idx,
  rbind (loc_avg_usage weekly_stats lowest_idx) (λ lowest_avg,
  let lowest_week := (lowest_idx, lowest_avg) in
  Ok (highest_week, lowest_week))))).

End analyze_usage.

(** * Properties *)

Import Time Pandas prepare_data.

(** ** Reading the assignment off a row *)

(** The datetime in the [Timestamp] cell of a row. *)
Definition stamp (r : gmap string cell) : option Z :=
  match r !! "Timestamp" with
  | Some (CTime t) => Some t
  | _ => None
  end.

(** A frame as [add_semester_info] expects it: a [Timestamp] column of
    datetimes. *)
Definition has_timestamps (d : DataFrame) : Prop :=
  "Timestamp" ∈ columns d ∧ Forall (λ r, is_Some (stamp r)) (rows d).

(** [start_date <= t <= end_date] *)
Definition in_term (tm : term) (t : Z) : bool :=
  (tm.1.2 <=? t) && (t <=? tm.2).

(** The week number that the loop body computes for a timestamp [t] of a
    term that starts at [start_date]. *)
Definition semester_week (start_date t : Z) : Z :=
  let days_to_monday := weekday start_date in
  let first_monday := start_date - Timedelta_days days_to_monday in
  days (t - first_monday) / 7 + 1.

(** The two cells the loop body writes to a row of the mask. *)
Definition assign (tm : term) (t : Z) (r : gmap string cell) : gmap string cell :=
  <["Semester_Week" := CInt (semester_week tm.1.2 t)]> (<["Semester" := CStr tm.1.1]> r).

(** One pass of the loop body over one row. *)
Definition step_row (tm : term) (r : gmap string cell) : gmap string cell :=
  match stamp r with
  | Some t => if in_term tm t then assign tm t r else r
  | None => r
  end.

(** The last term of [tms] whose range holds [t]. *)
Fixpoint last_match (tms : list term) (t : Z) : option term :=
  match tms with
  | [] => None
  | tm :: tms' =>
      match last_match tms' t with
      | Some tm' => Some tm'
      | None => if in_term tm t then Some tm else None
      end
  end.

(** The first term of [tms] whose range holds [t]. *)
Fixpoint first_match (tms : list term) (t : Z) : option term :=
  match tms with
  | [] => None
  | tm :: tms' => if in_term tm t then Some tm else first_match tms' t
  end.

(** The term a timestamp ends up with: the last one, in the order of the
    start dates, whose range holds it. *)
Definition winner (terms_data : list term) (t : Z) : option term :=
  last_match (sorted (λ x : term, x.1.2) terms_data) t.

(** What becomes of an input row: dropped, or kept with its two cells. *)
Definition labelled (terms_data : list term) (r : gmap string cell) : option (gmap string cell) :=
  match stamp r with
  | Some t =>
      match winner terms_data t with
      | Some tm => if bool_decide (tm.1.1 = "Unknown") then None else Some (assign tm t r)
      | None => None
      end
  | None => None
  end.

(** ** Dates and weeks *)
Section time_facts.

Lemma ns_per_day_pos : 0 < ns_per_day.
Proof. reflexivity. Qed.

Lemma weekday_range t : 0 <= weekday t < 7.
Proof. unfold weekday. apply Z.mod_pos_bound. lia. Qed.

Lemma first_monday_le start_date :
  start_date - Timedelta_days (weekday start_date) <= start_date.
Proof.
  pose proof (weekday_range start_date). pose proof ns_per_day_pos.
  unfold Timedelta_days. nia.
Qed.



(** Whole days, then whole weeks: the floor of the difference in weeks. *)
Lemma semester_week_floor start_date t :
  semester_week start_date t =
  (t - (start_date - Timedelta_days (weekday start_date))) / (7 * ns_per_day) + 1.
Proof.
  unfold semester_week, days. cbv zeta.
  rewrite Z.div_div by (pose proof ns_per_day_pos; lia).
  by rewrite (Z.mul_comm ns_per_day 7).
Qed.



End time_facts.

(** ** Runs of the primitives *)
Section run_facts.

Lemma bind_Ok {A B} (m : M A) (k : A → M B) w a w' :
  m w = (Ok a, w') → bind m k w = k a w'.
Proof. intros H. unfold bind. by rewrite H. Qed.

Lemma bind_Raise {A B} (m : M A) (k : A → M B) w e w' :
  m w = (Raise e, w') → bind m k w = (Raise e, w').
Proof. intros H. unfold bind. by rewrite H. Qed.

Lemma deref_run df d w : heap w !! df = Some d → deref df w = (Ok d, w).
Proof. intros H. unfold deref. by rewrite H. Qed.

Lemma DataFrame_copy_run df d w :
  heap w !! df = Some d →
  DataFrame_copy df w = (Ok (fresh (dom (heap w))), set_heap (insert (fresh (dom (heap w))) d) w).
Proof. intros H. unfold DataFrame_copy. by rewrite (bind_Ok _ _ _ _ _ (deref_run _ _ _ H)). Qed.

Lemma len_run df d w : heap w !! df = Some d → len df w = (Ok (length (rows d)), w).
Proof. intros H. unfold len. by rewrite (bind_Ok _ _ _ _ _ (deref_run _ _ _ H)). Qed.

Lemma getitem_run df c d w :
  heap w !! df = Some d → c ∈ columns d →
  getitem df c w = (Ok (column_values c d), w).
Proof.
  intros H Hc. unfold getitem. rewrite (bind_Ok _ _ _ _ _ (deref_run _ _ _ H)).
  by rewrite bool_decide_eq_true_2.
Qed.

Lemma getitem_missing df c d w :
  heap w !! df = Some d → c ∉ columns d →
  getitem df c w = (Raise (KeyError c), w).
Proof.
  intros H Hc. unfold getitem. rewrite (bind_Ok _ _ _ _ _ (deref_run _ _ _ H)).
  by rewrite bool_decide_eq_false_2.
Qed.

Lemma setitem_run df c v d w :
  heap w !! df = Some d →
  setitem df c v w =
  (Ok tt, set_heap (insert df (mkDataFrame (add_column c (columns d))
                                           (map (insert c v) (rows d)))) w).
Proof. intros H. unfold setitem. by rewrite (bind_Ok _ _ _ _ _ (deref_run _ _ _ H)). Qed.

Lemma setitem_series_run df c series d w :
  heap w !! df = Some d → length series = length (rows d) →
  setitem_series df c series w =
  (Ok tt, set_heap (insert df (mkDataFrame (add_column c (columns d))
                      (zip_with (λ r v, <[c:=v]> r) (rows d) series))) w).
Proof.
  intros H Hlen. unfold setitem_series. rewrite (bind_Ok _ _ _ _ _ (deref_run _ _ _ H)).
  by rewrite bool_decide_eq_true_2.
Qed.

Lemma loc_getitem_run df mask c d w :
  heap w !! df = Some d → c ∈ columns d →
  loc_getitem df mask c w = (Ok (select mask (column_values c d)), w).
Proof.
  intros H Hc. unfold loc_getitem. rewrite (bind_Ok _ _ _ _ _ (deref_run _ _ _ H)).
  by rewrite bool_decide_eq_true_2.
Qed.

Lemma loc_setitem_run df mask c v d w :
  heap w !! df = Some d →
  loc_setitem df mask c v w =
  (Ok tt, set_heap (insert df (mkDataFrame (add_column c (columns d))
                                           (put_scalar c v mask (rows d)))) w).
Proof. intros H. unfold loc_setitem. by rewrite (bind_Ok _ _ _ _ _ (deref_run _ _ _ H)). Qed.

Lemma loc_setitem_series_run df mask c series d w :
  heap w !! df = Some d →
  loc_setitem_series df mask c series w =
  (Ok tt, set_heap (insert df (mkDataFrame (add_column c (columns d))
                                           (put_series c mask series (rows d)))) w).
Proof.
  intros H. unfold loc_setitem_series. by rewrite (bind_Ok _ _ _ _ _ (deref_run _ _ _ H)).
Qed.

Lemma getitem_mask_run df mask d w :
  heap w !! df = Some d →
  getitem_mask df mask w =
  (Ok (fresh (dom (heap w))),
   set_heap (insert (fresh (dom (heap w))) (mkDataFrame (columns d) (select mask (rows d)))) w).
Proof. intros H. unfold getitem_mask. by rewrite (bind_Ok _ _ _ _ _ (deref_run _ _ _ H)). Qed.

Lemma drop_duplicates_run df d w :
  heap w !! df = Some d →
  drop_duplicates df w =
  (Ok (fresh (dom (heap w))),
   set_heap (insert (fresh (dom (heap w))) (mkDataFrame (columns d) (keep_first [] (rows d)))) w).
Proof. intros H. unfold drop_duplicates. by rewrite (bind_Ok _ _ _ _ _ (deref_run _ _ _ H)). Qed.

Lemma to_csv_run df path d w :
  heap w !! df = Some d →
  to_csv df path w = (Ok tt, set_files (insert path d) w).
Proof. intros H. unfold to_csv. by rewrite (bind_Ok _ _ _ _ _ (deref_run _ _ _ H)). Qed.

Lemma fresh_loc_None (h : gmap nat DataFrame) : h !! fresh (dom h) = None.
Proof. apply not_elem_of_dom, is_fresh. Qed.

Lemma fresh_loc_ne (h : gmap nat DataFrame) l d : h !! l = Some d → l ≠ fresh (dom h).
Proof. intros H ->. by rewrite fresh_loc_None in H. Qed.

End run_facts.

(** ** Masks and series over the rows of a frame *)
Section series_facts.

Lemma rmap_map_Ok {A B C} (F : B → result C) (f : A → B) (G : A → C) (l : list A) :
  Forall (λ x, F (f x) = Ok (G x)) l → rmap F (map f l) = Ok (map G l).
Proof.
  induction 1 as [|x l Hx _ IH]; [done|].
  simpl. rewrite Hx. simpl. by rewrite IH.
Qed.

Lemma rmap_Ok_Forall {A B} (F : A → result B) (l : list A) (l' : list B) :
  rmap F l = Ok l' → Forall (λ x, ∃ y, F x = Ok y) l.
Proof.
  revert l'. induction l as [|x l IH]; intros l' H; [constructor|].
  simpl in H. destruct (F x) as [y|] eqn:Hx; [|done]. simpl in H.
  destruct (rmap F l) as [ys|] eqn:Hl; [|done].
  constructor; eauto.
Qed.

Lemma rmap_length {A B} (F : A → result B) (l : list A) (l' : list B) :
  rmap F l = Ok l' → length l' = length l.
Proof.
  revert l'. induction l as [|x l IH]; intros l' H; simpl in H.
  - by inversion H.
  - destruct (F x) as [y|]; [|done]. simpl in H.
    destruct (rmap F l) as [ys|]; [|done]. simpl in H.
    inversion H; subst. simpl. f_equal. by apply IH.
Qed.

Lemma select_map {A B} (p : A → bool) (f : A → B) (l : list A) :
  select (map p l) (map f l) = map f (select (map p l) l).
Proof. induction l as [|x l IH]; [done|]. simpl. destruct (p x); simpl; by rewrite IH. Qed.

Lemma select_filter {A} (p : A → bool) (l : list A) :
  select (map p l) l = filter (λ x, p x = true) l.
Proof.
  induction l as [|x l IH]; [done|]. simpl. rewrite IH.
  destruct (p x) eqn:Hp.
  - by rewrite filter_cons_True.
  - rewrite filter_cons_False; [done|]. by rewrite Hp.
Qed.

Lemma mask_and_map {A} (p q : A → bool) (l : list A) :
  mask_and (map p l) (map q l) = map (λ x, p x && q x) l.
Proof. unfold mask_and. induction l as [|x l IH]; [done|]. simpl. by rewrite IH. Qed.

Lemma put_scalar_map c v (p : gmap string cell → bool) rs :
  put_scalar c v (map p rs) rs = map (λ r, if p r then <[c:=v]> r else r) rs.
Proof. induction rs as [|r rs IH]; [done|]. simpl. by rewrite IH. Qed.

Lemma put_series_map c (p : gmap string cell → bool) (f : gmap string cell → cell)
    (g : gmap string cell → gmap string cell) rs :
  put_series c (map p rs) (map f (select (map p rs) rs)) (map g rs) =
  map (λ r, if p r then <[c:=f r]> (g r) else g r) rs.
Proof. induction rs as [|r rs IH]; [done|]. simpl. destruct (p r); simpl; by rewrite IH. Qed.

Lemma zip_with_map_r {A B C} (f : A → B → C) (g : A → B) (l : list A) :
  zip_with f l (map g l) = map (λ x, f x (g x)) l.
Proof. induction l as [|x l IH]; [done|]. simpl. by rewrite IH. Qed.

End series_facts.

(** ** The assignment loop *)

(** The timestamp of a row that has one. *)
Definition ts (r : gmap string cell) : Z := default 0 (stamp r).

(** The body of the loop over [sorted_terms], as both [add_semester_info]
    and [enhance_dataset] have it. *)
Definition loop_body (enhanced_df : loc) : term → M unit :=
  λ '(semester_name, start_date, end_date),
    let! ts1 := getitem enhanced_df "Timestamp" in
    let! ge := lift (ge_datetime ts1 start_date) in
    let! ts2 := getitem enhanced_df "Timestamp" in
    let! le := lift (le_datetime ts2 end_date) in
    let mask := mask_and ge le in
    do! loc_setitem enhanced_df mask "Semester" (CStr semester_name) in
    let days_to_monday := weekday start_date in
    let first_monday := start_date - Timedelta_days days_to_monday in
    let! ts3 := loc_getitem enhanced_df mask "Timestamp" in
    let! since := lift (sub_datetime ts3 first_monday) in
    let days_since_first_monday := map days since in
    loc_setitem_series enhanced_df mask "Semester_Week"
      (map (λ n, CInt (n / 7 + 1)) days_since_first_monday).

(** The columns after the two new ones are there. *)
Definition with_semester_columns (cols : list string) : list string :=
  add_column "Semester_Week" (add_column "Semester" cols).

(** The two cells as they are before the loop. *)
Definition init_row (r : gmap string cell) : gmap string cell :=
  <["Semester_Week" := CNone]> (<["Semester" := CStr "Unknown"]> r).

(** All passes of the loop over one row. *)
Definition run_terms (tms : list term) (r : gmap string cell) : gmap string cell :=
  foldl (λ r tm, step_row tm r) r tms.

Section loop_facts.

Lemma stamp_insert_ne c v r : c ≠ "Timestamp" → stamp (<[c:=v]> r) = stamp r.
Proof. intros Hc. unfold stamp. by rewrite lookup_insert_ne. Qed.

Lemma stamp_assign tm t r : stamp (assign tm t r) = stamp r.
Proof. unfold assign. by rewrite !stamp_insert_ne. Qed.

Lemma stamp_init_row r : stamp (init_row r) = stamp r.
Proof. unfold init_row. by rewrite !stamp_insert_ne. Qed.

Lemma stamp_step_row tm r : stamp (step_row tm r) = stamp r.
Proof.
  unfold step_row. destruct (stamp r) as [t|] eqn:Hr; [|done].
  destruct (in_term tm t); [|done]. by rewrite stamp_assign.
Qed.

Lemma stamp_run_terms tms r : stamp (run_terms tms r) = stamp r.
Proof.
  revert r. induction tms as [|tm tms IH]; intros r; [done|].
  simpl. by rewrite IH, stamp_step_row.
Qed.

Lemma stamp_cell r t : stamp r = Some t → default CNone (r !! "Timestamp") = CTime t.
Proof.
  unfold stamp. destruct (r !! "Timestamp") as [[]|]; intros H; by inversion H.
Qed.

Lemma stamp_ts r : is_Some (stamp r) → stamp r = Some (ts r).
Proof. intros [t Ht]. unfold ts. by rewrite Ht. Qed.

Lemma add_column_elem c c' cols : c ∈ cols → c ∈ add_column c' cols.
Proof. unfold add_column. case_bool_decide; set_solver. Qed.

Lemma add_column_new c cols : c ∈ add_column c cols.
Proof. unfold add_column. case_bool_decide; set_solver. Qed.

Lemma add_column_id c cols : c ∈ cols → add_column c cols = cols.
Proof. intros H. unfold add_column. by rewrite bool_decide_eq_true_2. Qed.

Lemma with_semester_columns_idemp cols :
  with_semester_columns (with_semester_columns cols) = with_semester_columns cols.
Proof.
  unfold with_semester_columns.
  rewrite (add_column_id "Semester"); [|apply add_column_elem, add_column_new].
  rewrite add_column_id; [done|apply add_column_new].
Qed.

Lemma loop_columns cols :
  add_column "Semester_Week" (add_column "Semester" (with_semester_columns cols)) =
  with_semester_columns cols.
Proof. apply with_semester_columns_idemp. Qed.

Lemma ge_datetime_rows (d : DataFrame) when :
  Forall (λ r, is_Some (stamp r)) (rows d) →
  ge_datetime (column_values "Timestamp" d) when = Ok (map (λ r, when <=? ts r) (rows d)).
Proof.
  intros H. unfold ge_datetime, column_values. apply rmap_map_Ok.
  eapply Forall_impl; [exact H|]. intros r Hr. cbv beta.
  by rewrite (stamp_cell _ _ (stamp_ts _ Hr)).
Qed.

Lemma le_datetime_rows (d : DataFrame) when :
  Forall (λ r, is_Some (stamp r)) (rows d) →
  le_datetime (column_values "Timestamp" d) when = Ok (map (λ r, ts r <=? when) (rows d)).
Proof.
  intros H. unfold le_datetime, column_values. apply rmap_map_Ok.
  eapply Forall_impl; [exact H|]. intros r Hr. cbv beta.
  by rewrite (stamp_cell _ _ (stamp_ts _ Hr)).
Qed.

Lemma sub_datetime_rows (p : gmap string cell → bool) (rs : list (gmap string cell)) when :
  Forall (λ r, is_Some (stamp r)) rs →
  sub_datetime (select (map p rs) (map (λ r, default CNone (r !! "Timestamp")) rs)) when =
  Ok (map (λ r, ts r - when) (select (map p rs) rs)).
Proof.
  intros H. rewrite select_map. unfold sub_datetime. apply rmap_map_Ok.
  rewrite select_filter. apply Forall_forall. intros r [_ Hr]%list_elem_of_filter.
  rewrite Forall_forall in H.
  by rewrite (stamp_cell _ _ (stamp_ts _ (H r Hr))).
Qed.

End loop_facts.

Section loop_run.

Lemma step_row_masked tm (r : gmap string cell) :
  is_Some (stamp r) →
  (if (tm.1.2 <=? ts r) && (ts r <=? tm.2)
   then <["Semester_Week" := CInt (days (ts r - (tm.1.2 - Timedelta_days (weekday tm.1.2))) / 7 + 1)]>
          (<["Semester" := CStr tm.1.1]> r)
   else r) = step_row tm r.
Proof.
  intros Hr. unfold step_row. rewrite (stamp_ts _ Hr). unfold in_term.
  destruct ((tm.1.2 <=? ts r) && (ts r <=? tm.2)); done.
Qed.

Lemma loop_body_run e tm w d :
  heap w !! e = Some d → has_timestamps d →
  loop_body e tm w =
  (Ok tt, set_heap (insert e (mkDataFrame (with_semester_columns (columns d))
                                          (map (step_row tm) (rows d)))) w).
Proof.
  intros He [Hcol Hrows]. destruct tm as [[semester_name start_date] end_date].
  unfold loop_body.
  rewrite (bind_Ok _ _ _ _ _ (getitem_run _ _ _ _ He Hcol)).
  unfold lift at 1. rewrite (bind_Ok _ _ w _ w (f_equal (λ x, (x, w)) (ge_datetime_rows d start_date Hrows))).
  rewrite (bind_Ok _ _ _ _ _ (getitem_run _ _ _ _ He Hcol)).
  unfold lift at 1. rewrite (bind_Ok _ _ w _ w (f_equal (λ x, (x, w)) (le_datetime_rows d end_date Hrows))).
  cbv zeta. rewrite mask_and_map.
  rewrite (bind_Ok _ _ _ _ _ (loc_setitem_run _ _ _ _ _ _ He)).
  rewrite put_scalar_map.
  set (p := λ r : gmap string cell, (start_date <=? ts r) && (ts r <=? end_date)).
  set (g := λ r : gmap string cell, if p r then <["Semester":=CStr semester_name]> r else r).
  set (d1 := mkDataFrame (add_column "Semester" (columns d)) (map g (rows d))).
  assert (He1 : heap (set_heap (insert e d1) w) !! e = Some d1) by apply lookup_insert_eq.
  assert (Hcol1 : "Timestamp" ∈ columns d1) by by apply add_column_elem.
  rewrite (bind_Ok _ _ _ _ _ (loc_getitem_run _ _ _ _ _ He1 Hcol1)).
  assert (Hcv : column_values "Timestamp" d1 =
                map (λ r, default CNone (r !! "Timestamp")) (rows d)).
  { unfold column_values, d1. simpl. rewrite map_map. apply map_ext. intros r.
    unfold g. destruct (p r); [|done]. by rewrite lookup_insert_ne. }
  rewrite Hcv. unfold lift at 1.
  rewrite (bind_Ok _ _ _ _ _ (f_equal (λ x, (x, set_heap (insert e d1) w))
             (sub_datetime_rows p (rows d) _ Hrows))).
  rewrite (loc_setitem_series_run _ _ _ _ _ _ He1).
  f_equal. rewrite !map_map. unfold d1 at 2. cbn [rows columns].
  rewrite (put_series_map "Semester_Week" p
             (λ r, CInt (days (ts r - (start_date - Timedelta_days (weekday start_date))) / 7 + 1)) g).
  unfold set_heap. cbn [heap stdout files network]. rewrite insert_insert_eq.
  f_equal. f_equal. f_equal.
  apply map_ext_in. intros r Hr%list_elem_of_In. unfold g.
  rewrite Forall_forall in Hrows.
  rewrite <- (step_row_masked (semester_name, start_date, end_date) r (Hrows r Hr)).
  cbn [fst snd]. fold (p r). by destruct (p r).
Qed.

End loop_run.

Section rows_after_loop.

Lemma set_heap_insert_id w e d : heap w !! e = Some d → set_heap (insert e d) w = w.
Proof. intros H. destruct w. unfold set_heap. simpl in *. by rewrite insert_id. Qed.

Lemma set_heap_set_heap w f g : set_heap f (set_heap g w) = set_heap (λ h, f (g h)) w.
Proof. done. Qed.

Lemma for_each_loop_run e tms w d :
  heap w !! e = Some d → has_timestamps d →
  with_semester_columns (columns d) = columns d →
  for_each tms (loop_body e) w =
  (Ok tt, set_heap (insert e (mkDataFrame (columns d) (map (run_terms tms) (rows d)))) w).
Proof.
  revert w d. induction tms as [|tm tms IH]; intros w d He Hts Hcols.
  - simpl. unfold ret. f_equal. rewrite map_id. destruct d. by rewrite set_heap_insert_id.
  - simpl. rewrite (bind_Ok _ _ _ _ _ (loop_body_run _ tm _ _ He Hts)). rewrite Hcols.
    set (d1 := mkDataFrame (columns d) (map (step_row tm) (rows d))).
    rewrite (IH _ d1); [| apply lookup_insert_eq | | exact Hcols].
    + f_equal. unfold set_heap. simpl. rewrite insert_insert_eq. by rewrite map_map.
    + destruct Hts as [Hc Hr]. split; [exact Hc|]. simpl.
      apply Forall_forall. intros r' [r []]%list_elem_of_In%in_map_iff. subst r'.
      rewrite stamp_step_row. rewrite Forall_forall in Hr. by apply Hr, list_elem_of_In.
Qed.

Lemma assign_absorb tm tm' t t' r : assign tm t (assign tm' t' r) = assign tm t r.
Proof.
  unfold assign. apply map_eq. intros k. rewrite !lookup_insert. by repeat case_decide.
Qed.

Lemma assign_init_row tm t r : assign tm t (init_row r) = assign tm t r.
Proof.
  unfold assign, init_row. apply map_eq. intros k. rewrite !lookup_insert. by repeat case_decide.
Qed.

Lemma run_terms_from tms t (r r0 : gmap string cell) :
  stamp r0 = Some t → (∀ tm, assign tm t r0 = assign tm t r) →
  run_terms tms r0 =
  match last_match tms t with
  | Some tm => assign tm t r
  | None => r0
  end.
Proof.
  revert r0. induction tms as [|tm tms IH]; intros r0 Hs Hr0; [done|].
  simpl. rewrite (IH (step_row tm r0)).
  - destruct (last_match tms t); [done|].
    unfold step_row. rewrite Hs. destruct (in_term tm t); [apply Hr0|done].
  - by rewrite stamp_step_row.
  - intros tm'. unfold step_row. rewrite Hs. destruct (in_term tm t); [|apply Hr0].
    rewrite Hr0. apply assign_absorb.
Qed.

Lemma run_terms_last_match tms t r :
  stamp r = Some t →
  run_terms tms (init_row r) =
  match last_match tms t with
  | Some tm => assign tm t r
  | None => init_row r
  end.
Proof.
  intros Hs. apply run_terms_from.
  - by rewrite stamp_init_row.
  - intros tm. apply assign_init_row.
Qed.

Lemma assign_Semester tm t r : assign tm t r !! "Semester" = Some (CStr tm.1.1).
Proof. unfold assign. rewrite lookup_insert_ne by done. apply lookup_insert_eq. Qed.

Lemma assign_Semester_Week tm t r :
  assign tm t r !! "Semester_Week" = Some (CInt (semester_week tm.1.2 t)).
Proof. unfold assign. apply lookup_insert_eq. Qed.

Lemma assign_other tm t r c :
  c ≠ "Semester" → c ≠ "Semester_Week" → assign tm t r !! c = r !! c.
Proof. intros H1 H2. unfold assign. by rewrite !lookup_insert_ne. Qed.

Lemma init_row_Semester r : init_row r !! "Semester" = Some (CStr "Unknown").
Proof. unfold init_row. rewrite lookup_insert_ne by done. apply lookup_insert_eq. Qed.

Lemma kept_rows terms_data (rs : list (gmap string cell)) :
  Forall (λ r, is_Some (stamp r)) rs →
  select (ne_str (map (λ r, default CNone (r !! "Semester"))
                      (map (λ r, run_terms (sorted (λ x : term, x.1.2) terms_data) (init_row r)) rs))
                 "Unknown")
         (map (λ r, run_terms (sorted (λ x : term, x.1.2) terms_data) (init_row r)) rs) =
  omap (labelled terms_data) rs.
Proof.
  induction 1 as [|r rs [t Ht] _ IH]; [done|].
  change (omap (labelled terms_data) (r :: rs))
    with (match labelled terms_data r with
          | Some y => y :: omap (labelled terms_data) rs
          | None => omap (labelled terms_data) rs
          end).
  cbn [map ne_str select]. unfold ne_str in IH. rewrite IH. clear IH.
  assert (Hl : labelled terms_data r =
               match last_match (sorted (λ x : term, x.1.2) terms_data) t with
               | Some tm => if bool_decide (tm.1.1 = "Unknown") then None else Some (assign tm t r)
               | None => None
               end) by (unfold labelled, winner; by rewrite Ht).
  rewrite Hl. clear Hl.
  rewrite (run_terms_last_match _ t r Ht).
  destruct (last_match _ t) as [tm|].
  - rewrite assign_Semester. simpl.
    destruct tm as [[name start_date] end_date]. cbn [fst snd].
    repeat case_bool_decide; simplify_eq; done.
  - rewrite init_row_Semester. simpl. by repeat case_bool_decide.
Qed.

End rows_after_loop.

Section add_semester_info_run.

Lemma set_heap_insert_insert w e d1 d2 :
  set_heap (insert e d2) (set_heap (insert e d1) w) = set_heap (insert e d2) w.
Proof. unfold set_heap. simpl. by rewrite insert_insert_eq. Qed.

Lemma heap_set_heap_insert w e d : heap (set_heap (insert e d) w) !! e = Some d.
Proof. apply lookup_insert_eq. Qed.

Lemma has_timestamps_init d :
  has_timestamps d →
  has_timestamps (mkDataFrame (with_semester_columns (columns d)) (map init_row (rows d))).
Proof.
  intros [Hc Hr]. split; simpl.
  - by apply add_column_elem, add_column_elem.
  - apply Forall_forall. intros r' [r []]%list_elem_of_In%in_map_iff. subst r'.
    rewrite stamp_init_row. rewrite Forall_forall in Hr. by apply Hr, list_elem_of_In.
Qed.

(** The frame of the copy when the loop is over. *)
Definition after_loop (terms_data : list term) (d : DataFrame) : DataFrame :=
  mkDataFrame (with_semester_columns (columns d))
    (map (λ r, run_terms (sorted (λ x : term, x.1.2) terms_data) (init_row r)) (rows d)).

(** The frame that is returned. *)
Definition semester_frame (terms_data : list term) (d : DataFrame) : DataFrame :=
  mkDataFrame (with_semester_columns (columns d)) (omap (labelled terms_data) (rows d)).

Definition removed_message (terms_data : list term) (d : DataFrame) : output :=
  Text ("Removed " +:+
        pretty (length (rows d) - length (omap (labelled terms_data) (rows d)))%nat +:+
        " rows with 'Unknown' semester data (Summer sessions & COVID semesters)").

Lemma add_semester_info_run df terms_data path w d :
  heap w !! df = Some d → has_timestamps d →
  let e := fresh (dom (heap w)) in
  let h1 := <[e := after_loop terms_data d]> (heap w) in
  let out := fresh (dom h1) in
  add_semester_info df terms_data path w =
  (Ok out,
   mkWorld (<[out := semester_frame terms_data d]> h1)
           (stdout w ++ removed_message terms_data d ::
              match given path with
              | Some p => [Text ("Enhanced data saved to '" +:+ p +:+ "'")]
              | None => []
              end)
           (match given path with
            | Some p => <[p := semester_frame terms_data d]> (files w)
            | None => files w
            end)
           (network w)).
Proof.
  intros Hdf Hts e h1 out. unfold add_semester_info.
  rewrite (bind_Ok _ _ _ _ _ (DataFrame_copy_run _ _ _ Hdf)). fold e.
  rewrite (bind_Ok _ _ _ _ _ (setitem_run _ _ _ _ _ (heap_set_heap_insert _ _ _))).
  rewrite set_heap_insert_insert.
  rewrite (bind_Ok _ _ _ _ _ (setitem_run _ _ _ _ _ (heap_set_heap_insert _ _ _))).
  rewrite set_heap_insert_insert. cbn [columns rows]. rewrite map_map.
  fold (with_semester_columns (columns d)).
  change (map _ (rows d)) with (map init_row (rows d)).
  cbv zeta.
  set (d0 := mkDataFrame (with_semester_columns (columns d)) (map init_row (rows d))).
  pose proof (for_each_loop_run e (sorted (λ x : term, x.1.2) terms_data) _ d0
                (heap_set_heap_insert w e d0) (has_timestamps_init d Hts)
                (with_semester_columns_idemp _)) as Hloop.
  rewrite (bind_Ok _ _ _ _ _ Hloop). clear Hloop.
  rewrite set_heap_insert_insert. unfold d0. cbn [columns rows]. rewrite map_map.
  fold (after_loop terms_data d).
  rewrite (bind_Ok _ _ _ _ _ (len_run _ _ _ (heap_set_heap_insert _ _ _))).
  assert (Hsem : "Semester" ∈ columns (after_loop terms_data d)).
  { simpl. apply add_column_elem, add_column_new. }
  rewrite (bind_Ok _ _ _ _ _ (getitem_run _ _ _ _ (heap_set_heap_insert _ _ _) Hsem)).
  rewrite (bind_Ok _ _ _ _ _ (getitem_mask_run _ _ _ _ (heap_set_heap_insert _ _ _))).
  change (heap (set_heap (insert e (after_loop terms_data d)) w)) with h1. fold out.
  assert (Hkept : select (ne_str (column_values "Semester" (after_loop terms_data d)) "Unknown")
                         (rows (after_loop terms_data d)) =
                  omap (labelled terms_data) (rows d)).
  { unfold column_values, after_loop. cbn [rows]. apply kept_rows, Hts. }
  rewrite Hkept. change (columns (after_loop terms_data d)) with (with_semester_columns (columns d)).
  fold (semester_frame terms_data d).
  rewrite (bind_Ok _ _ _ _ _ (len_run _ _ _ (heap_set_heap_insert _ _ _))).
  change (length (rows (after_loop terms_data d))) with (length (map (λ r, run_terms (sorted (λ x : term, x.1.2) terms_data) (init_row r)) (rows d))).
  rewrite length_map.
  unfold print at 1. unfold bind at 1.
  destruct (given path) as [p|].
  - set (W := set_stdout _ _).
    assert (HW : heap W !! out = Some (semester_frame terms_data d)) by apply lookup_insert_eq.
    unfold bind. rewrite (to_csv_run _ p _ W HW).
    unfold print, ret, W, set_heap, set_stdout, set_files, removed_message.
    cbn [heap stdout files network]. f_equal. f_equal. by rewrite <- app_assoc.
  - unfold ret, bind, set_heap, set_stdout. cbn [heap stdout files network]. done.
Qed.

End add_semester_info_run.

(** ** The order of the terms *)
Section sorted_facts.
Context {A : Type} (key : A → Z).

Lemma elem_of_insort x y (l : list A) : y ∈ insort key x l ↔ y = x ∨ y ∈ l.
Proof.
  induction l as [|z l IH]; simpl.
  - rewrite list_elem_of_singleton. split; [by left|]. intros [?|H]; [done|by apply elem_of_nil in H].
  - destruct (key x <=? key z).
    + by rewrite elem_of_cons.
    + rewrite !elem_of_cons, IH. tauto.
Qed.

Lemma elem_of_sorted y (l : list A) : y ∈ sorted key l ↔ y ∈ l.
Proof.
  induction l as [|x l IH]; simpl; [done|].
  by rewrite elem_of_insort, IH, elem_of_cons.
Qed.

Lemma insort_ascending x (l : list A) :
  StronglySorted (λ a b, key a <= key b) l →
  StronglySorted (λ a b, key a <= key b) (insort key x l).
Proof.
  induction 1 as [|z l Hl IH Hz]; simpl.
  - repeat constructor.
  - destruct (Z.leb_spec (key x) (key z)) as [Hle|Hlt].
    + constructor; [by constructor|].
      constructor; [done|]. eapply Forall_impl; [exact Hz|]. intros a Ha. simpl in Ha. lia.
    + constructor; [done|].
      apply Forall_forall. intros a [->|Ha]%elem_of_insort; [lia|].
      rewrite Forall_forall in Hz. by apply Hz.
Qed.

Lemma sorted_ascending (l : list A) :
  StronglySorted (λ a b, key a <= key b) (sorted key l).
Proof. induction l as [|x l IH]; simpl; [constructor|by apply insort_ascending]. Qed.

Lemma insort_length x (l : list A) : length (insort key x l) = S (length l).
Proof. induction l as [|z l IH]; simpl; [done|]. destruct (key x <=? key z); simpl; lia. Qed.

Lemma sorted_length (l : list A) : length (sorted key l) = length l.
Proof. induction l as [|x l IH]; simpl; [done|]. by rewrite insort_length, IH. Qed.

End sorted_facts.

Section winner_facts.

Lemma in_term_spec tm t : in_term tm t = true ↔ tm.1.2 <= t <= tm.2.
Proof. unfold in_term. rewrite andb_true_iff, !Z.leb_le. done. Qed.

Lemma last_match_None tms t :
  last_match tms t = None ↔ ∀ tm, tm ∈ tms → in_term tm t = false.
Proof.
  induction tms as [|tm tms IH]; simpl.
  - split; [|done]. intros _ tm Htm. by apply elem_of_nil in Htm.
  - destruct (last_match tms t) as [tm'|] eqn:Hl.
    + split; [done|]. intros H. destruct IH as [_ IH].
      discriminate IH. intros tm0 Htm0. apply H. by right.
    + destruct IH as [IH _]. specialize (IH eq_refl).
      destruct (in_term tm t) eqn:Hin.
      * split; [done|]. intros H. rewrite H in Hin; [done|by left].
      * split; [|done]. intros _ tm0 [->|Htm0]%elem_of_cons; [done|by apply IH].
Qed.

Lemma last_match_Some tms t tm :
  last_match tms t = Some tm → tm ∈ tms ∧ in_term tm t = true.
Proof.
  induction tms as [|tm0 tms IH]; simpl; [done|].
  destruct (last_match tms t) as [tm'|].
  - intros [= ->]. destruct (IH eq_refl). split; [by right|done].
  - destruct (in_term tm0 t) eqn:Hin; [|done]. intros [= ->]. split; [by left|done].
Qed.

Lemma last_match_latest tms t tm :
  StronglySorted (λ a b : term, a.1.2 <= b.1.2) tms →
  last_match tms t = Some tm →
  ∀ tm', tm' ∈ tms → in_term tm' t = true → tm'.1.2 <= tm.1.2.
Proof.
  induction 1 as [|tm0 tms Hs IH Hhd]; simpl; [done|].
  destruct (last_match tms t) as [tm1|] eqn:Hl.
  - intros [= ->] tm' [->|Htm']%elem_of_cons Hin.
    + rewrite Forall_forall in Hhd. apply Hhd. by apply (last_match_Some _ _ _ Hl).
    + by apply IH.
  - destruct (in_term tm0 t) eqn:Hin0; [|done].
    intros [= ->] tm' [->|Htm']%elem_of_cons Hin; [lia|].
    rewrite last_match_None in Hl. rewrite (Hl _ Htm') in Hin. done.
Qed.

Lemma winner_Some terms_data t tm :
  winner terms_data t = Some tm →
  tm ∈ terms_data ∧ tm.1.2 <= t <= tm.2 ∧
  ∀ tm', tm' ∈ terms_data → tm'.1.2 <= t <= tm'.2 → tm'.1.2 <= tm.1.2.
Proof.
  unfold winner. intros H.
  destruct (last_match_Some _ _ _ H) as [Hel Hin].
  split; [by apply elem_of_sorted in Hel|]. split; [by apply in_term_spec|].
  intros tm' Hel' Hin'.
  eapply (last_match_latest _ _ _ (sorted_ascending _ _) H).
  - by apply elem_of_sorted.
  - by apply in_term_spec.
Qed.

Lemma winner_None terms_data t :
  winner terms_data t = None ↔ ∀ tm, tm ∈ terms_data → ¬ (tm.1.2 <= t <= tm.2).
Proof.
  unfold winner. rewrite last_match_None. split; intros H tm Htm.
  - rewrite <- in_term_spec. rewrite H; [done|]. by apply elem_of_sorted.
  - apply elem_of_sorted in Htm. specialize (H tm Htm).
    rewrite <- in_term_spec in H. by destruct (in_term tm t).
Qed.

Lemma winner_unique terms_data t tm :
  tm ∈ terms_data → tm.1.2 <= t <= tm.2 →
  (∀ tm', tm' ∈ terms_data → tm'.1.2 <= t <= tm'.2 → tm' = tm) →
  winner terms_data t = Some tm.
Proof.
  intros Hel Hin Huniq. destruct (winner terms_data t) as [tm'|] eqn:Hw.
  - destruct (winner_Some _ _ _ Hw) as (Hel' & Hin' & _). f_equal. by apply Huniq.
  - rewrite winner_None in Hw. by destruct (Hw tm Hel).
Qed.

End winner_facts.

(** * The claims *)

(** ** A small log and two overlapping terms *)

Definition day : Z := ns_per_day.

(** Three accesses: on day 7, day 20 and a little after noon... of day 12. *)
Definition sample_frame : DataFrame :=
  mkDataFrame ["Timestamp"; "Access Type"]
    [ {[ "Timestamp" := CTime (7 * day); "Access Type" := CStr "Jacobs DiWire Room 220C" ]};
      {[ "Timestamp" := CTime (20 * day); "Access Type" := CStr "Jacobs Wood Shop" ]};
      {[ "Timestamp" := CTime (12 * day + 5); "Access Type" := CStr "my jacobs type a" ]} ].

Definition sample_world : world :=
  mkWorld {[ 0%nat := sample_frame ]} [] {[ "data/log.csv" := sample_frame ]}
          (λ _ _, ConnectionError "unreachable").

(** Term A covers days 0 to 10, term B days 5 to 15: day 7 lies in both. *)
Definition overlapping_terms : list term :=
  [("B", 5 * day, 15 * day); ("A", 0, 10 * day)].

Lemma sample_frame_has_timestamps : has_timestamps sample_frame.
Proof.
  split.
  - apply list_elem_of_In. simpl. by left.
  - repeat constructor; eexists; reflexivity.
Defined.

(** C1 as it is written: of the terms whose range holds a timestamp, the
    first in the order of the start dates gives the row its semester. *)
Definition first_match_wins : Prop :=
  ∀ df terms_data path w d out w' d' r' t tm,
    heap w !! df = Some d → has_timestamps d →
    add_semester_info df terms_data path w = (Ok out, w') →
    heap w' !! out = Some d' →
    r' ∈ rows d' → stamp r' = Some t →
    first_match (sorted (λ x : term, x.1.2) terms_data) t = Some tm →
    r' !! "Semester" = Some (CStr tm.1.1).

(** C1, counterexample: with terms A (days 0-10) and B (days 5-15) the
    access of day 7 is labelled B, the later of the two terms, and not A,
    the first one in the order of the start dates. *)
Lemma first_match_wins_fails : ¬ first_match_wins.
Proof.
  intros H.
  pose proof (add_semester_info_run 0%nat overlapping_terms None sample_world sample_frame
                eq_refl sample_frame_has_timestamps) as Hrun.
  cbv zeta in Hrun.
  set (r := {[ "Timestamp" := CTime (7 * day);
               "Access Type" := CStr "Jacobs DiWire Room 220C" ]} : gmap string cell).
  assert (Hsem : Some (CStr "B") = Some (CStr "A")); [|discriminate Hsem].
  etrans; [symmetry; exact (assign_Semester ("B", 5 * day, 15 * day) (7 * day) r)|].
  eapply (H 0%nat overlapping_terms None sample_world sample_frame _ _
            (semester_frame overlapping_terms sample_frame) _ (7 * day) ("A", 0, 10 * day)
            eq_refl sample_frame_has_timestamps Hrun).
  - cbn [heap]. apply lookup_insert_eq.
  - cbn [rows semester_frame]. apply list_elem_of_omap. exists r. split.
    + apply list_elem_of_In. left. reflexivity.
    + unfold labelled.
      replace (stamp r) with (Some (7 * day)) by reflexivity.
      replace (winner overlapping_terms (7 * day)) with (Some ("B", 5 * day, 15 * day) : option term)
        by (vm_compute; reflexivity).
      reflexivity.
  - rewrite stamp_assign. reflexivity.
  - vm_compute. reflexivity.
Qed.

Section add_semester_info_facts.

(** A run on a frame of timestamps returns a new frame and leaves every
    frame that was there as it was. *)
Lemma add_semester_info_returns df terms_data path w d :
  heap w !! df = Some d → has_timestamps d →
  ∃ out w', add_semester_info df terms_data path w = (Ok out, w') ∧
    heap w' !! out = Some (semester_frame terms_data d) ∧
    heap w !! out = None ∧
    (∀ l x, heap w !! l = Some x → heap w' !! l = Some x) ∧
    heap w' !! fresh (dom (heap w)) = Some (after_loop terms_data d).
Proof.
  intros Hdf Hts. pose proof (add_semester_info_run df terms_data path w d Hdf Hts) as Hrun.
  cbv zeta in Hrun.
  set (e := fresh (dom (heap w))) in *.
  set (h1 := <[e := after_loop terms_data d]> (heap w)) in *.
  set (out := fresh (dom h1)) in *.
  assert (Hout : h1 !! out = None) by apply fresh_loc_None.
  assert (Hne : e ≠ out).
  { intros Heq. unfold h1 in Hout. rewrite <- Heq in Hout. by rewrite lookup_insert_eq in Hout. }
  eexists out, _. split; [exact Hrun|]. cbn [heap]. split; [apply lookup_insert_eq|].
  split; [|split].
  - unfold h1 in Hout. by rewrite lookup_insert_ne in Hout.
  - intros l x Hl. rewrite lookup_insert_ne.
    + unfold h1. rewrite lookup_insert_ne; [done|]. intros <-.
      unfold e in Hl. by rewrite fresh_loc_None in Hl.
    + intros <-. unfold h1 in Hout. rewrite lookup_insert_ne in Hout by done.
      by rewrite Hout in Hl.
  - rewrite lookup_insert_ne by done. apply lookup_insert_eq.
Qed.

Lemma labelled_Some terms_data r r' :
  labelled terms_data r = Some r' →
  ∃ t tm, stamp r = Some t ∧ winner terms_data t = Some tm ∧
          tm.1.1 ≠ "Unknown" ∧ r' = assign tm t r.
Proof.
  unfold labelled. destruct (stamp r) as [t|]; [|done].
  destruct (winner terms_data t) as [tm|] eqn:Hw; [|done].
  case_bool_decide as Hname; [done|]. intros [= <-]. by exists t, tm.
Qed.

End add_semester_info_facts.

(** C1 (as amended): on a frame of timestamps [add_semester_info] returns,
    in the order of the input, the rows whose timestamp lies in the range
    of some term, both ends of the range included; the row gets the name
    of [winner], the last term in the order of the start dates whose range
    holds the timestamp: a term of the list, with the latest start date
    among those that hold the timestamp, and the only candidate when the
    ranges do not overlap there. *)
Theorem add_semester_info_last_match_wins df terms_data path w d :
  heap w !! df = Some d → has_timestamps d →
  ∃ out w' d',
    add_semester_info df terms_data path w = (Ok out, w') ∧
    heap w' !! out = Some d' ∧
    rows d' = omap (labelled terms_data) (rows d) ∧
    (∀ r r', labelled terms_data r = Some r' →
       ∃ t tm, stamp r = Some t ∧ winner terms_data t = Some tm ∧
               r' !! "Semester" = Some (CStr tm.1.1)) ∧
    (∀ t tm, winner terms_data t = Some tm →
       tm ∈ terms_data ∧ tm.1.2 <= t <= tm.2 ∧
       ∀ tm', tm' ∈ terms_data → tm'.1.2 <= t <= tm'.2 → tm'.1.2 <= tm.1.2) ∧
    (∀ t, winner terms_data t = None ↔
          ∀ tm, tm ∈ terms_data → ¬ (tm.1.2 <= t <= tm.2)) ∧
    (∀ t tm, tm ∈ terms_data → tm.1.2 <= t <= tm.2 →
       (∀ tm', tm' ∈ terms_data → tm'.1.2 <= t <= tm'.2 → tm' = tm) →
       winner terms_data t = Some tm).
Proof.
  intros Hdf Hts.
  destruct (add_semester_info_returns df terms_data path w d Hdf Hts)
    as (out & w' & Hrun & Hout & _ & _).
  exists out, w', (semester_frame terms_data d).
  split; [exact Hrun|]. split; [exact Hout|]. split; [done|].
  split.
  { intros r r' (t & tm & Hs & Hw & _ & ->)%labelled_Some.
    exists t, tm. by rewrite assign_Semester. }
  split; [apply winner_Some|]. split; [apply winner_None|]. apply winner_unique.
Qed.

Lemma add_semester_info_last_match_wins_witness :
  heap sample_world !! 0%nat = Some sample_frame ∧
  has_timestamps sample_frame ∧
  ∃ out w' d',
    add_semester_info 0%nat overlapping_terms None sample_world = (Ok out, w') ∧
    heap w' !! out = Some d' ∧
    rows d' = omap (labelled overlapping_terms) (rows sample_frame).
Proof.
  split; [reflexivity|]. split; [exact sample_frame_has_timestamps|].
  destruct (add_semester_info_last_match_wins 0%nat overlapping_terms None
              sample_world sample_frame eq_refl sample_frame_has_timestamps)
    as (out & w' & d' & Hrun & Hout & Hrows & _).
  exists out, w', d'. split; [exact Hrun|]. split; [exact Hout|]. exact Hrows.
Defined.

(** ** enhance_dataset *)

(** A frame as [enhance_dataset] expects it: an [Access Type] column of
    strings, besides the timestamps. *)
Definition has_access_types (d : DataFrame) : Prop :=
  "Access Type" ∈ columns d ∧
  Forall (λ r, ∃ s, r !! "Access Type" = Some (CStr s)) (rows d).

Definition equipment_normalization : list (string * string) :=
  [ ("Jacobs DiWire Room 220C", "Jacobs DiWire");
    ("Jacobs Vinyl Cutter and Inkjet", "Jacobs Vinyl Cutter") ].

Definition normalize_row (r : gmap string cell) : gmap string cell :=
  <["Access Type" := replace_cell equipment_normalization (default CNone (r !! "Access Type"))]> r.

Definition normalize_frame (d : DataFrame) : DataFrame :=
  mkDataFrame (columns d) (map normalize_row (rows d)).

Definition category_cell (c : cell) : cell :=
  match map_equipment_category c with
  | Ok v => v
  | Raise _ => CNone
  end.

Definition category_row (r : gmap string cell) : gmap string cell :=
  <["Equipment_Category" := category_cell (default CNone (r !! "Access Type"))]> r.

Definition category_frame (d : DataFrame) : DataFrame :=
  mkDataFrame (add_column "Equipment_Category" (columns d)) (map category_row (rows d)).

(** The frame that [enhance_dataset] returns. *)
Definition enhanced_frame (terms_data : list term) (d : DataFrame) : DataFrame :=
  category_frame (semester_frame terms_data (normalize_frame d)).

Ltac heap_lookup :=
  cbn [heap stdout files network set_heap set_stdout set_files columns rows];
  first [ eassumption | apply lookup_insert_eq ].

Ltac run_step lem :=
  erewrite bind_Ok; [| eapply lem; [heap_lookup | ..]].

Section enhance_dataset_run.

Lemma map_equipment_category_str s : ∃ v, map_equipment_category (CStr s) = Ok (CStr v).
Proof.
  unfold map_equipment_category.
  destruct (list_find _ equipment_categories) as [[? ?]|]; [by eexists|].
  destruct (list_find _ equipment_categories) as [[? ?]|]; by eexists.
Qed.

Lemma replace_cell_str mapping s : ∃ v, replace_cell mapping (CStr s) = CStr v.
Proof. unfold replace_cell. destruct (list_find _ mapping) as [[? ?]|]; by eexists. Qed.

Lemma has_access_types_normalize d :
  has_access_types d → has_access_types (normalize_frame d).
Proof.
  intros [Hc Hr]. split; [done|]. simpl.
  apply Forall_forall. intros r' [r [<- Hin]]%list_elem_of_In%in_map_iff.
  rewrite Forall_forall in Hr. destruct (Hr r) as [s Hs]; [by apply list_elem_of_In|].
  unfold normalize_row. rewrite Hs. change (default CNone (Some (CStr s))) with (CStr s).
  destruct (replace_cell_str equipment_normalization s) as [v ->].
  exists v. apply lookup_insert_eq.
Qed.

Lemma has_timestamps_normalize d :
  has_timestamps d → has_timestamps (normalize_frame d).
Proof.
  intros [Hc Hr]. split; [done|]. simpl.
  apply Forall_forall. intros r' [r [<- Hin]]%list_elem_of_In%in_map_iff.
  unfold normalize_row. rewrite stamp_insert_ne by done.
  rewrite Forall_forall in Hr. by apply Hr, list_elem_of_In.
Qed.

Lemma has_access_types_semester terms_data d :
  has_access_types d → has_access_types (semester_frame terms_data d).
Proof.
  intros [Hc Hr]. split; simpl.
  - by apply add_column_elem, add_column_elem.
  - apply Forall_forall. intros r' (r & Hin & Hl)%list_elem_of_omap.
    apply labelled_Some in Hl as (t & tm & _ & _ & _ & ->).
    rewrite assign_other by done. rewrite Forall_forall in Hr. by apply Hr.
Qed.

Lemma add_equipment_category_run df d w :
  heap w !! df = Some d → has_access_types d →
  ∃ w', add_equipment_category df w = (Ok (fresh (dom (heap w))), w') ∧
        heap w' = <[fresh (dom (heap w)) := category_frame d]> (heap w).
Proof.
  intros Hdf [Hc Hr]. unfold add_equipment_category.
  rewrite (bind_Ok _ _ _ _ _ (DataFrame_copy_run _ _ _ Hdf)).
  set (e := fresh (dom (heap w))).
  run_step getitem_run; [|done].
  assert (Hcat : rmap map_equipment_category (column_values "Access Type" d) =
                 Ok (map (λ r, category_cell (default CNone (r !! "Access Type"))) (rows d))).
  { unfold column_values. apply rmap_map_Ok. eapply Forall_impl; [exact Hr|].
    intros r [s Hs]. cbv beta. rewrite Hs.
    change (default CNone (Some (CStr s))) with (CStr s). unfold category_cell.
    by destruct (map_equipment_category_str s) as [v ->]. }
  unfold lift at 1. erewrite bind_Ok; [|by rewrite Hcat].
  run_step setitem_series_run; [|by rewrite length_map].
  rewrite zip_with_map_r. fold (category_frame d).
  change (mkDataFrame _ (map _ (rows d))) with (category_frame d).
  assert (Hc' : "Access Type" ∈ columns (category_frame d)) by by apply add_column_elem.
  assert (Hc'' : "Equipment_Category" ∈ columns (category_frame d)) by apply add_column_new.
  unfold print at 1. unfold bind at 1.
  run_step getitem_run; [|done].
  unfold print at 1. unfold bind at 1.
  run_step getitem_run; [|done].
  unfold print at 1. unfold bind at 1.
  unfold print at 1. unfold bind at 1.
  run_step getitem_run; [|done].
  unfold print at 1. unfold bind at 1.
  eexists. split; [reflexivity|]. cbn [heap set_heap set_stdout].
  by rewrite insert_insert_eq.
Qed.

End enhance_dataset_run.

Section enhance_dataset_returns.

Lemma enhance_dataset_returns df terms_data path w d :
  heap w !! df = Some d → has_timestamps d → has_access_types d →
  ∃ out w', enhance_dataset df terms_data path w = (Ok out, w') ∧
    heap w' !! out = Some (enhanced_frame terms_data d) ∧
    heap w !! out = None ∧
    (∀ l x, heap w !! l = Some x → heap w' !! l = Some x) ∧
    heap w' !! fresh (dom (heap w)) = Some (after_loop terms_data (normalize_frame d)).
Proof.
  intros Hdf Hts Hacc. unfold enhance_dataset.
  rewrite (bind_Ok _ _ _ _ _ (DataFrame_copy_run _ _ _ Hdf)).
  set (e := fresh (dom (heap w))). cbv zeta.
  run_step getitem_run; [|apply Hacc].
  run_step setitem_series_run; [|unfold replace, column_values; by rewrite !length_map].
  unfold replace, column_values. rewrite map_map, zip_with_map_r.
  rewrite (add_column_id "Access Type") by apply Hacc.
  change (mkDataFrame (columns d) _) with (normalize_frame d).
  unfold print at 1. unfold bind at 1.
  run_step setitem_run.
  run_step setitem_run.
  cbn [columns rows]. rewrite map_map.
  set (d0 := mkDataFrame (add_column "Semester_Week" _) (map _ (rows (normalize_frame d)))).
  assert (Hts0 : has_timestamps d0) by apply has_timestamps_init, has_timestamps_normalize, Hts.
  erewrite bind_Ok;
    [| apply (for_each_loop_run e _ _ d0);
       [heap_lookup | exact Hts0 | apply with_semester_columns_idemp]].
  assert (Hal : mkDataFrame (columns d0)
                   (map (run_terms (sorted (λ x : term, x.1.2) terms_data)) (rows d0)) =
                 after_loop terms_data (normalize_frame d)).
  { unfold d0, after_loop. cbn [columns rows]. by rewrite map_map. }
  rewrite Hal. clear Hal.
  run_step len_run.
  run_step getitem_run; [|apply add_column_elem, add_column_new].
  run_step getitem_mask_run.
  assert (Hkept : select (ne_str (column_values "Semester" (after_loop terms_data (normalize_frame d))) "Unknown")
                         (rows (after_loop terms_data (normalize_frame d))) =
                  omap (labelled terms_data) (rows (normalize_frame d))).
  { unfold column_values, after_loop. cbn [rows]. apply kept_rows, has_timestamps_normalize, Hts. }
  rewrite Hkept.
  change (mkDataFrame (columns (after_loop terms_data (normalize_frame d))) _)
    with (semester_frame terms_data (normalize_frame d)).
  run_step len_run.
  unfold print at 1. unfold bind at 1.
  match goal with
  | |- context [bind (add_equipment_category ?l) _ ?W] =>
      destruct (add_equipment_category_run l (semester_frame terms_data (normalize_frame d)) W)
        as (w2 & Hcat & Hheap2);
      [heap_lookup
      |apply has_access_types_semester, has_access_types_normalize, Hacc
      |]
  end.
  rewrite (bind_Ok _ _ _ _ _ Hcat).
  cbn [heap set_heap set_stdout] in *.
  set (h1 := <[e := after_loop terms_data (normalize_frame d)]> _) in *.
  set (out1 := fresh (dom h1)) in *.
  set (h2 := <[out1 := semester_frame terms_data (normalize_frame d)]> h1) in *.
  set (out := fresh (dom h2)) in *.
  assert (Hfinal : ∃ w', (do! match given path with
                              | Some path0 =>
                                  do! to_csv out path0 in
                                  print (Text ("Enhanced data saved to '" +:+ path0 +:+ "'"))
                              | None => ret ()
                              end in ret out) w2 = (Ok out, w') ∧ heap w' = heap w2).
  { destruct (given path) as [p|].
    - unfold bind. erewrite to_csv_run; [|rewrite Hheap2; apply lookup_insert_eq].
      unfold print, ret. by eexists.
    - unfold bind, ret. by eexists. }
  destruct Hfinal as (w' & Hrun & Hheap').
  exists out, w'. split; [exact Hrun|]. rewrite Hheap', Hheap2.
  fold (enhanced_frame terms_data d).
  assert (He : heap w !! e = None) by apply fresh_loc_None.
  assert (Hout1 : h1 !! out1 = None) by apply fresh_loc_None.
  assert (Hout : h2 !! out = None) by apply fresh_loc_None.
  split; [apply lookup_insert_eq|].
  assert (Hsub : ∀ l x, heap w !! l = Some x → h2 !! l = Some x).
  { intros l x Hl. unfold h2, h1.
    rewrite lookup_insert_ne.
    - rewrite lookup_insert_ne; [|by intros <-; rewrite He in Hl].
      rewrite !lookup_insert_ne; [done|by intros <-; rewrite He in Hl..].
    - intros <-. unfold h1 in Hout1. rewrite lookup_insert_ne in Hout1.
      + rewrite !lookup_insert_ne in Hout1; [by rewrite Hout1 in Hl|by intros <-; rewrite He in Hl..].
      + intros <-. by rewrite lookup_insert_eq in Hout1. }
  split; [|split].
  - destruct (heap w !! out) as [x|] eqn:Hx; [|done].
    by rewrite (Hsub _ _ Hx) in Hout.
  - intros l x Hl. rewrite lookup_insert_ne; [by apply Hsub|].
    intros <-. by rewrite (Hsub _ _ Hl) in Hout.
  - assert (He1 : h1 !! e = Some (after_loop terms_data (normalize_frame d)))
      by apply lookup_insert_eq.
    assert (He2 : h2 !! e = Some (after_loop terms_data (normalize_frame d))).
    { unfold h2. rewrite lookup_insert_ne; [done|]. intros Heq. by rewrite Heq, He1 in Hout1. }
    rewrite lookup_insert_ne; [done|]. intros Heq. by rewrite Heq, He2 in Hout.
Qed.

End enhance_dataset_returns.



(** ** The sentinel and the rows that are kept *)

(** The row is labelled, and its timestamp lies in the range of a term. *)
Definition within_some_term (terms_data : list term) (r' : gmap string cell) : Prop :=
  r' !! "Semester" ≠ Some (CStr "Unknown") ∧
  ∃ t tm, stamp r' = Some t ∧ tm ∈ terms_data ∧ tm.1.2 <= t <= tm.2.

(** [r1] is the row [r] of the input as it is in the working copy after
    the loop: with the sentinel where no term holds its timestamp. *)
Definition sentinel_if_unmatched (terms_data : list term) (r r1 : gmap string cell) : Prop :=
  stamp r1 = stamp r ∧
  ∀ t, stamp r = Some t →
       (∀ tm, tm ∈ terms_data → ¬ (tm.1.2 <= t <= tm.2)) →
       r1 !! "Semester" = Some (CStr "Unknown").

(** The two columns of the assignment, read off a row. *)
Definition semester_cells (r : gmap string cell) : option cell * option cell :=
  (r !! "Semester", r !! "Semester_Week").

Section kept_facts.

Lemma semester_frame_filter terms_data d :
  has_timestamps d →
  rows (semester_frame terms_data d) =
  filter (λ r1, r1 !! "Semester" ≠ Some (CStr "Unknown")) (rows (after_loop terms_data d)).
Proof.
  intros [_ Hr]. cbn [rows semester_frame after_loop].
  rewrite <- (kept_rows terms_data (rows d) Hr).
  unfold ne_str. rewrite map_map.
  rewrite (select_filter (λ r1, negb (bool_decide (default CNone (r1 !! "Semester") = CStr "Unknown")))).
  apply list_filter_iff. intros r1. rewrite negb_true_iff, bool_decide_eq_false.
  destruct (r1 !! "Semester") as [c|]; simpl; [|done].
  split; intros H Hc; apply H; congruence.
Qed.

Lemma after_loop_sentinel terms_data d :
  Forall2 (sentinel_if_unmatched terms_data) (rows d) (rows (after_loop terms_data d)).
Proof.
  cbn [rows after_loop]. induction (rows d) as [|r rs IH]; [constructor|].
  cbn [map]. constructor; [|exact IH]. split.
  - by rewrite stamp_run_terms, stamp_init_row.
  - intros t Ht Hno. rewrite (run_terms_last_match _ t r Ht).
    apply winner_None in Hno. unfold winner in Hno. rewrite Hno.
    apply init_row_Semester.
Qed.

Lemma semester_frame_within terms_data d r' :
  r' ∈ rows (semester_frame terms_data d) → within_some_term terms_data r'.
Proof.
  intros (r & Hr & Hl)%list_elem_of_omap.
  apply labelled_Some in Hl as (t & tm & Hs & Hw & Hname & ->).
  destruct (winner_Some _ _ _ Hw) as (Hel & Hin & _).
  split.
  - rewrite assign_Semester. congruence.
  - exists t, tm. by rewrite stamp_assign.
Qed.

Lemma category_row_semester_cells r : semester_cells (category_row r) = semester_cells r.
Proof. unfold semester_cells, category_row. by rewrite !lookup_insert_ne. Qed.

Lemma stamp_category_row r : stamp (category_row r) = stamp r.
Proof. unfold category_row. by rewrite stamp_insert_ne. Qed.

Lemma stamp_normalize_row r : stamp (normalize_row r) = stamp r.
Proof. unfold normalize_row. by rewrite stamp_insert_ne. Qed.

Lemma enhanced_frame_within terms_data d r' :
  r' ∈ rows (enhanced_frame terms_data d) → within_some_term terms_data r'.
Proof.
  cbn [rows enhanced_frame category_frame].
  intros [r1 [<- Hr1%list_elem_of_In]]%list_elem_of_In%in_map_iff.
  destruct (semester_frame_within _ _ _ Hr1) as (Hsem & t & tm & Hs & Htm).
  split.
  - unfold category_row. by rewrite lookup_insert_ne.
  - exists t, tm. by rewrite stamp_category_row.
Qed.

(** The assignment does not look at the access type. *)
Lemma labelled_normalize_row terms_data r :
  semester_cells <$> labelled terms_data (normalize_row r) =
  semester_cells <$> labelled terms_data r.
Proof.
  unfold labelled. rewrite stamp_normalize_row.
  destruct (stamp r) as [t|]; [|done].
  destruct (winner terms_data t) as [tm|]; [|done].
  case_bool_decide; [done|]. simpl. f_equal.
  unfold semester_cells. by rewrite !assign_Semester, !assign_Semester_Week.
Qed.

Lemma semester_cells_enhanced terms_data (rs : list (gmap string cell)) :
  map semester_cells (map category_row (omap (labelled terms_data) (map normalize_row rs))) =
  map semester_cells (omap (labelled terms_data) rs).
Proof.
  rewrite map_map. induction rs as [|r rs IH]; [done|].
  change (map normalize_row (r :: rs)) with (normalize_row r :: map normalize_row rs).
  change (omap (labelled terms_data) (normalize_row r :: map normalize_row rs))
    with (match labelled terms_data (normalize_row r) with
          | Some y => y :: omap (labelled terms_data) (map normalize_row rs)
          | None => omap (labelled terms_data) (map normalize_row rs)
          end).
  change (omap (labelled terms_data) (r :: rs))
    with (match labelled terms_data r with
          | Some y => y :: omap (labelled terms_data) rs
          | None => omap (labelled terms_data) rs
          end).
  pose proof (labelled_normalize_row terms_data r) as Hl.
  destruct (labelled terms_data (normalize_row r)) as [y|],
           (labelled terms_data r) as [y'|]; simpl in Hl; try done.
  cbn [map]. rewrite IH, category_row_semester_cells.
  assert (semester_cells y = semester_cells y') as -> by congruence. done.
Qed.

(** The rows that are kept come from rows of the input, in order, with
    every other column as it was. *)
Lemma labelled_rows_kept terms_data (rs : list (gmap string cell)) :
  ∃ kept, sublist kept rs ∧
    Forall2 (λ r r', ∀ c, c ≠ "Semester" → c ≠ "Semester_Week" → r' !! c = r !! c)
            kept (omap (labelled terms_data) rs).
Proof.
  induction rs as [|r rs (kept & Hsub & Hall)].
  - exists []. split; constructor.
  - change (omap (labelled terms_data) (r :: rs))
      with (match labelled terms_data r with
            | Some y => y :: omap (labelled terms_data) rs
            | None => omap (labelled terms_data) rs
            end).
    destruct (labelled terms_data r) as [y|] eqn:Hl.
    + exists (r :: kept). split; [by constructor|]. constructor; [|exact Hall].
      apply labelled_Some in Hl as (t & tm & _ & _ & _ & ->).
      intros c Hc1 Hc2. by apply assign_other.
    + exists kept. split; [by constructor|exact Hall].
Qed.

End kept_facts.

Section copies_agree.

Lemma init_row_Semester_Week r : init_row r !! "Semester_Week" = Some CNone.
Proof. unfold init_row. apply lookup_insert_eq. Qed.

Lemma after_loop_normalize terms_data d :
  has_timestamps d →
  map semester_cells (rows (after_loop terms_data (normalize_frame d))) =
  map semester_cells (rows (after_loop terms_data d)).
Proof.
  intros [_ Hr]. cbn [rows after_loop normalize_frame]. rewrite !map_map.
  apply map_ext_in. intros r Hin%list_elem_of_In.
  rewrite Forall_forall in Hr. destruct (Hr r Hin) as [t Ht].
  rewrite (run_terms_last_match _ t (normalize_row r)) by by rewrite stamp_normalize_row.
  rewrite (run_terms_last_match _ t r Ht).
  unfold semester_cells. destruct (last_match _ t) as [tm|].
  - by rewrite !assign_Semester, !assign_Semester_Week.
  - by rewrite !init_row_Semester, !init_row_Semester_Week.
Qed.

Lemma after_loop_sentinel_normalize terms_data d :
  Forall2 (sentinel_if_unmatched terms_data) (rows d)
          (rows (after_loop terms_data (normalize_frame d))).
Proof.
  cbn [rows after_loop normalize_frame]. rewrite map_map.
  induction (rows d) as [|r rs IH]; [constructor|].
  cbn [map]. constructor; [|exact IH]. split.
  - by rewrite stamp_run_terms, stamp_init_row, stamp_normalize_row.
  - intros t Ht Hno.
    rewrite (run_terms_last_match _ t (normalize_row r)) by by rewrite stamp_normalize_row.
    apply winner_None in Hno. unfold winner in Hno. rewrite Hno.
    apply init_row_Semester.
Qed.

End copies_agree.

Lemma sample_frame_has_access_types : has_access_types sample_frame.
Proof.
  split.
  - apply list_elem_of_In. simpl. right. by left.
  - repeat constructor; eexists; reflexivity.
Defined.

(** C3: run on the same frame and the same terms, [enhance_dataset] and
    [add_semester_info] both return, and the [Semester] and
    [Semester_Week] columns agree row by row, in the working copies when
    the two loops are over and in the frames that are returned; the
    normalisation of [Access Type] before the loop of [enhance_dataset]
    and the category column after it do not touch them. *)
Theorem enhance_dataset_assigns_like_add_semester_info
    df1 df2 terms_data path1 path2 w1 w2 d :
  heap w1 !! df1 = Some d → heap w2 !! df2 = Some d →
  has_timestamps d → has_access_types d →
  ∃ out1 w1' d1 copy1 loop1 out2 w2' d2 copy2 loop2,
    add_semester_info df1 terms_data path1 w1 = (Ok out1, w1') ∧
    heap w1' !! out1 = Some d1 ∧ heap w1' !! copy1 = Some loop1 ∧
    enhance_dataset df2 terms_data path2 w2 = (Ok out2, w2') ∧
    heap w2' !! out2 = Some d2 ∧ heap w2' !! copy2 = Some loop2 ∧
    Forall2 (sentinel_if_unmatched terms_data) (rows d) (rows loop1) ∧
    rows d1 = filter (λ r1, r1 !! "Semester" ≠ Some (CStr "Unknown")) (rows loop1) ∧
    map semester_cells (rows loop2) = map semester_cells (rows loop1) ∧
    map semester_cells (rows d2) = map semester_cells (rows d1).
Proof.
  intros Hdf1 Hdf2 Hts Hacc.
  destruct (add_semester_info_returns df1 terms_data path1 w1 d Hdf1 Hts)
    as (out1 & w1' & Hrun1 & Hout1 & _ & _ & Hcopy1).
  destruct (enhance_dataset_returns df2 terms_data path2 w2 d Hdf2 Hts Hacc)
    as (out2 & w2' & Hrun2 & Hout2 & _ & _ & Hcopy2).
  exists out1, w1', (semester_frame terms_data d), (fresh (dom (heap w1))),
         (after_loop terms_data d),
         out2, w2', (enhanced_frame terms_data d), (fresh (dom (heap w2))),
         (after_loop terms_data (normalize_frame d)).
  repeat (split; [done|]).
  split; [apply after_loop_sentinel|].
  split; [by apply semester_frame_filter|].
  split; [by apply after_loop_normalize|].
  apply semester_cells_enhanced.
Qed.

Lemma enhance_dataset_assigns_like_add_semester_info_witness :
  heap sample_world !! 0%nat = Some sample_frame ∧
  has_timestamps sample_frame ∧ has_access_types sample_frame ∧
  ∃ out1 w1' d1 out2 w2' d2,
    add_semester_info 0%nat overlapping_terms None sample_world = (Ok out1, w1') ∧
    heap w1' !! out1 = Some d1 ∧
    enhance_dataset 0%nat overlapping_terms (Some "data/enhanced_log.csv") sample_world
      = (Ok out2, w2') ∧
    heap w2' !! out2 = Some d2 ∧
    map semester_cells (rows d2) = map semester_cells (rows d1).
Proof.
  split; [reflexivity|]. split; [exact sample_frame_has_timestamps|].
  split; [exact sample_frame_has_access_types|].
  destruct (enhance_dataset_assigns_like_add_semester_info 0%nat 0%nat overlapping_terms
              None (Some "data/enhanced_log.csv") sample_world sample_world sample_frame
              eq_refl eq_refl sample_frame_has_timestamps sample_frame_has_access_types)
    as (out1 & w1' & d1 & _ & _ & out2 & w2' & d2 & _ & _ & H1 & H2 & _ & H3 & H4 & _ & _ & _ & _ & H5).
  exists out1, w1', d1, out2, w2', d2.
  split; [exact H1|]. split; [exact H2|]. split; [exact H3|]. split; [exact H4|]. exact H5.
Defined.

(** C6: every row of the frame that [add_semester_info] returns, and of
    the one that [enhance_dataset] returns, has a timestamp within
    [start, end] of some term of the list, and none has the semester
    'Unknown': in the working copy, when the loop is over, the rows whose
    timestamp no term holds have the sentinel 'Unknown', and the rows that
    are returned are those of the copy whose semester is not 'Unknown'. *)
Theorem unknown_rows_are_removed df terms_data path w d :
  heap w !! df = Some d → has_timestamps d →
  (∃ out w' d' copy d_loop,
     add_semester_info df terms_data path w = (Ok out, w') ∧
     heap w' !! out = Some d' ∧ heap w' !! copy = Some d_loop ∧
     Forall2 (sentinel_if_unmatched terms_data) (rows d) (rows d_loop) ∧
     rows d' = filter (λ r1, r1 !! "Semester" ≠ Some (CStr "Unknown")) (rows d_loop) ∧
     ∀ r', r' ∈ rows d' → within_some_term terms_data r') ∧
  (has_access_types d →
   ∃ out w' d' copy d_loop,
     enhance_dataset df terms_data path w = (Ok out, w') ∧
     heap w' !! out = Some d' ∧ heap w' !! copy = Some d_loop ∧
     Forall2 (sentinel_if_unmatched terms_data) (rows d) (rows d_loop) ∧
     rows d' = map category_row
                 (filter (λ r1, r1 !! "Semester" ≠ Some (CStr "Unknown")) (rows d_loop)) ∧
     ∀ r', r' ∈ rows d' → within_some_term terms_data r').
Proof.
  intros Hdf Hts. split.
  - destruct (add_semester_info_returns df terms_data path w d Hdf Hts)
      as (out & w' & Hrun & Hout & _ & _ & Hcopy).
    exists out, w', (semester_frame terms_data d), (fresh (dom (heap w))),
           (after_loop terms_data d).
    repeat (split; [done|]).
    split; [apply after_loop_sentinel|]. split; [by apply semester_frame_filter|].
    apply semester_frame_within.
  - intros Hacc.
    destruct (enhance_dataset_returns df terms_data path w d Hdf Hts Hacc)
      as (out & w' & Hrun & Hout & _ & _ & Hcopy).
    exists out, w', (enhanced_frame terms_data d), (fresh (dom (heap w))),
           (after_loop terms_data (normalize_frame d)).
    repeat (split; [done|]).
    split; [apply after_loop_sentinel_normalize|].
    split.
    { cbn [rows enhanced_frame category_frame]. f_equal.
      apply semester_frame_filter, has_timestamps_normalize, Hts. }
    apply enhanced_frame_within.
Qed.

Lemma unknown_rows_are_removed_witness :
  heap sample_world !! 0%nat = Some sample_frame ∧
  has_timestamps sample_frame ∧
  ∃ out w' d',
    add_semester_info 0%nat overlapping_terms None sample_world = (Ok out, w') ∧
    heap w' !! out = Some d' ∧
    ∀ r', r' ∈ rows d' → within_some_term overlapping_terms r'.
Proof.
  split; [reflexivity|]. split; [exact sample_frame_has_timestamps|].
  destruct (unknown_rows_are_removed 0%nat overlapping_terms None sample_world
              sample_frame eq_refl sample_frame_has_timestamps)
    as [(out & w' & d' & _ & _ & Hrun & Hout & _ & _ & _ & Hall) _].
  exists out, w', d'. split; [exact Hrun|]. split; [exact Hout|]. exact Hall.
Defined.

(** C10: [add_semester_info] works on a copy: after the call the frame of
    the caller, and every other frame that was there, is as it was, and
    the frame returned is a new one; its columns are those of the input
    with [Semester] and [Semester_Week] added, and its rows are the
    retained rows of the input, in order, every column other than these
    two with the cell it had. [enhance_dataset] leaves the frame of the
    caller as it was, too. *)
Theorem add_semester_info_leaves_input df terms_data path w d :
  heap w !! df = Some d → has_timestamps d →
  (∃ out w' d',
     add_semester_info df terms_data path w = (Ok out, w') ∧
     heap w' !! out = Some d' ∧ out ≠ df ∧
     heap w' !! df = Some d ∧
     (∀ l x, heap w !! l = Some x → heap w' !! l = Some x) ∧
     columns d' = add_column "Semester_Week" (add_column "Semester" (columns d)) ∧
     ∃ kept, sublist kept (rows d) ∧
       Forall2 (λ r r', ∀ c, c ≠ "Semester" → c ≠ "Semester_Week" → r' !! c = r !! c)
               kept (rows d')) ∧
  (has_access_types d →
   ∃ out w',
     enhance_dataset df terms_data path w = (Ok out, w') ∧ out ≠ df ∧
     heap w' !! df = Some d ∧
     ∀ l x, heap w !! l = Some x → heap w' !! l = Some x).
Proof.
  intros Hdf Hts. split.
  - destruct (add_semester_info_returns df terms_data path w d Hdf Hts)
      as (out & w' & Hrun & Hout & Hnew & Hold & _).
    exists out, w', (semester_frame terms_data d).
    split; [exact Hrun|]. split; [exact Hout|].
    split; [intros ->; by rewrite Hdf in Hnew|].
    split; [by apply Hold|]. split; [exact Hold|]. split; [done|].
    apply labelled_rows_kept.
  - intros Hacc.
    destruct (enhance_dataset_returns df terms_data path w d Hdf Hts Hacc)
      as (out & w' & Hrun & _ & Hnew & Hold & _).
    exists out, w'. split; [exact Hrun|].
    split; [intros ->; by rewrite Hdf in Hnew|].
    split; [by apply Hold|exact Hold].
Qed.

Lemma add_semester_info_leaves_input_witness :
  heap sample_world !! 0%nat = Some sample_frame ∧
  has_timestamps sample_frame ∧
  ∃ out w' d',
    add_semester_info 0%nat overlapping_terms None sample_world = (Ok out, w') ∧
    heap w' !! out = Some d' ∧ out ≠ 0%nat ∧
    heap w' !! 0%nat = Some sample_frame.
Proof.
  split; [reflexivity|]. split; [exact sample_frame_has_timestamps|].
  destruct (add_semester_info_leaves_input 0%nat overlapping_terms None sample_world
              sample_frame eq_refl sample_frame_has_timestamps)
    as [(out & w' & d' & Hrun & Hout & Hne & Hdf & _) _].
  exists out, w', d'.
  split; [exact Hrun|]. split; [exact Hout|]. split; [exact Hne|]. exact Hdf.
Defined.

Section week_stability.



Lemma term_of_name (pre post : list term) name start_date end_date tm :
  name ∉ map (λ x : term, x.1.1) (pre ++ post) →
  tm ∈ pre ++ (name, start_date, end_date) :: post → tm.1.1 = name →
  tm = (name, start_date, end_date).
Proof.
  intros Hfresh Hel Hname. rewrite elem_of_app, elem_of_cons in Hel.
  destruct Hel as [Hel|[->|Hel]]; [|done|]; exfalso; apply Hfresh;
    apply list_elem_of_In, in_map_iff; exists tm; split; try done;
    apply list_elem_of_In, elem_of_app; auto.
Qed.

(** A row of the returned frame that carries the name of a term of a
    unique name has the week number of that term. *)
Lemma labelled_week_of_name (pre post : list term) name start_date end_date d r' :
  name ∉ map (λ x : term, x.1.1) (pre ++ post) →
  r' ∈ rows (semester_frame (pre ++ (name, start_date, end_date) :: post) d) →
  r' !! "Semester" = Some (CStr name) →
  ∃ t, stamp r' = Some t ∧
       r' !! "Semester_Week" = Some (CInt (semester_week start_date t)).
Proof.
  intros Hfresh (r & Hr & Hl)%list_elem_of_omap Hsem.
  apply labelled_Some in Hl as (t & tm & Hs & Hw & _ & ->).
  rewrite assign_Semester in Hsem.
  destruct (winner_Some _ _ _ Hw) as (Hel & _ & _).
  assert (tm = (name, start_date, end_date)) as ->.
  { eapply term_of_name; [exact Hfresh|exact Hel|congruence]. }
  exists t. by rewrite stamp_assign, assign_Semester_Week.
Qed.

End week_stability.



(** ** Runs on frames without timestamps *)

(** The frame a run returns, or the exception it raises. *)
Definition returned (x : result loc * world) : result DataFrame :=
  match x with
  | (Ok out, w') =>
      match heap w' !! out with
      | Some d' => Ok d'
      | None => Raise ReferenceError
      end
  | (Raise e, _) => Raise e
  end.

(** The exception of the first pass of the loop over a frame that has no
    column of timestamps. *)
Definition first_error (d : DataFrame) (tm : term) : exn :=
  if bool_decide ("Timestamp" ∈ columns d) then
    match ge_datetime (column_values "Timestamp" d) tm.1.2 with
    | Raise ex => ex
    | Ok _ => ReferenceError
    end
  else KeyError "Timestamp".

Section outcome.

Lemma ge_datetime_Ok_stamps (d : DataFrame) when m :
  ge_datetime (column_values "Timestamp" d) when = Ok m →
  Forall (λ r, is_Some (stamp r)) (rows d).
Proof.
  intros H. apply rmap_Ok_Forall in H. unfold column_values in H.
  apply Forall_forall. intros r Hr. rewrite Forall_forall in H.
  destruct (H (default CNone (r !! "Timestamp"))) as [y Hy].
  { apply list_elem_of_In, in_map_iff. exists r. split; [done|by apply list_elem_of_In]. }
  unfold stamp. destruct (r !! "Timestamp") as [[]|]; simpl in Hy; by eauto.
Qed.

Lemma loop_body_raises e tm w d :
  heap w !! e = Some d → ¬ has_timestamps d →
  loop_body e tm w = (Raise (first_error d tm), w).
Proof.
  intros He Hno. destruct tm as [[semester_name start_date] end_date].
  unfold loop_body, first_error. cbn [fst snd].
  case_bool_decide as Hcol.
  - rewrite (bind_Ok _ _ _ _ _ (getitem_run _ _ _ _ He Hcol)).
    destruct (ge_datetime (column_values "Timestamp" d) start_date) as [m|ex] eqn:Hge.
    + destruct Hno. split; [done|]. by eapply ge_datetime_Ok_stamps.
    + by apply bind_Raise.
  - by rewrite (bind_Raise _ _ _ _ _ (getitem_missing _ _ _ _ He Hcol)).
Qed.

Lemma elem_of_add_column c c' cols : c ∈ add_column c' cols ↔ c = c' ∨ c ∈ cols.
Proof.
  unfold add_column. case_bool_decide as H.
  - split; [by right|]. by intros [->|?].
  - rewrite elem_of_app, list_elem_of_singleton. tauto.
Qed.

Lemma has_timestamps_init_inv d :
  has_timestamps (mkDataFrame (with_semester_columns (columns d)) (map init_row (rows d))) →
  has_timestamps d.
Proof.
  intros [Hc Hr]. cbn [columns rows] in *. split.
  - unfold with_semester_columns in Hc.
    apply elem_of_add_column in Hc as [?|Hc]; [done|].
    by apply elem_of_add_column in Hc as [?|Hc].
  - apply Forall_forall. intros r Hin. rewrite Forall_forall in Hr.
    rewrite <- stamp_init_row. apply Hr, list_elem_of_In, in_map. by apply list_elem_of_In.
Qed.

Lemma select_all_false {A B} (f : A → B) (p : B → bool) (l : list A) :
  (∀ x, p (f x) = false) → select (map p (map f l)) (map f l) = [].
Proof. intros H. induction l as [|x l IH]; [done|]. simpl. by rewrite H. Qed.

(** Without terms the loop does nothing, and no row is kept. *)
Lemma add_semester_info_no_terms df path w d :
  heap w !! df = Some d →
  returned (add_semester_info df [] path w) =
  Ok (mkDataFrame (with_semester_columns (columns d)) []).
Proof.
  intros Hdf. unfold add_semester_info.
  rewrite (bind_Ok _ _ _ _ _ (DataFrame_copy_run _ _ _ Hdf)).
  set (e := fresh (dom (heap w))).
  run_step setitem_run. run_step setitem_run.
  cbn [columns rows sorted for_each]. rewrite map_map.
  set (d0 := mkDataFrame (add_column "Semester_Week" _) (map _ (rows d))).
  unfold ret at 1. unfold bind at 1.
  run_step len_run.
  run_step getitem_run; [|apply add_column_elem, add_column_new].
  assert (Hsel : select (ne_str (column_values "Semester" d0) "Unknown") (rows d0) = []).
  { unfold column_values, ne_str, d0. cbn [rows].
    induction (rows d) as [|r rs IH]; [done|]. cbn [map select].
    rewrite lookup_insert_ne by done. rewrite lookup_insert_eq.
    cbn [default]. rewrite bool_decide_eq_true_2 by done. exact IH. }
  run_step getitem_mask_run. rewrite Hsel.
  cbn [heap set_heap].
  set (out := fresh (dom _)).
  run_step len_run.
  unfold print at 1. unfold bind at 1.
  destruct (given path) as [p|].
  - unfold bind. erewrite to_csv_run; [|heap_lookup].
    unfold print, ret, returned. cbn [heap set_heap set_stdout set_files].
    by rewrite lookup_insert_eq.
  - unfold bind, ret, returned. cbn [heap set_heap set_stdout set_files].
    by rewrite lookup_insert_eq.
Qed.

End outcome.

Section determinism.

(** With a term to look at, a frame without timestamps makes the first
    pass of the loop raise. *)
Lemma add_semester_info_raises df tm terms_data path w d :
  heap w !! df = Some d → ¬ has_timestamps d →
  ∃ tm0, returned (add_semester_info df (tm :: terms_data) path w) =
         Raise (first_error
                  (mkDataFrame (with_semester_columns (columns d)) (map init_row (rows d)))
                  tm0) ∧
         head (sorted (λ x : term, x.1.2) (tm :: terms_data)) = Some tm0.
Proof.
  intros Hdf Hno.
  destruct (sorted (λ x : term, x.1.2) (tm :: terms_data)) as [|tm0 tms] eqn:Hsorted.
  { apply (f_equal length) in Hsorted. rewrite sorted_length in Hsorted. done. }
  exists tm0. split; [|done].
  unfold add_semester_info.
  rewrite (bind_Ok _ _ _ _ _ (DataFrame_copy_run _ _ _ Hdf)).
  set (e := fresh (dom (heap w))).
  run_step setitem_run. run_step setitem_run.
  cbn [columns rows]. rewrite map_map. cbv zeta. rewrite Hsorted.
  set (d0 := mkDataFrame (add_column "Semester_Week" _) (map _ (rows d))).
  erewrite bind_Raise; [done|].
  cbn [for_each]. apply bind_Raise.
  apply (loop_body_raises e tm0 _ d0); [heap_lookup|].
  intros H0. apply Hno. by apply has_timestamps_init_inv.
Qed.

(** What a run returns or raises is fixed by the frame and the terms. *)
Lemma add_semester_info_outcome terms_data d :
  ∃ res, ∀ df path w,
    heap w !! df = Some d →
    returned (add_semester_info df terms_data path w) = res.
Proof.
  destruct (decide ("Timestamp" ∈ columns d)) as [Hc|Hc];
    [destruct (decide (Forall (λ r, is_Some (stamp r)) (rows d))) as [Hr|Hr]|].
  - exists (Ok (semester_frame terms_data d)). intros df path w Hdf.
    destruct (add_semester_info_returns df terms_data path w d Hdf (conj Hc Hr))
      as (out & w' & Hrun & Hout & _).
    rewrite Hrun. unfold returned. by rewrite Hout.
  - destruct terms_data as [|tm terms_data].
    + eexists. intros df path w Hdf. by apply add_semester_info_no_terms.
    + destruct (head (sorted (λ x : term, x.1.2) (tm :: terms_data))) as [tm0|] eqn:Hhd.
      * exists (Raise (first_error
                         (mkDataFrame (with_semester_columns (columns d))
                                      (map init_row (rows d))) tm0)).
        intros df path w Hdf.
        destruct (add_semester_info_raises df tm terms_data path w d Hdf) as (tm1 & Hret & Hhd1).
        { by intros [_ ?]. }
        rewrite Hret. congruence.
      * exists (Raise ReferenceError). intros df path w Hdf.
        destruct (add_semester_info_raises df tm terms_data path w d Hdf) as (tm1 & Hret & Hhd1).
        { by intros [_ ?]. }
        congruence.
  - destruct terms_data as [|tm terms_data].
    + eexists. intros df path w Hdf. by apply add_semester_info_no_terms.
    + destruct (head (sorted (λ x : term, x.1.2) (tm :: terms_data))) as [tm0|] eqn:Hhd.
      * exists (Raise (first_error
                         (mkDataFrame (with_semester_columns (columns d))
                                      (map init_row (rows d))) tm0)).
        intros df path w Hdf.
        destruct (add_semester_info_raises df tm terms_data path w d Hdf) as (tm1 & Hret & Hhd1).
        { by intros [? _]. }
        rewrite Hret. congruence.
      * exists (Raise ReferenceError). intros df path w Hdf.
        destruct (add_semester_info_raises df tm terms_data path w d Hdf) as (tm1 & Hret & Hhd1).
        { by intros [? _]. }
        congruence.
Qed.

End determinism.

(** A second world: other frames in the store, other text on the
    terminal, the same log at another location. *)
Definition other_world : world :=
  mkWorld {[ 0%nat := mkDataFrame [] []; 4%nat := sample_frame ]}
          [Text "earlier output"] ∅ (λ _ _, Response 200 None).

(** C5: the assignment is a function of the frame and the terms. Two runs
    of [add_semester_info] on equal frames and equal term lists, in any
    two worlds (other frames in the store, other files, other output so
    far, another output path), return equal frames, or raise the same
    exception. On a frame of timestamps both return. *)
Theorem add_semester_info_deterministic df1 df2 terms_data path1 path2 w1 w2 d :
  heap w1 !! df1 = Some d → heap w2 !! df2 = Some d →
  returned (add_semester_info df1 terms_data path1 w1) =
  returned (add_semester_info df2 terms_data path2 w2) ∧
  (has_timestamps d →
   ∃ d', returned (add_semester_info df1 terms_data path1 w1) = Ok d').
Proof.
  intros Hdf1 Hdf2. split.
  - destruct (add_semester_info_outcome terms_data d) as [res Hres].
    by rewrite (Hres df1 path1 w1 Hdf1), (Hres df2 path2 w2 Hdf2).
  - intros Hts.
    destruct (add_semester_info_returns df1 terms_data path1 w1 d Hdf1 Hts)
      as (out & w' & Hrun & Hout & _).
    exists (semester_frame terms_data d). rewrite Hrun. unfold returned. by rewrite Hout.
Qed.

Lemma add_semester_info_deterministic_witness :
  heap sample_world !! 0%nat = Some sample_frame ∧
  heap other_world !! 4%nat = Some sample_frame ∧
  returned (add_semester_info 0%nat overlapping_terms None sample_world) =
  returned (add_semester_info 4%nat overlapping_terms (Some "out.csv") other_world).
Proof.
  split; [reflexivity|]. split; [reflexivity|].
  exact (proj1 (add_semester_info_deterministic 0%nat 4%nat overlapping_terms None
                  (Some "out.csv") sample_world other_world sample_frame eq_refl eq_refl)).
Defined.

(** ** clean_and_load *)
Section clean_and_load_facts.

Lemma elem_of_keep_first seen (l : list (gmap string cell)) x :
  x ∈ keep_first seen l ↔ x ∈ l ∧ x ∉ seen.
Proof.
  revert seen. induction l as [|y l IH]; intros seen; simpl.
  - split; [by intros ?%elem_of_nil|by intros [?%elem_of_nil _]].
  - case_bool_decide as Hy.
    + rewrite IH, elem_of_cons. split; [tauto|]. intros [[->|?] ?]; tauto.
    + rewrite !elem_of_cons, IH, elem_of_cons. split.
      * intros [->|[? ?]]; [tauto|]. tauto.
      * intros [[->|?] ?]; [tauto|].
        destruct (decide (x = y)); tauto.
Qed.

Lemma NoDup_keep_first seen (l : list (gmap string cell)) : NoDup (keep_first seen l).
Proof.
  revert seen. induction l as [|y l IH]; intros seen; simpl; [constructor|].
  case_bool_decide; [apply IH|]. constructor; [|apply IH].
  rewrite elem_of_keep_first, elem_of_cons. tauto.
Qed.

Lemma sublist_keep_first seen (l : list (gmap string cell)) : sublist (keep_first seen l) l.
Proof.
  revert seen. induction l as [|y l IH]; intros seen; simpl; [constructor|].
  case_bool_decide; constructor; apply IH.
Qed.

Lemma mask_not_map {A} (p : A → bool) (l : list A) :
  mask_not (map p l) = map (λ x, negb (p x)) l.
Proof. unfold mask_not. apply map_map. Qed.

(** The frame that [clean_and_load] returns. *)
Definition cleaned_frame (covid_start covid_end : Z) (d : DataFrame) : DataFrame :=
  mkDataFrame (columns d)
    (filter (λ r, negb ((covid_start <=? ts r) && (ts r <=? covid_end)) = true)
            (keep_first [] (rows d))).

Lemma read_csv_run path d w :
  files w !! path = Some d →
  read_csv path w = (Ok (fresh (dom (heap w))), set_heap (insert (fresh (dom (heap w))) d) w).
Proof. intros H. unfold read_csv, bind. by rewrite H. Qed.

Lemma clean_and_load_returns file_path covid_start covid_end w d :
  files w !! file_path = Some d → has_timestamps d →
  ∃ out w', clean_and_load file_path covid_start covid_end w = (Ok out, w') ∧
    heap w' !! out = Some (cleaned_frame covid_start covid_end d) ∧
    files w' = files w ∧ stdout w' = stdout w.
Proof.
  intros Hfile [Hc Hr]. unfold clean_and_load.
  rewrite (bind_Ok _ _ _ _ _ (read_csv_run _ _ _ Hfile)).
  set (e0 := fresh (dom (heap w))).
  run_step drop_duplicates_run.
  cbn [heap set_heap]. set (e1 := fresh (dom _)).
  set (d1 := mkDataFrame (columns d) (keep_first [] (rows d))).
  assert (Hr1 : Forall (λ r, is_Some (stamp r)) (rows d1)).
  { apply Forall_forall. intros r [Hin _]%elem_of_keep_first.
    rewrite Forall_forall in Hr. by apply Hr. }
  run_step getitem_run; [|exact Hc].
  unfold lift at 1. erewrite bind_Ok; [|by rewrite (ge_datetime_rows d1 covid_start Hr1)].
  run_step getitem_run; [|exact Hc].
  unfold lift at 1. erewrite bind_Ok; [|by rewrite (le_datetime_rows d1 covid_end Hr1)].
  rewrite mask_and_map, mask_not_map.
  run_step getitem_mask_run.
  rewrite (select_filter (λ r, negb ((covid_start <=? ts r) && (ts r <=? covid_end)))).
  unfold ret. eexists _, _. split; [reflexivity|].
  cbn [heap files stdout set_heap]. split; [|done]. apply lookup_insert_eq.
Qed.

End clean_and_load_facts.

(** C9: [clean_and_load] returns, for a file that holds a table with a
    column of timestamps, a frame of the columns of the table whose rows
    are exactly the rows of the table whose timestamp does not lie in the
    closed interval [covid_start, covid_end], each of them once and in the
    order of the file. *)
Theorem clean_and_load_distinct_rows_outside_covid file_path covid_start covid_end w d :
  files w !! file_path = Some d → has_timestamps d →
  ∃ out w' d',
    clean_and_load file_path covid_start covid_end w = (Ok out, w') ∧
    heap w' !! out = Some d' ∧
    columns d' = columns d ∧
    NoDup (rows d') ∧
    sublist (rows d') (rows d) ∧
    (∀ r, r ∈ rows d' ↔
          r ∈ rows d ∧ ∃ t, stamp r = Some t ∧ ¬ (covid_start <= t <= covid_end)) ∧
    (∀ r t, r ∈ rows d' → stamp r = Some t → ¬ (covid_start <= t <= covid_end)).
Proof.
  intros Hfile Hts.
  destruct (clean_and_load_returns file_path covid_start covid_end w d Hfile Hts)
    as (out & w' & Hrun & Hout & _).
  exists out, w', (cleaned_frame covid_start covid_end d).
  split; [exact Hrun|]. split; [exact Hout|]. split; [done|].
  assert (Hmem : ∀ r, r ∈ rows (cleaned_frame covid_start covid_end d) ↔
                      r ∈ rows d ∧ ∃ t, stamp r = Some t ∧ ¬ (covid_start <= t <= covid_end)).
  { intros r. cbn [rows cleaned_frame].
    rewrite list_elem_of_filter, elem_of_keep_first, negb_true_iff, andb_false_iff,
            !Z.leb_gt.
    destruct Hts as [_ Hr]. rewrite Forall_forall in Hr. split.
    - intros (Hout' & Hin & _). split; [done|].
      exists (ts r). split; [by apply stamp_ts, Hr|lia].
    - intros (Hin & t & Ht & Hout'). unfold ts. rewrite Ht. simpl.
      split; [lia|]. split; [done|]. by intros ?%elem_of_nil. }
  split; [apply NoDup_filter, NoDup_keep_first|].
  split.
  { cbn [rows cleaned_frame]. etrans; [apply sublist_filter|apply sublist_keep_first]. }
  split; [exact Hmem|].
  intros r t Hin Ht. apply Hmem in Hin as (_ & t' & Ht' & Hout').
  congruence.
Qed.

(** The log of [sample_frame] with its first access recorded twice. *)
Definition duplicated_log : DataFrame :=
  mkDataFrame (columns sample_frame)
    (rows sample_frame ++
     [ {[ "Timestamp" := CTime (7 * day); "Access Type" := CStr "Jacobs DiWire Room 220C" ]} ]).

Definition log_world : world :=
  mkWorld ∅ [] {[ "data/anonymized_log.csv" := duplicated_log ]}
          (λ _ _, ConnectionError "unreachable").

Lemma duplicated_log_has_timestamps : has_timestamps duplicated_log.
Proof.
  split.
  - apply list_elem_of_In. simpl. by left.
  - repeat constructor; eexists; reflexivity.
Defined.

Lemma clean_and_load_distinct_rows_outside_covid_witness :
  files log_world !! "data/anonymized_log.csv" = Some duplicated_log ∧
  has_timestamps duplicated_log ∧
  ∃ out w' d',
    clean_and_load "data/anonymized_log.csv" (10 * day) (14 * day) log_world = (Ok out, w') ∧
    heap w' !! out = Some d' ∧
    NoDup (rows d') ∧
    ∀ r t, r ∈ rows d' → stamp r = Some t → ¬ (10 * day <= t <= 14 * day).
Proof.
  split; [reflexivity|]. split; [exact duplicated_log_has_timestamps|].
  destruct (clean_and_load_distinct_rows_outside_covid "data/anonymized_log.csv"
              (10 * day) (14 * day) log_world duplicated_log eq_refl
              duplicated_log_has_timestamps)
    as (out & w' & d' & Hrun & Hout & _ & Hnd & _ & _ & Hno).
  exists out, w', d'. split; [exact Hrun|]. split; [exact Hout|]. split; [exact Hnd|]. exact Hno.
Defined.

(** ** identify_peak_weeks *)
Import analyze_usage.

(** A week that appears in at least 75% of the semesters of the week
    that appears in most. *)
Definition common_week (weekly_stats : list week_row) (r : week_row) : Prop :=
  ((75 # 100) * inject_Z (Z.of_nat (max_num_semesters weekly_stats))
   <= inject_Z (Z.of_nat (num_semesters r)))%Q.

Section peak_facts.

Lemma first_max_spec best l :
  first_max best l ∈ best :: l ∧
  ∀ r, r ∈ best :: l → (avg_usage r <= avg_usage (first_max best l))%Q.
Proof.
  revert best. induction l as [|x l IH]; intros best; simpl.
  - split; [by left|]. intros r [->|?%elem_of_nil]%elem_of_cons; [apply Qle_refl|done].
  - destruct (Qle_bool (avg_usage x) (avg_usage best)) eqn:Hle.
    + destruct (IH best) as [Hin Hmax]. split.
      * apply elem_of_cons in Hin as [->|Hin]; [by left|]. right. by right.
      * intros r [->|[->|Hr]%elem_of_cons]%elem_of_cons.
        -- apply Hmax. by left.
        -- eapply Qle_trans; [by apply Qle_bool_iff|]. apply Hmax. by left.
        -- apply Hmax. by right.
    + destruct (IH x) as [Hin Hmax]. split.
      * right. exact Hin.
      * assert (Hlt : (avg_usage best <= avg_usage x)%Q).
        { apply Qlt_le_weak, Qnot_le_lt. intros H%Qle_bool_iff. congruence. }
        intros r [->|[->|Hr]%elem_of_cons]%elem_of_cons.
        -- eapply Qle_trans; [exact Hlt|]. apply Hmax. by left.
        -- apply Hmax. by left.
        -- apply Hmax. by right.
Qed.

Lemma first_min_spec best l :
  first_min best l ∈ best :: l ∧
  ∀ r, r ∈ best :: l → (avg_usage (first_min best l) <= avg_usage r)%Q.
Proof.
  revert best. induction l as [|x l IH]; intros best; simpl.
  - split; [by left|]. intros r [->|?%elem_of_nil]%elem_of_cons; [apply Qle_refl|done].
  - destruct (Qle_bool (avg_usage best) (avg_usage x)) eqn:Hle.
    + destruct (IH best) as [Hin Hmin]. split.
      * apply elem_of_cons in Hin as [->|Hin]; [by left|]. right. by right.
      * intros r [->|[->|Hr]%elem_of_cons]%elem_of_cons.
        -- apply Hmin. by left.
        -- eapply Qle_trans; [|by apply Qle_bool_iff]. apply Hmin. by left.
        -- apply Hmin. by right.
    + destruct (IH x) as [Hin Hmin]. split.
      * right. exact Hin.
      * assert (Hlt : (avg_usage x <= avg_usage best)%Q).
        { apply Qlt_le_weak, Qnot_le_lt. intros H%Qle_bool_iff. congruence. }
        intros r [->|[->|Hr]%elem_of_cons]%elem_of_cons.
        -- eapply Qle_trans; [|exact Hlt]. apply Hmin. by left.
        -- apply Hmin. by left.
        -- apply Hmin. by right.
Qed.

Lemma idxmax_spec (frame : list week_row) :
  frame ≠ [] →
  ∃ r, idxmax frame = Ok (Semester_Week r) ∧ r ∈ frame ∧
       ∀ r', r' ∈ frame → (avg_usage r' <= avg_usage r)%Q.
Proof.
  destruct frame as [|x l]; [done|]. intros _.
  destruct (first_max_spec x l) as [Hin Hmax]. by exists (first_max x l).
Qed.

Lemma idxmin_spec (frame : list week_row) :
  frame ≠ [] →
  ∃ r, idxmin frame = Ok (Semester_Week r) ∧ r ∈ frame ∧
       ∀ r', r' ∈ frame → (avg_usage r <= avg_usage r')%Q.
Proof.
  destruct frame as [|x l]; [done|]. intros _.
  destruct (first_min_spec x l) as [Hin Hmin]. by exists (first_min x l).
Qed.

Lemma label_inj (frame : list week_row) r1 r2 :
  NoDup (map Semester_Week frame) → r1 ∈ frame → r2 ∈ frame →
  Semester_Week r1 = Semester_Week r2 → r1 = r2.
Proof.
  induction frame as [|x l IH]; simpl; [by intros _ ?%elem_of_nil|].
  intros [Hx Hl]%NoDup_cons [->|H1]%elem_of_cons [->|H2]%elem_of_cons Heq; auto.
  - destruct Hx. rewrite Heq. apply list_elem_of_In, in_map. by apply list_elem_of_In.
  - destruct Hx. rewrite <- Heq. apply list_elem_of_In, in_map. by apply list_elem_of_In.
Qed.

Lemma loc_avg_usage_label (frame : list week_row) r :
  NoDup (map Semester_Week frame) → r ∈ frame →
  loc_avg_usage frame (Semester_Week r) = Ok (avg_usage r).
Proof.
  intros Hnd Hr. unfold loc_avg_usage.
  destruct (list_find (λ r0, Semester_Week r0 = Semester_Week r) frame) as [[i r0]|] eqn:Hf.
  - apply list_find_Some in Hf as (Hi & Heq & _).
    by rewrite (label_inj frame r0 r Hnd (list_elem_of_lookup_2 _ _ _ Hi) Hr Heq).
  - apply list_find_None in Hf. rewrite Forall_forall in Hf. by destruct (Hf r Hr).
Qed.

Lemma max_num_semesters_spec (frame : list week_row) :
  (∀ r, r ∈ frame → (num_semesters r ≤ max_num_semesters frame)%nat) ∧
  (frame ≠ [] → ∃ r, r ∈ frame ∧ num_semesters r = max_num_semesters frame).
Proof.
  unfold max_num_semesters. induction frame as [|x l [IH1 IH2]]; simpl.
  - split; [by intros r ?%elem_of_nil|done].
  - split.
    + intros r [->|Hr]%elem_of_cons; [lia|]. specialize (IH1 r Hr). lia.
    + intros _. destruct l as [|y l'].
      * exists x. split; [by left|]. simpl. lia.
      * destruct (IH2 ltac:(done)) as (r & Hr & Heq).
        destruct (Nat.max_spec (num_semesters x)
                    (foldr Nat.max 0%nat (map num_semesters (y :: l')))) as [[_ ->]|[_ ->]].
        -- exists r. split; [by right|done].
        -- exists x. split; [by left|done].
Qed.

Lemma common_week_of_max (frame : list week_row) r :
  num_semesters r = max_num_semesters frame → common_week frame r.
Proof.
  intros Heq. unfold common_week. rewrite Heq.
  unfold Qle, Qmult, inject_Z. simpl. lia.
Qed.

End peak_facts.

(** C7: on weekly statistics of distinct week numbers
    [identify_peak_weeks] returns, as highest week, the week number and
    average of a row whose average is largest among all rows and, as
    lowest week, those of a row whose average is smallest among the rows
    whose [num_semesters] is at least 75% of the largest [num_semesters];
    the week number of a row below that threshold is never the one
    reported as lowest. *)
Theorem identify_peak_weeks_highest_and_common_lowest (weekly_stats : list week_row) :
  weekly_stats ≠ [] → NoDup (map Semester_Week weekly_stats) →
  ∃ hi lo,
    identify_peak_weeks weekly_stats =
      Ok ((Semester_Week hi, avg_usage hi), (Semester_Week lo, avg_usage lo)) ∧
    hi ∈ weekly_stats ∧
    (∀ r, r ∈ weekly_stats → (avg_usage r <= avg_usage hi)%Q) ∧
    lo ∈ weekly_stats ∧ common_week weekly_stats lo ∧
    (∀ r, r ∈ weekly_stats → common_week weekly_stats r →
          (avg_usage lo <= avg_usage r)%Q) ∧
    (∀ r, r ∈ weekly_stats → ¬ common_week weekly_stats r →
          Semester_Week r ≠ Semester_Week lo) ∧
    (∀ r, r ∈ weekly_stats → (num_semesters r ≤ max_num_semesters weekly_stats)%nat) ∧
    (∃ r, r ∈ weekly_stats ∧ num_semesters r = max_num_semesters weekly_stats).
Proof.
  intros Hne Hnd.
  destruct (max_num_semesters_spec weekly_stats) as [Hmax1 Hmax2].
  destruct (Hmax2 Hne) as (rmax & Hrmax & Heqmax).
  set (common := filter (λ r, Qle_bool ((75 # 100) * inject_Z (Z.of_nat (max_num_semesters weekly_stats)))
                                      (inject_Z (Z.of_nat (num_semesters r))) = true) weekly_stats).
  assert (Hcommon : ∀ r, r ∈ common ↔ common_week weekly_stats r ∧ r ∈ weekly_stats).
  { intros r. unfold common. rewrite list_elem_of_filter, Qle_bool_iff. done. }
  assert (Hcne : common ≠ []).
  { intros Hnil. assert (rmax ∈ common) as Hin.
    { apply Hcommon. split; [by apply common_week_of_max|done]. }
    rewrite Hnil in Hin. by apply elem_of_nil in Hin. }
  destruct (idxmax_spec weekly_stats Hne) as (hi & Hhi & Hhi_in & Hhi_max).
  destruct (idxmin_spec common Hcne) as (lo & Hlo & Hlo_in & Hlo_min).
  apply Hcommon in Hlo_in as [Hlo_common Hlo_in].
  exists hi, lo. split.
  { unfold identify_peak_weeks. rewrite Hhi. cbn [rbind].
    rewrite (loc_avg_usage_label weekly_stats hi Hnd Hhi_in). cbn [rbind].
    fold common. rewrite Hlo. cbn [rbind].
    rewrite (loc_avg_usage_label weekly_stats lo Hnd Hlo_in). done. }
  split; [done|]. split; [done|]. split; [done|]. split; [done|].
  split.
  { intros r Hr Hrc. apply Hlo_min, Hcommon. by split. }
  split.
  { intros r Hr Hrc Heq. apply Hrc.
    by rewrite (label_inj weekly_stats r lo Hnd Hr Hlo_in Heq). }
  split; [done|]. by exists rmax.
Qed.

(** Three weeks; week 3 has the lowest average but appears in one semester
    of four. *)
Definition sample_stats : list week_row :=
  [ mkWeekRow 1 (10 # 1) 4; mkWeekRow 2 (5 # 1) 4; mkWeekRow 3 (1 # 1) 1 ].

Example identify_peak_weeks_sample :
  identify_peak_weeks sample_stats = Ok ((1, 10 # 1), (2, 5 # 1)).
Proof. reflexivity. Qed.

Lemma identify_peak_weeks_highest_and_common_lowest_witness :
  sample_stats ≠ [] ∧ NoDup (map Semester_Week sample_stats) ∧
  ∃ hi lo,
    identify_peak_weeks sample_stats =
      Ok ((Semester_Week hi, avg_usage hi), (Semester_Week lo, avg_usage lo)) ∧
    common_week sample_stats lo ∧
    (∀ r, r ∈ sample_stats → ¬ common_week sample_stats r →
          Semester_Week r ≠ Semester_Week lo).
Proof.
  assert (Hne : sample_stats ≠ []) by discriminate.
  assert (Hnd : NoDup (map Semester_Week sample_stats)).
  { simpl. repeat (apply NoDup_cons_2; [intros H; repeat (apply elem_of_cons in H as [H|H]; [discriminate H|]); by apply elem_of_nil in H|]). apply NoDup_nil_2. }
  split; [exact Hne|]. split; [exact Hnd|].
  destruct (identify_peak_weeks_highest_and_common_lowest sample_stats Hne Hnd)
    as (hi & lo & Hrun & _ & _ & _ & Hc & _ & Hex & _).
  by exists hi, lo.
Defined.

(** ** fetch_terms *)
Import api_integration.

(** A program that only looks at the network: it leaves the world as it
    is, and its result is the same in any world of the same network. *)
Definition observer {A} (m : M A) : Prop :=
  ∀ w, snd (m w) = w ∧ ∀ w', network w' = network w → fst (m w') = fst (m w).

(** What the [try] block of the loop gives for a term ID. *)
Definition attempt (strptime_ymd : string → option Z) (headers : list (string * string))
    (w : world) (term_id : Z) : result (json * Z * Z) :=
  fst (request_term strptime_ymd headers term_id w).

Definition fetched {A} (a : result A) : option A :=
  match a with
  | Ok t => Some t
  | Raise _ => None
  end.

Definition reported {A} (term_id : Z) (a : result A) : option output :=
  match a with
  | Ok _ => None
  | Raise e => Some (report term_id e)
  end.

Section fetch_facts.
Variable strptime_ymd : string → option Z.

Lemma observer_ret {A} (a : A) : observer (ret a).
Proof. by intros w. Qed.

Lemma observer_raise {A} e : observer (@raise A e).
Proof. by intros w. Qed.

Lemma observer_lift {A} (r : result A) : observer (lift r).
Proof. by intros w. Qed.

Lemma observer_bind {A B} (m : M A) (k : A → M B) :
  observer m → (∀ a, observer (k a)) → observer (bind m k).
Proof.
  intros Hm Hk w. destruct (Hm w) as [Hw Hnet]. unfold bind.
  destruct (m w) as [[a|e] w0] eqn:Hmw; simpl in Hw; subst w0.
  - destruct (Hk a w) as [Hkw Hknet]. split; [done|].
    intros w' Hw'. specialize (Hnet w' Hw'). destruct (Hm w') as [Hw'' _].
    destruct (m w') as [[a'|e'] w1]; simpl in *; subst w1; [|done].
    inversion Hnet; subst a'. by apply Hknet.
  - split; [done|]. intros w' Hw'. specialize (Hnet w' Hw'). destruct (Hm w') as [Hw'' _].
    destruct (m w') as [[a'|e'] w1]; simpl in *; subst w1; [done|].
    by inversion Hnet.
Qed.

Lemma observer_if {A} (b : bool) (m1 m2 : M A) :
  observer m1 → observer m2 → observer (if b then m1 else m2).
Proof. by destruct b. Qed.

Lemma observer_requests_get url headers : observer (requests_get url headers).
Proof.
  intros w. unfold requests_get. split.
  - by destruct (network w url headers).
  - intros w' ->. by destruct (network w url headers).
Qed.

Lemma observer_raise_for_status response : observer (raise_for_status response).
Proof. unfold raise_for_status. apply observer_if; [apply observer_raise|apply observer_ret]. Qed.

Lemma observer_response_json response : observer (response_json response).
Proof.
  unfold response_json. destruct (response.2); [apply observer_ret|apply observer_raise].
Qed.

Lemma observer_request_term headers term_id :
  observer (request_term strptime_ymd headers term_id).
Proof.
  unfold request_term.
  repeat first
    [ apply observer_bind; [|intros ?]
    | apply observer_requests_get
    | apply observer_raise_for_status
    | apply observer_response_json
    | apply observer_lift
    | apply observer_if
    | apply observer_ret
    | apply observer_raise ].
Qed.

Lemma request_term_run headers term_id w w0 :
  network w = network w0 →
  request_term strptime_ymd headers term_id w = (attempt strptime_ymd headers w0 term_id, w).
Proof.
  intros Hnet. destruct (observer_request_term headers term_id w0) as [_ Hfst].
  destruct (observer_request_term headers term_id w) as [Hsnd _].
  unfold attempt. rewrite <- (Hfst w Hnet).
  destruct (request_term strptime_ymd headers term_id w) as [r w1].
  simpl in Hsnd. by subst w1.
Qed.

Lemma fetch_loop_run headers w0 term_ids :
  (∀ term_id e, term_id ∈ term_ids →
     attempt strptime_ymd headers w0 term_id = Raise e → handled e = true) →
  ∀ terms_data w, network w = network w0 →
    fetch_loop strptime_ymd headers term_ids terms_data w =
    (Ok (terms_data ++ omap (λ term_id, fetched (attempt strptime_ymd headers w0 term_id)) term_ids),
     set_stdout (λ out, out ++ omap (λ term_id, reported term_id (attempt strptime_ymd headers w0 term_id)) term_ids) w).
Proof.
  induction term_ids as [|term_id term_ids IH]; intros Hhandled terms_data w Hnet.
  - simpl. unfold ret, set_stdout. rewrite !app_nil_r. by destruct w.
  - cbn [fetch_loop].
    change (omap ?f (term_id :: term_ids))
      with (match f term_id with Some y => y :: omap f term_ids | None => omap f term_ids end).
    pose proof (request_term_run headers term_id w w0 Hnet) as Hrun.
    destruct (attempt strptime_ymd headers w0 term_id) as [tuple|e] eqn:Hatt.
    + erewrite bind_Ok; [|unfold try_except; by rewrite (bind_Ok _ _ _ _ _ Hrun)].
      cbn [fetched reported].
      rewrite IH; [|intros id e' Hid; apply Hhandled; by right|done].
      cbv beta. rewrite Hatt. cbn [fetched reported]. by rewrite <- app_assoc.
    + erewrite bind_Ok;
        [|unfold try_except; rewrite (bind_Raise _ _ _ _ _ Hrun);
          rewrite (Hhandled term_id e); [reflexivity|by left|done]].
      rewrite IH; [|intros id e' Hid; apply Hhandled; by right|done].
      cbv beta. rewrite Hatt. cbn [fetched reported].
      unfold set_stdout. cbn [heap stdout files network]. by rewrite <- app_assoc.
Qed.

End fetch_facts.

(** * Further properties of the code *)

(** ** fetch_terms: recovery, propagation, and what a reply gives *)

(** The URL that is requested for a term ID. *)
Definition term_url (term_id : Z) : string :=
  base_url +:+ "/" +:+ pretty term_id +:+ "?career-code=ugrd".

(** The value of a member of a JSON object. *)
Definition member (obj : json) (key : string) : option json :=
  match obj with
  | JObj members =>
      match list_find (λ kv, kv.1 = key) members with
      | Some (_, kv) => Some kv.2
      | None => None
      end
  | _ => None
  end.

(** The status codes for which [raise_for_status] raises. *)
Definition error_status (status_code : Z) : bool :=
  (400 <=? status_code) && (status_code <? 600).

Section fetch_terms_facts.
Variable strptime_ymd : string → option Z.

Lemma dict_get_member obj key default v :
  member obj key = Some v → dict_get obj key default = Ok v.
Proof.
  unfold member, dict_get. destruct obj; try done.
  destruct (list_find _ members) as [[i kv]|]; [|done]. by intros [= ->].
Qed.

Lemma dict_get_no_member members key default :
  member (JObj members) key = None → dict_get (JObj members) key default = Ok default.
Proof.
  unfold member, dict_get. by destruct (list_find _ members) as [[i kv]|].
Qed.

Lemma attempt_unfold headers w term_id :
  attempt strptime_ymd headers w term_id =
  fst (request_term strptime_ymd headers term_id w).
Proof. done. Qed.

(** The three failures of the transport: no reply, an error status, a
    body that is no JSON. *)
Lemma attempt_transport_failure headers w term_id :
  match network w (term_url term_id) headers with
  | ConnectionError msg =>
      attempt strptime_ymd headers w term_id = Raise (RequestException msg)
  | Response status_code body =>
      (error_status status_code = true →
       attempt strptime_ymd headers w term_id =
       Raise (RequestException ("HTTPError: " +:+ pretty status_code))) ∧
      (error_status status_code = false → body = None →
       attempt strptime_ymd headers w term_id = Raise (RequestException "JSONDecodeError"))
  end.
Proof.
  unfold attempt, request_term, bind, requests_get. fold (term_url term_id).
  destruct (network w (term_url term_id) headers) as [msg|status_code body]; [done|].
  unfold raise_for_status, error_status. cbn [fst snd]. split.
  - intros ->. done.
  - intros -> ->. done.
Qed.

End fetch_terms_facts.

Section fetch_terms_runs.
Variable strptime_ymd : string → option Z.


End fetch_terms_runs.

(** X1 ([fetch_terms], the [except] clauses): when every failure of a
    request is a [RequestException], a [KeyError] or a [ValueError],
    [fetch_terms] returns; the list holds the tuples of the term IDs whose
    request and parse succeeded, in the order of [term_ids]; one line is
    printed for each ID that failed, in order; frames and files are left
    alone. *)
Theorem fetch_terms_skips_handled_failures
    (strptime_ymd : string → option Z) term_ids app_id app_key w :
  (∀ term_id e, term_id ∈ term_ids →
     attempt strptime_ymd [("app_id", app_id); ("app_key", app_key)] w term_id = Raise e →
     handled e = true) →
  fetch_terms strptime_ymd term_ids app_id app_key w =
  (Ok (omap (λ term_id,
         fetched (attempt strptime_ymd [("app_id", app_id); ("app_key", app_key)] w term_id))
         term_ids),
   mkWorld (heap w)
     (stdout w ++
      omap (λ term_id,
         reported term_id
           (attempt strptime_ymd [("app_id", app_id); ("app_key", app_key)] w term_id))
         term_ids)
     (files w) (network w)).
Proof.
  intros Hhandled. unfold fetch_terms. cbv zeta.
  by rewrite (fetch_loop_run strptime_ymd _ w term_ids Hhandled [] w eq_refl).
Qed.


Section reply_facts.
Variable strptime_ymd : string → option Z.

Lemma truthy_JStr s : s ≠ "" → truthy (JStr s) = true.
Proof. intros H. unfold truthy. by rewrite bool_decide_eq_false_2. Qed.

Lemma truthy_JArr_cons x l : truthy (JArr (x :: l)) = true.
Proof. unfold truthy. by rewrite bool_decide_eq_false_2. Qed.

Lemma requests_get_reply url headers w status_code body :
  network w url headers = Response status_code body →
  requests_get url headers w = (Ok (status_code, body), w).
Proof. intros H. unfold requests_get. by rewrite H. Qed.

Lemma raise_for_status_pass status_code body w :
  error_status status_code = false →
  raise_for_status (status_code, body) w = (Ok tt, w).
Proof. intros H. unfold raise_for_status, error_status in *. cbn [fst]. by rewrite H. Qed.

Lemma lift_dict_get obj key default v w :
  member obj key = Some v → lift (dict_get obj key default) w = (Ok v, w).
Proof. intros H. unfold lift. by rewrite (dict_get_member _ _ _ _ H). Qed.

Lemma check_truthy x e w :
  truthy x = true → (if truthy x then ret tt else raise e) w = (Ok tt, w).
Proof. by intros ->. Qed.

(** The start of every request that gets a JSON body with a first term. *)
Lemma request_term_first_term headers w term_id status_code data resp term others
    (k : json → M (json * Z * Z)) :
  network w (term_url term_id) headers = Response status_code (Some data) →
  error_status status_code = false →
  member data "response" = Some resp →
  member resp "terms" = Some (JArr (term :: others)) →
  (let! response := requests_get (term_url term_id) headers in
   do! raise_for_status response in
   let! data := response_json response in
   let! resp := lift (dict_get data "response" (JObj [])) in
   let! ugrd_term := lift (dict_get resp "terms" (JArr [])) in
   do! (if truthy ugrd_term then ret tt
        else raise (KeyError ("'No UGRD term data found for term ID: " +:+ pretty term_id +:+ "'"))) in
   let! term := lift (getitem0 ugrd_term) in
   k term) w = k term w.
Proof.
  intros Hnet Hst Hresp Hterms.
  rewrite (bind_Ok _ _ _ _ _ (requests_get_reply _ _ _ _ _ Hnet)).
  rewrite (bind_Ok _ _ _ _ _ (raise_for_status_pass _ _ _ Hst)).
  unfold response_json at 1. cbn [snd]. unfold ret at 1. unfold bind at 1.
  rewrite (bind_Ok _ _ _ _ _ (lift_dict_get _ _ _ _ _ Hresp)).
  rewrite (bind_Ok _ _ _ _ _ (lift_dict_get _ _ _ _ _ Hterms)).
  erewrite bind_Ok; [|apply check_truthy; apply (truthy_JArr_cons term others)].
  by unfold lift at 1, bind at 1.
Qed.

Lemma request_term_good_reply headers w term_id status_code data resp term others
    name session more begin deadline t1 t2 :
  network w (term_url term_id) headers = Response status_code (Some data) →
  error_status status_code = false →
  member data "response" = Some resp →
  member resp "terms" = Some (JArr (term :: others)) →
  member term "name" = Some (JStr name) → name ≠ "" →
  member term "sessions" = Some (JArr (session :: more)) →
  member session "beginDate" = Some (JStr begin) → begin ≠ "" →
  member term "fullyGradedDeadline" = Some (JStr deadline) → deadline ≠ "" →
  strptime_ymd begin = Some t1 → strptime_ymd deadline = Some t2 →
  attempt strptime_ymd headers w term_id = Ok (JStr name, t1, t2).
Proof.
  intros Hnet Hst Hresp Hterms Hname Hname' Hsess Hbegin Hbegin' Hdead Hdead' Ht1 Ht2.
  unfold attempt, request_term. cbv zeta. fold (term_url term_id).
  rewrite (request_term_first_term headers w term_id status_code data resp term others
             _ Hnet Hst Hresp Hterms).
  rewrite (bind_Ok _ _ _ _ _ (lift_dict_get _ _ _ _ _ Hname)).
  erewrite bind_Ok; [|apply check_truthy; apply (truthy_JStr _ Hname')].
  rewrite (bind_Ok _ _ _ _ _ (lift_dict_get _ _ _ _ _ Hsess)).
  erewrite bind_Ok; [|apply check_truthy; apply (truthy_JArr_cons session more)].
  unfold lift at 1, bind at 1. cbn [getitem0].
  rewrite (bind_Ok _ _ _ _ _ (lift_dict_get _ _ _ _ _ Hbegin)).
  erewrite bind_Ok; [|apply check_truthy; apply (truthy_JStr _ Hbegin')].
  rewrite (bind_Ok _ _ _ _ _ (lift_dict_get _ _ _ _ _ Hdead)).
  erewrite bind_Ok; [|apply check_truthy; apply (truthy_JStr _ Hdead')].
  unfold lift, bind, ret, strptime. by rewrite Ht1, Ht2.
Qed.

Lemma request_term_no_sessions headers w term_id status_code data resp members others :
  network w (term_url term_id) headers = Response status_code (Some data) →
  error_status status_code = false →
  member data "response" = Some resp →
  member resp "terms" = Some (JArr (JObj members :: others)) →
  member (JObj members) "name" = None ∨ member (JObj members) "sessions" = None →
  ∃ msg, attempt strptime_ymd headers w term_id = Raise (KeyError msg).
Proof.
  intros Hnet Hst Hresp Hterms Hmiss.
  unfold attempt, request_term. cbv zeta. fold (term_url term_id).
  rewrite (request_term_first_term headers w term_id status_code data resp _ others
             _ Hnet Hst Hresp Hterms).
  destruct (member (JObj members) "name") as [semester_name|] eqn:Hname.
  - rewrite (bind_Ok _ _ _ _ _ (lift_dict_get _ _ _ _ _ Hname)).
    destruct (truthy semester_name) eqn:Htruthy.
    + erewrite bind_Ok; [|reflexivity].
      destruct Hmiss as [?|Hsess]; [done|].
      erewrite bind_Ok; [|unfold lift; by rewrite (dict_get_no_member _ _ _ Hsess)].
      erewrite bind_Raise; [|reflexivity]. by eexists.
    + erewrite bind_Raise; [|reflexivity]. by eexists.
  - erewrite bind_Ok; [|unfold lift; by rewrite (dict_get_no_member _ _ _ Hname)].
    erewrite bind_Raise; [|reflexivity]. by eexists.
Qed.

Lemma request_term_body_not_object headers w term_id status_code data :
  network w (term_url term_id) headers = Response status_code (Some data) →
  error_status status_code = false →
  (∀ members, data ≠ JObj members) →
  attempt strptime_ymd headers w term_id =
  Raise (AttributeError "object has no attribute 'get'").
Proof.
  intros Hnet Hst Hdata.
  unfold attempt, request_term. cbv zeta. fold (term_url term_id).
  rewrite (bind_Ok _ _ _ _ _ (requests_get_reply _ _ _ _ _ Hnet)).
  rewrite (bind_Ok _ _ _ _ _ (raise_for_status_pass _ _ _ Hst)).
  unfold response_json at 1. cbn [snd]. unfold ret at 1. unfold bind at 1.
  unfold lift at 1, bind at 1.
  destruct data; try done. by destruct (Hdata members).
Qed.

End reply_facts.

(** A reply that is no reply to parse: the request failed, the status is
    an error status, or the body is no JSON. *)
Definition transport_failure (r : reply) : Prop :=
  match r with
  | ConnectionError _ => True
  | Response status_code body => error_status status_code = true ∨ body = None
  end.

(** A server for the examples: Spring 2024 is served well; the other
    term IDs get a body that is a list, a term without sessions, a 404,
    a date that does not parse, or no reply at all. *)
Definition spring_2024 : json :=
  JObj [("response",
         JObj [("terms",
                JArr [JObj [("name", JStr "2024 Spring");
                            ("sessions", JArr [JObj [("beginDate", JStr "2024-01-16")]]);
                            ("fullyGradedDeadline", JStr "2024-05-10")]])])].

Definition fall_2023_without_sessions : json :=
  JObj [("response", JObj [("terms", JArr [JObj [("name", JStr "2023 Fall")]])])].

Definition spring_2023_bad_date : json :=
  JObj [("response",
         JObj [("terms",
                JArr [JObj [("name", JStr "2023 Spring");
                            ("sessions", JArr [JObj [("beginDate", JStr "17 January 2023")]]);
                            ("fullyGradedDeadline", JStr "2023-05-12")]])])].

Definition sample_network (url : string) (headers : list (string * string)) : reply :=
  if bool_decide (url = term_url 2242) then Response 200 (Some spring_2024)
  else if bool_decide (url = term_url 2238) then Response 200 (Some (JArr []))
  else if bool_decide (url = term_url 2232) then Response 200 (Some spring_2023_bad_date)
  else if bool_decide (url = term_url 2228) then Response 200 (Some fall_2023_without_sessions)
  else if bool_decide (url = term_url 2222) then Response 404 None
  else ConnectionError "timed out".

Definition sample_strptime (s : string) : option Z :=
  if bool_decide (s = "2024-01-16") then Some (19738 * day)
  else if bool_decide (s = "2024-05-10") then Some (19853 * day)
  else if bool_decide (s = "2023-05-12") then Some (19489 * day)
  else None.

Definition api_world : world := mkWorld ∅ [] ∅ sample_network.

Lemma fetch_terms_skips_handled_failures_witness :
  (∀ term_id e, term_id ∈ [2242; 2232; 2228; 2222; 2218] →
     attempt sample_strptime [("app_id", "id"); ("app_key", "key")] api_world term_id = Raise e →
     handled e = true) ∧
  fst (fetch_terms sample_strptime [2242; 2232; 2228; 2222; 2218] "id" "key" api_world) =
  Ok [(JStr "2024 Spring", 19738 * day, 19853 * day)] ∧
  length (stdout (snd (fetch_terms sample_strptime [2242; 2232; 2228; 2222; 2218]
                         "id" "key" api_world))) = 4%nat.
Proof.
  assert (H : ∀ term_id e, term_id ∈ [2242; 2232; 2228; 2222; 2218] →
     attempt sample_strptime [("app_id", "id"); ("app_key", "key")] api_world term_id = Raise e →
     handled e = true).
  { intros term_id e Hin.
    repeat (apply elem_of_cons in Hin as [->|Hin];
            [vm_compute; intros [= <-]; reflexivity|]).
    by apply elem_of_nil in Hin. }
  split; [exact H|].
  rewrite (fetch_terms_skips_handled_failures sample_strptime _ "id" "key" api_world H).
  split; reflexivity.
Defined.


(** X3 ([fetch_terms], lines 52-87): from a reply of a good status whose
    JSON body has [response.terms], the tuple is read off the first term
    only: its [name], the [beginDate] of its first session as start, and
    its [fullyGradedDeadline] as end, both parsed as dates; further terms
    and sessions are not looked at. *)
Theorem request_reads_first_term_and_session
    (strptime_ymd : string → option Z) headers w term_id status_code data resp term others
    name session more begin deadline t1 t2 :
  network w (term_url term_id) headers = Response status_code (Some data) →
  error_status status_code = false →
  member data "response" = Some resp →
  member resp "terms" = Some (JArr (term :: others)) →
  member term "name" = Some (JStr name) → name ≠ "" →
  member term "sessions" = Some (JArr (session :: more)) →
  member session "beginDate" = Some (JStr begin) → begin ≠ "" →
  member term "fullyGradedDeadline" = Some (JStr deadline) → deadline ≠ "" →
  strptime_ymd begin = Some t1 → strptime_ymd deadline = Some t2 →
  request_term strptime_ymd headers term_id w = (Ok (JStr name, t1, t2), w).
Proof.
  intros Hnet Hst Hresp Hterms Hname Hname' Hsess Hbegin Hbegin' Hdead Hdead' Ht1 Ht2.
  rewrite (request_term_run strptime_ymd headers term_id w w eq_refl).
  by rewrite (request_term_good_reply strptime_ymd headers w term_id status_code data resp
                term others name session more begin deadline t1 t2).
Qed.

Lemma request_reads_first_term_and_session_witness :
  request_term sample_strptime [("app_id", "id"); ("app_key", "key")] 2242 api_world =
  (Ok (JStr "2024 Spring", 19738 * day, 19853 * day), api_world).
Proof.
  apply (request_reads_first_term_and_session sample_strptime _ api_world 2242 200
           spring_2024
           (JObj [("terms",
                   JArr [JObj [("name", JStr "2024 Spring");
                               ("sessions", JArr [JObj [("beginDate", JStr "2024-01-16")]]);
                               ("fullyGradedDeadline", JStr "2024-05-10")]])])
           (JObj [("name", JStr "2024 Spring");
                  ("sessions", JArr [JObj [("beginDate", JStr "2024-01-16")]]);
                  ("fullyGradedDeadline", JStr "2024-05-10")])
           [] "2024 Spring" (JObj [("beginDate", JStr "2024-01-16")]) []
           "2024-01-16" "2024-05-10");
    first [reflexivity | discriminate].
Defined.

(** X4 ([fetch_terms], lines 46-52 and 89-91): a request that fails, a
    reply of a status from 400 to 599 (whatever its body) and a body that
    is no JSON all raise a [RequestException]: the term ID is reported
    with "API request failed" and skipped. *)
Theorem transport_failures_are_request_exceptions
    (strptime_ymd : string → option Z) headers w term_id :
  transport_failure (network w (term_url term_id) headers) →
  ∃ msg,
    request_term strptime_ymd headers term_id w = (Raise (RequestException msg), w) ∧
    handled (RequestException msg) = true ∧
    report term_id (RequestException msg) =
      Text ("API request failed for term ID " +:+ pretty term_id +:+ ": " +:+ msg).
Proof.
  intros Hfail.
  rewrite (request_term_run strptime_ymd headers term_id w w eq_refl).
  pose proof (attempt_transport_failure strptime_ymd headers w term_id) as Hatt.
  destruct (network w (term_url term_id) headers) as [msg|status_code body].
  - exists msg. by rewrite Hatt.
  - destruct Hatt as [Herr Hbody].
    destruct (error_status status_code) eqn:Hst.
    + eexists. by rewrite (Herr eq_refl).
    + destruct Hfail as [?| ->]; [congruence|]. eexists. by rewrite (Hbody eq_refl eq_refl).
Qed.

Lemma transport_failures_are_request_exceptions_witness :
  transport_failure (network api_world (term_url 2222) [("app_id", "id"); ("app_key", "key")]) ∧
  ∃ msg,
    request_term sample_strptime [("app_id", "id"); ("app_key", "key")] 2222 api_world =
      (Raise (RequestException msg), api_world).
Proof.
  assert (H : transport_failure
                (network api_world (term_url 2222) [("app_id", "id"); ("app_key", "key")])).
  { vm_compute. by left. }
  split; [exact H|].
  destruct (transport_failures_are_request_exceptions sample_strptime _ api_world 2222 H)
    as (msg & Hrun & _).
  by exists msg.
Defined.

(** X5 ([fetch_terms], lines 61-71 and 92-94): a first term that is an
    object without a [name] or without [sessions] raises a [KeyError]
    (the lookups use [get], the code raises by itself): the term ID is
    reported with "Key error" and skipped. *)
Theorem incomplete_term_is_a_key_error
    (strptime_ymd : string → option Z) headers w term_id status_code data resp members others :
  network w (term_url term_id) headers = Response status_code (Some data) →
  error_status status_code = false →
  member data "response" = Some resp →
  member resp "terms" = Some (JArr (JObj members :: others)) →
  member (JObj members) "name" = None ∨ member (JObj members) "sessions" = None →
  ∃ msg,
    request_term strptime_ymd headers term_id w = (Raise (KeyError msg), w) ∧
    handled (KeyError msg) = true.
Proof.
  intros Hnet Hst Hresp Hterms Hmiss.
  rewrite (request_term_run strptime_ymd headers term_id w w eq_refl).
  destruct (request_term_no_sessions strptime_ymd headers w term_id status_code data resp
              members others Hnet Hst Hresp Hterms Hmiss) as [msg Hmsg].
  rewrite Hmsg. by exists msg.
Qed.

Lemma incomplete_term_is_a_key_error_witness :
  ∃ msg,
    request_term sample_strptime [("app_id", "id"); ("app_key", "key")] 2228 api_world =
      (Raise (KeyError msg), api_world).
Proof.
  destruct (incomplete_term_is_a_key_error sample_strptime
              [("app_id", "id"); ("app_key", "key")] api_world 2228 200
              fall_2023_without_sessions
              (JObj [("terms", JArr [JObj [("name", JStr "2023 Fall")]])])
              [("name", JStr "2023 Fall")] []
              eq_refl eq_refl eq_refl eq_refl (or_intror eq_refl))
    as (msg & Hrun & _).
  by exists msg.
Defined.

(** ** add_semester_info: edges *)

(** X6 ([add_semester_info], lines 100-124): with an empty list of terms
    every row keeps the sentinel and is removed: whatever the frame holds
    (it need not even have timestamps), the frame returned has the columns
    of the input and the two new ones, and no rows. *)
Theorem no_terms_no_rows df path w d :
  heap w !! df = Some d →
  ∃ out w',
    add_semester_info df [] path w = (Ok out, w') ∧
    heap w' !! out =
      Some (mkDataFrame (add_column "Semester_Week" (add_column "Semester" (columns d))) []).
Proof.
  intros Hdf. pose proof (add_semester_info_no_terms df path w d Hdf) as Hret.
  unfold returned in Hret.
  destruct (add_semester_info df [] path w) as [[out|e] w']; [|done].
  exists out, w'. split; [done|].
  destruct (heap w' !! out) as [d'|]; [|done]. by inversion Hret.
Qed.

(** A log without a column of timestamps. *)
Definition frame_without_timestamps : DataFrame :=
  mkDataFrame ["When"; "Access Type"]
    [ {[ "When" := CStr "2024-01-20 10:05:00"; "Access Type" := CStr "Jacobs Wood Shop" ]} ].

Definition world_without_timestamps : world :=
  mkWorld {[ 7%nat := frame_without_timestamps ]} [] ∅ (λ _ _, ConnectionError "unreachable").

Lemma no_terms_no_rows_witness :
  heap world_without_timestamps !! 7%nat = Some frame_without_timestamps ∧
  ∃ out w',
    add_semester_info 7%nat [] None world_without_timestamps = (Ok out, w') ∧
    (rows <$> heap w' !! out) = Some [].
Proof.
  split; [reflexivity|].
  destruct (no_terms_no_rows 7%nat None world_without_timestamps frame_without_timestamps
              eq_refl) as (out & w' & Hrun & Hout).
  exists out, w'. split; [exact Hrun|]. by rewrite Hout.
Defined.

Section missing_timestamp.

Lemma add_semester_info_first_pass_raises df tm terms_data path w d :
  heap w !! df = Some d → ¬ has_timestamps d →
  ∃ tm0 w',
    add_semester_info df (tm :: terms_data) path w =
      (Raise (first_error (mkDataFrame (with_semester_columns (columns d))
                                       (map init_row (rows d))) tm0), w') ∧
    heap w' !! df = Some d ∧ files w' = files w ∧ stdout w' = stdout w.
Proof.
  intros Hdf Hno.
  destruct (sorted (λ x : term, x.1.2) (tm :: terms_data)) as [|tm0 tms] eqn:Hsorted.
  { apply (f_equal length) in Hsorted. rewrite sorted_length in Hsorted. done. }
  exists tm0. unfold add_semester_info.
  rewrite (bind_Ok _ _ _ _ _ (DataFrame_copy_run _ _ _ Hdf)).
  set (e := fresh (dom (heap w))).
  run_step setitem_run. run_step setitem_run.
  cbn [columns rows]. rewrite map_map. cbv zeta. rewrite Hsorted.
  set (d0 := mkDataFrame (add_column "Semester_Week" _) (map _ (rows d))).
  eexists. split.
  - erewrite bind_Raise; [reflexivity|].
    cbn [for_each]. apply bind_Raise.
    apply (loop_body_raises e tm0 _ d0); [heap_lookup|].
    intros H0. apply Hno. by apply has_timestamps_init_inv.
  - cbn [heap files stdout set_heap]. split; [|done].
    assert (Hne : e ≠ df) by (intros Heq; unfold e in Heq; rewrite <- Heq in Hdf;
                              by rewrite fresh_loc_None in Hdf).
    by rewrite !lookup_insert_ne.
Qed.

End missing_timestamp.

(** X7 ([add_semester_info], line 109): on a frame that has no
    [Timestamp] column, with at least one term, the first pass of the loop
    raises [KeyError: 'Timestamp']; nothing is printed, no file is
    written, and the frame of the caller is as it was. *)
Theorem missing_timestamp_column_is_a_key_error df tm terms_data path w d :
  heap w !! df = Some d → "Timestamp" ∉ columns d →
  ∃ w',
    add_semester_info df (tm :: terms_data) path w = (Raise (KeyError "Timestamp"), w') ∧
    heap w' !! df = Some d ∧ files w' = files w ∧ stdout w' = stdout w.
Proof.
  intros Hdf Hno.
  destruct (add_semester_info_first_pass_raises df tm terms_data path w d Hdf)
    as (tm0 & w' & Hrun & Hrest); [by intros [? _]|].
  exists w'. split; [|exact Hrest]. rewrite Hrun. f_equal. f_equal.
  unfold first_error. rewrite bool_decide_eq_false_2; [done|].
  cbn [columns]. unfold with_semester_columns.
  intros H1. apply elem_of_add_column in H1 as [?|H1]; [done|].
  apply elem_of_add_column in H1 as [?|?]; done.
Qed.

Lemma missing_timestamp_column_is_a_key_error_witness :
  heap world_without_timestamps !! 7%nat = Some frame_without_timestamps ∧
  ("Timestamp" ∉ columns frame_without_timestamps) ∧
  ∃ w',
    add_semester_info 7%nat (("A", 0, 10 * day) :: overlapping_terms) (Some "out.csv")
      world_without_timestamps = (Raise (KeyError "Timestamp"), w') ∧
    heap w' !! 7%nat = Some frame_without_timestamps ∧ files w' = ∅.
Proof.
  assert (H : "Timestamp" ∉ columns frame_without_timestamps).
  { intros H. repeat (apply elem_of_cons in H as [H|H]; [discriminate H|]).
    by apply elem_of_nil in H. }
  split; [reflexivity|]. split; [exact H|].
  destruct (missing_timestamp_column_is_a_key_error 7%nat ("A", 0, 10 * day) overlapping_terms
              (Some "out.csv") world_without_timestamps frame_without_timestamps eq_refl H)
    as (w' & Hrun & Hdf & Hfiles & _).
  exists w'. by rewrite Hfiles.
Defined.

Section more_assignment_facts.

Lemma labelled_fixed terms_data r r' :
  labelled terms_data r = Some r' → labelled terms_data r' = Some r'.
Proof.
  intros (t & tm & Hs & Hw & Hname & ->)%labelled_Some.
  unfold labelled. rewrite stamp_assign, Hs, Hw.
  rewrite bool_decide_eq_false_2 by done. by rewrite assign_absorb.
Qed.

Lemma omap_labelled_idemp terms_data (rs : list (gmap string cell)) :
  omap (labelled terms_data) (omap (labelled terms_data) rs) = omap (labelled terms_data) rs.
Proof.
  induction rs as [|r rs IH]; [done|].
  change (omap (labelled terms_data) (r :: rs))
    with (match labelled terms_data r with
          | Some y => y :: omap (labelled terms_data) rs
          | None => omap (labelled terms_data) rs
          end).
  destruct (labelled terms_data r) as [r'|] eqn:Hl; [|exact IH].
  change (omap (labelled terms_data) (r' :: omap (labelled terms_data) rs))
    with (match labelled terms_data r' with
          | Some y => y :: omap (labelled terms_data) (omap (labelled terms_data) rs)
          | None => omap (labelled terms_data) (omap (labelled terms_data) rs)
          end).
  by rewrite (labelled_fixed _ _ _ Hl), IH.
Qed.

Lemma has_timestamps_semester_frame terms_data d :
  has_timestamps d → has_timestamps (semester_frame terms_data d).
Proof.
  intros [Hc Hr]. split; cbn [columns rows semester_frame].
  - by apply add_column_elem, add_column_elem.
  - apply Forall_forall. intros r' (r & Hin & Hl)%list_elem_of_omap.
    apply labelled_Some in Hl as (t & tm & Hs & _ & _ & ->).
    rewrite stamp_assign, Hs. by eexists.
Qed.

Lemma semester_frame_idemp terms_data d :
  semester_frame terms_data (semester_frame terms_data d) = semester_frame terms_data d.
Proof.
  unfold semester_frame. cbn [columns rows].
  by rewrite with_semester_columns_idemp, omap_labelled_idemp.
Qed.

Lemma last_match_split tms t tm :
  last_match tms t = Some tm →
  ∃ before after, tms = before ++ tm :: after ∧ in_term tm t = true ∧
                  Forall (λ tm', in_term tm' t = false) after.
Proof.
  induction tms as [|tm0 tms IH]; simpl; [done|].
  destruct (last_match tms t) as [tm'|] eqn:Hl.
  - intros [= ->]. destruct (IH eq_refl) as (before & after & -> & Hin & Hafter).
    by exists (tm0 :: before), after.
  - destruct (in_term tm0 t) eqn:Hin; [|done]. intros [= ->].
    exists [], tms. split; [done|]. split; [done|].
    apply Forall_forall. intros tm' Htm'. by apply (proj1 (last_match_None tms t) Hl).
Qed.

Lemma sorted_id {A} (key : A → Z) (l : list A) :
  StronglySorted (λ a b, key a <= key b) l → sorted key l = l.
Proof.
  induction 1 as [|x l Hl IH Hx]; [done|].
  simpl. rewrite IH. destruct l as [|y l']; [done|]. simpl.
  apply Forall_inv in Hx. by rewrite (proj2 (Z.leb_le _ _) Hx).
Qed.

Lemma semester_week_mono start_date t1 t2 :
  t1 <= t2 → semester_week start_date t1 <= semester_week start_date t2.
Proof.
  intros Hle. rewrite !semester_week_floor.
  assert ((t1 - (start_date - Timedelta_days (weekday start_date))) / (7 * ns_per_day)
          <= (t2 - (start_date - Timedelta_days (weekday start_date))) / (7 * ns_per_day)).
  { apply Z.div_le_mono; [pose proof ns_per_day_pos; lia|lia]. }
  lia.
Qed.

Lemma semester_week_next start_date t :
  semester_week start_date (t + Timedelta_days 7) = semester_week start_date t + 1.
Proof.
  rewrite !semester_week_floor. unfold Timedelta_days at 1.
  replace (t + 7 * ns_per_day - (start_date - Timedelta_days (weekday start_date)))
    with ((t - (start_date - Timedelta_days (weekday start_date))) + 1 * (7 * ns_per_day))
    by lia.
  rewrite Z.div_add by (pose proof ns_per_day_pos; lia). lia.
Qed.

Lemma semester_week_one start_date t :
  start_date <= t →
  semester_week start_date t = 1 ↔
  t < start_date - Timedelta_days (weekday start_date) + Timedelta_days 7.
Proof.
  intros Hle. rewrite semester_week_floor.
  pose proof (first_monday_le start_date) as Hfm. pose proof ns_per_day_pos as Hpos.
  set (fm := start_date - Timedelta_days (weekday start_date)) in *.
  unfold Timedelta_days. split.
  - intros Hw. assert (Hq : (t - fm) / (7 * ns_per_day) = 0) by lia.
    apply Z.div_small_iff in Hq; lia.
  - intros Hlt. rewrite Z.div_small; lia.
Qed.

End more_assignment_facts.

(** X8 ([add_semester_info], lines 101 and 124): the sentinel is an
    ordinary semester name. A timestamp whose term (the last one that
    holds it) is named 'Unknown' is removed with the unmatched ones; with
    terms all of that name no row is returned. *)
Theorem term_named_unknown_loses_its_rows df terms_data path w d :
  heap w !! df = Some d → has_timestamps d →
  ∃ out w' d',
    add_semester_info df terms_data path w = (Ok out, w') ∧
    heap w' !! out = Some d' ∧
    (∀ r' t tm, r' ∈ rows d' → stamp r' = Some t → winner terms_data t = Some tm →
                tm.1.1 ≠ "Unknown") ∧
    ((∀ tm, tm ∈ terms_data → tm.1.1 = "Unknown") → rows d' = []).
Proof.
  intros Hdf Hts.
  destruct (add_semester_info_returns df terms_data path w d Hdf Hts)
    as (out & w' & Hrun & Hout & _).
  exists out, w', (semester_frame terms_data d).
  split; [exact Hrun|]. split; [exact Hout|].
  assert (Hrows : ∀ r' t tm, r' ∈ rows (semester_frame terms_data d) → stamp r' = Some t →
                             winner terms_data t = Some tm → tm.1.1 ≠ "Unknown").
  { intros r' t tm (r & Hr & Hl)%list_elem_of_omap Hs Hw.
    apply labelled_Some in Hl as (t' & tm' & Hs' & Hw' & Hname & ->).
    rewrite stamp_assign in Hs. congruence. }
  split; [exact Hrows|].
  intros Hall. destruct (rows (semester_frame terms_data d)) as [|r' rs] eqn:Hrs; [done|].
  exfalso.
  assert (Hin : r' ∈ rows (semester_frame terms_data d)) by (rewrite Hrs; by left).
  pose proof Hin as (r & Hr & Hl)%list_elem_of_omap.
  apply labelled_Some in Hl as (t & tm & Hs & Hw & Hname & ->).
  apply Hname, Hall. by apply (winner_Some _ _ _ Hw).
Qed.

Lemma term_named_unknown_loses_its_rows_witness :
  heap sample_world !! 0%nat = Some sample_frame ∧ has_timestamps sample_frame ∧
  ∃ out w' d',
    add_semester_info 0%nat [("Unknown", 0, 30 * day)] None sample_world = (Ok out, w') ∧
    heap w' !! out = Some d' ∧ rows d' = [].
Proof.
  split; [reflexivity|]. split; [exact sample_frame_has_timestamps|].
  destruct (term_named_unknown_loses_its_rows 0%nat [("Unknown", 0, 30 * day)] None
              sample_world sample_frame eq_refl sample_frame_has_timestamps)
    as (out & w' & d' & Hrun & Hout & _ & Hall).
  exists out, w', d'. split; [exact Hrun|]. split; [exact Hout|].
  apply Hall. intros tm Htm. apply list_elem_of_singleton in Htm. by subst tm.
Defined.

(** X9 ([add_semester_info], lines 98-124): labelling is idempotent. Run
    on the frame it returned, with the same terms, [add_semester_info]
    returns a frame of the same columns and rows: the two columns are
    written afresh, and every row is kept. *)
Theorem add_semester_info_idempotent df terms_data path path' w d :
  heap w !! df = Some d → has_timestamps d →
  ∃ out w' d' out2 w2,
    add_semester_info df terms_data path w = (Ok out, w') ∧
    heap w' !! out = Some d' ∧
    add_semester_info out terms_data path' w' = (Ok out2, w2) ∧
    heap w2 !! out2 = Some d'.
Proof.
  intros Hdf Hts.
  destruct (add_semester_info_returns df terms_data path w d Hdf Hts)
    as (out & w' & Hrun & Hout & _).
  destruct (add_semester_info_returns out terms_data path' w' _ Hout
              (has_timestamps_semester_frame terms_data d Hts))
    as (out2 & w2 & Hrun2 & Hout2 & _).
  exists out, w', (semester_frame terms_data d), out2, w2.
  split; [exact Hrun|]. split; [exact Hout|]. split; [exact Hrun2|].
  by rewrite Hout2, semester_frame_idemp.
Qed.

Lemma add_semester_info_idempotent_witness :
  heap sample_world !! 0%nat = Some sample_frame ∧ has_timestamps sample_frame ∧
  ∃ out w' d' out2 w2,
    add_semester_info 0%nat overlapping_terms None sample_world = (Ok out, w') ∧
    heap w' !! out = Some d' ∧
    add_semester_info out overlapping_terms None w' = (Ok out2, w2) ∧
    heap w2 !! out2 = Some d'.
Proof.
  split; [reflexivity|]. split; [exact sample_frame_has_timestamps|].
  exact (add_semester_info_idempotent 0%nat overlapping_terms None None sample_world
           sample_frame eq_refl sample_frame_has_timestamps).
Defined.

(** X10 ([add_semester_info], lines 122-131): what a run prints and
    writes. One line tells how many rows were removed, and the number is
    the rows of the input less the rows returned; with an output path that
    is not empty the frame returned is written there, a second line says
    so, and no other file changes; with no path, or the empty one, no file
    is written. *)
Theorem add_semester_info_prints_and_saves df terms_data path w d :
  heap w !! df = Some d → has_timestamps d →
  ∃ out w' d',
    add_semester_info df terms_data path w = (Ok out, w') ∧
    heap w' !! out = Some d' ∧
    (length (rows d') ≤ length (rows d))%nat ∧
    match path with
    | Some p =>
        if bool_decide (p = "") then
          files w' = files w ∧
          stdout w' = stdout w ++
            [Text ("Removed " +:+ pretty (length (rows d) - length (rows d'))%nat +:+
                   " rows with 'Unknown' semester data (Summer sessions & COVID semesters)")]
        else
          files w' = <[p := d']> (files w) ∧
          stdout w' = stdout w ++
            [Text ("Removed " +:+ pretty (length (rows d) - length (rows d'))%nat +:+
                   " rows with 'Unknown' semester data (Summer sessions & COVID semesters)");
             Text ("Enhanced data saved to '" +:+ p +:+ "'")]
    | None =>
        files w' = files w ∧
        stdout w' = stdout w ++
          [Text ("Removed " +:+ pretty (length (rows d) - length (rows d'))%nat +:+
                 " rows with 'Unknown' semester data (Summer sessions & COVID semesters)")]
    end.
Proof.
  intros Hdf Hts.
  pose proof (add_semester_info_run df terms_data path w d Hdf Hts) as Hrun.
  cbv zeta in Hrun. eexists _, _, (semester_frame terms_data d).
  split; [exact Hrun|]. cbn [heap files stdout].
  split; [apply lookup_insert_eq|].
  split.
  { cbn [rows semester_frame]. induction (rows d) as [|r rs IH]; [done|].
    change (omap (labelled terms_data) (r :: rs))
      with (match labelled terms_data r with
            | Some y => y :: omap (labelled terms_data) rs
            | None => omap (labelled terms_data) rs
            end).
    destruct (labelled terms_data r); simpl; lia. }
  destruct path as [p|]; [|done].
  case_bool_decide as Hp.
  - subst p. done.
  - assert (given (Some p) = Some p) as -> by (destruct p; done). done.
Qed.

Lemma add_semester_info_prints_and_saves_witness :
  heap sample_world !! 0%nat = Some sample_frame ∧ has_timestamps sample_frame ∧
  ∃ out w' d',
    add_semester_info 0%nat overlapping_terms (Some "data/enhanced_log.csv") sample_world
      = (Ok out, w') ∧
    heap w' !! out = Some d' ∧
    files w' = <["data/enhanced_log.csv" := d']> (files sample_world) ∧
    stdout w' =
      [Text "Removed 1 rows with 'Unknown' semester data (Summer sessions & COVID semesters)";
       Text "Enhanced data saved to 'data/enhanced_log.csv'"].
Proof.
  split; [reflexivity|]. split; [exact sample_frame_has_timestamps|].
  destruct (add_semester_info_prints_and_saves 0%nat overlapping_terms
              (Some "data/enhanced_log.csv") sample_world sample_frame eq_refl
              sample_frame_has_timestamps)
    as (out & w' & d' & Hrun & Hout & _ & Hfiles & Hstdout).
  exists out, w', d'. split; [exact Hrun|]. split; [exact Hout|]. split; [exact Hfiles|].
  rewrite Hstdout.
  assert (Hd' : d' = semester_frame overlapping_terms sample_frame).
  { destruct (add_semester_info_returns 0%nat overlapping_terms (Some "data/enhanced_log.csv")
                sample_world sample_frame eq_refl sample_frame_has_timestamps)
      as (out0 & w0 & Hrun0 & Hout0 & _).
    rewrite Hrun in Hrun0. inversion Hrun0; subst. rewrite Hout in Hout0. by inversion Hout0. }
  rewrite Hd'. reflexivity.
Defined.

(** X11 ([add_semester_info], line 105): the sort is stable, so a list of
    terms that is already in the order of the start dates is gone through
    as it is listed: of the terms whose range holds a timestamp, the one
    listed last gives the row its semester, also among terms of equal
    start date. *)
Theorem listed_last_wins_in_chronological_list df terms_data path w d :
  heap w !! df = Some d → has_timestamps d →
  StronglySorted (λ a b : term, a.1.2 <= b.1.2) terms_data →
  ∃ out w' d',
    add_semester_info df terms_data path w = (Ok out, w') ∧
    heap w' !! out = Some d' ∧
    ∀ r', r' ∈ rows d' →
      ∃ t tm before after,
        stamp r' = Some t ∧ r' !! "Semester" = Some (CStr tm.1.1) ∧
        terms_data = before ++ tm :: after ∧
        tm.1.2 <= t <= tm.2 ∧
        ∀ tm', tm' ∈ after → ¬ (tm'.1.2 <= t <= tm'.2).
Proof.
  intros Hdf Hts Hsorted.
  destruct (add_semester_info_returns df terms_data path w d Hdf Hts)
    as (out & w' & Hrun & Hout & _).
  exists out, w', (semester_frame terms_data d).
  split; [exact Hrun|]. split; [exact Hout|].
  intros r' (r & Hr & Hl)%list_elem_of_omap.
  apply labelled_Some in Hl as (t & tm & Hs & Hw & _ & ->).
  unfold winner in Hw. rewrite (sorted_id _ _ Hsorted) in Hw.
  destruct (last_match_split _ _ _ Hw) as (before & after & Heq & Hin & Hafter).
  exists t, tm, before, after.
  split; [by rewrite stamp_assign|]. split; [apply assign_Semester|].
  split; [exact Heq|]. split; [by apply in_term_spec|].
  intros tm' Htm' Hin'. rewrite Forall_forall in Hafter.
  apply in_term_spec in Hin'. by rewrite (Hafter tm' Htm') in Hin'.
Qed.

(** Two terms of the same start date, the second listed is the shorter. *)
Definition tied_terms : list term :=
  [("Long", 5 * day, 15 * day); ("Short", 5 * day, 9 * day)].

Lemma tied_terms_chronological :
  StronglySorted (λ a b : term, a.1.2 <= b.1.2) tied_terms.
Proof.
  repeat first [ apply SSorted_nil | apply SSorted_cons | apply Forall_nil_2
               | apply Forall_cons_2 ]; simpl; lia.
Defined.

Lemma listed_last_wins_in_chronological_list_witness :
  heap sample_world !! 0%nat = Some sample_frame ∧ has_timestamps sample_frame ∧
  StronglySorted (λ a b : term, a.1.2 <= b.1.2) tied_terms ∧
  ∃ out w' d',
    add_semester_info 0%nat tied_terms None sample_world = (Ok out, w') ∧
    heap w' !! out = Some d' ∧
    (λ r, r !! "Semester") <$> rows d' = [Some (CStr "Short"); Some (CStr "Long")].
Proof.
  split; [reflexivity|]. split; [exact sample_frame_has_timestamps|].
  split; [exact tied_terms_chronological|].
  destruct (listed_last_wins_in_chronological_list 0%nat tied_terms None sample_world
              sample_frame eq_refl sample_frame_has_timestamps tied_terms_chronological)
    as (out & w' & d' & Hrun & Hout & _).
  exists out, w', d'. split; [exact Hrun|]. split; [exact Hout|].
  destruct (add_semester_info_returns 0%nat tied_terms None sample_world sample_frame
              eq_refl sample_frame_has_timestamps) as (out0 & w0 & Hrun0 & Hout0 & _).
  rewrite Hrun in Hrun0. inversion Hrun0; subst. rewrite Hout in Hout0.
  inversion Hout0; subst. reflexivity.
Defined.

(** X12 ([add_semester_info], lines 114-120): how the week number moves
    with the timestamp. Among the rows of a term of a name of its own the
    [Semester_Week] never decreases as the timestamp grows, a timestamp
    exactly seven days later has the next number, and the rows of week 1
    are those before the Monday after the first Monday: a term that starts
    late in the week has a short first week. *)
Theorem week_number_follows_the_calendar
    df (pre post : list term) name start_date end_date path w d :
  heap w !! df = Some d → has_timestamps d →
  name ∉ map (λ x : term, x.1.1) (pre ++ post) →
  ∃ out w' d',
    add_semester_info df (pre ++ (name, start_date, end_date) :: post) path w = (Ok out, w') ∧
    heap w' !! out = Some d' ∧
    ∀ r1 r2, r1 ∈ rows d' → r2 ∈ rows d' →
      r1 !! "Semester" = Some (CStr name) → r2 !! "Semester" = Some (CStr name) →
      ∃ t1 t2 n1 n2,
        stamp r1 = Some t1 ∧ stamp r2 = Some t2 ∧
        r1 !! "Semester_Week" = Some (CInt n1) ∧ r2 !! "Semester_Week" = Some (CInt n2) ∧
        (t1 <= t2 → n1 <= n2) ∧
        (t2 = t1 + Timedelta_days 7 → n2 = n1 + 1) ∧
        (n1 = 1 ↔ t1 < start_date - Timedelta_days (weekday start_date) + Timedelta_days 7).
Proof.
  intros Hdf Hts Hfresh.
  destruct (add_semester_info_returns df (pre ++ (name, start_date, end_date) :: post)
              path w d Hdf Hts) as (out & w' & Hrun & Hout & _).
  eexists out, w', _. split; [exact Hrun|]. split; [exact Hout|].
  intros r1 r2 Hr1 Hr2 Hs1 Hs2.
  destruct (labelled_week_of_name _ _ _ _ _ _ _ Hfresh Hr1 Hs1) as (t1 & Ht1 & Hw1).
  destruct (labelled_week_of_name _ _ _ _ _ _ _ Hfresh Hr2 Hs2) as (t2 & Ht2 & Hw2).
  exists t1, t2, (semester_week start_date t1), (semester_week start_date t2).
  repeat (split; [done|]).
  split; [apply semester_week_mono|].
  split; [intros ->; apply semester_week_next|].
  apply semester_week_one.
  (* the timestamp of a labelled row is within the range of its term *)
  pose proof Hr1 as (r & Hr & Hl)%list_elem_of_omap.
  apply labelled_Some in Hl as (t & tm & Hs & Hw & _ & ->).
  rewrite stamp_assign in Ht1. rewrite assign_Semester in Hs1.
  destruct (winner_Some _ _ _ Hw) as (Hel & Hin & _).
  assert (tm = (name, start_date, end_date)) as ->.
  { eapply term_of_name; [exact Hfresh|exact Hel|congruence]. }
  cbn [fst snd] in Hin. assert (t = t1) by congruence. lia.
Qed.

Lemma week_number_follows_the_calendar_witness :
  heap sample_world !! 0%nat = Some sample_frame ∧ has_timestamps sample_frame ∧
  ("B" ∉ map (λ x : term, x.1.1) ([] ++ [("A", 0, 6 * day)])) ∧
  ∃ out w' d',
    add_semester_info 0%nat ([] ++ ("B", 5 * day, 15 * day) :: [("A", 0, 6 * day)]) None
      sample_world = (Ok out, w') ∧
    heap w' !! out = Some d' ∧
    ∀ r1 r2, r1 ∈ rows d' → r2 ∈ rows d' →
      r1 !! "Semester" = Some (CStr "B") → r2 !! "Semester" = Some (CStr "B") →
      ∃ t1 t2 n1 n2,
        stamp r1 = Some t1 ∧ stamp r2 = Some t2 ∧
        r1 !! "Semester_Week" = Some (CInt n1) ∧ r2 !! "Semester_Week" = Some (CInt n2) ∧
        (t1 <= t2 → n1 <= n2).
Proof.
  assert (H : "B" ∉ map (λ x : term, x.1.1) ([] ++ [("A", 0, 6 * day)])).
  { intros H. apply elem_of_cons in H as [H|H]; [discriminate H|]. by apply elem_of_nil in H. }
  split; [reflexivity|]. split; [exact sample_frame_has_timestamps|]. split; [exact H|].
  destruct (week_number_follows_the_calendar 0%nat [] [("A", 0, 6 * day)] "B" (5 * day)
              (15 * day) None sample_world sample_frame eq_refl sample_frame_has_timestamps H)
    as (out & w' & d' & Hrun & Hout & Hrows).
  exists out, w', d'. split; [exact Hrun|]. split; [exact Hout|].
  intros r1 r2 Hr1 Hr2 Hs1 Hs2.
  destruct (Hrows r1 r2 Hr1 Hr2 Hs1 Hs2) as (t1 & t2 & n1 & n2 & H1 & H2 & H3 & H4 & H5 & _).
  exists t1, t2, n1, n2.
  split; [exact H1|]. split; [exact H2|]. split; [exact H3|]. split; [exact H4|]. exact H5.
Defined.

(** ** Equipment categories *)
Section category_facts.

Lemma list_find_elem {A} (P : A → Prop) `{∀ x, Decision (P x)} (l : list A) i x :
  list_find P l = Some (i, x) → x ∈ l ∧ P x.
Proof.
  intros (Hi & HP & _)%list_find_Some. split; [|done].
  by apply (list_elem_of_lookup_2 _ i).
Qed.

Lemma other_is_no_category : "Other" ∉ map snd equipment_categories.
Proof.
  intros H. repeat (apply elem_of_cons in H as [H|H]; [discriminate H|]).
  by apply elem_of_nil in H.
Qed.

(** Names of the table that agree up to case have the same category. *)
Lemma table_names_up_to_case :
  Forall (λ kv : string * string,
    Forall (λ kv' : string * string, lower kv'.1 = lower kv.1 → kv'.2 = kv.2)
           equipment_categories) equipment_categories.
Proof. apply (bool_decide_unpack _). by vm_compute. Qed.

(** The search for a part finds, for a name of the table, that name. *)
Lemma table_names_found_as_parts :
  Forall (λ kv : string * string,
    (λ found : nat * (string * string), found.2.2) <$>
      list_find (λ kv' : string * string, contains (lower kv'.1) (lower kv.1) = true)
                equipment_categories = Some kv.2) equipment_categories.
Proof. apply (bool_decide_unpack _). by vm_compute. Qed.

End category_facts.

(** X13 ([map_equipment_category], lines 248-259): a string always gets a
    category: one of the table, or 'Other'; any other value - a missing
    access type is a float NaN - has no [lower] and raises
    [AttributeError]. *)
Theorem map_equipment_category_total_on_strings (access_type : cell) :
  match access_type with
  | CStr s =>
      ∃ category, map_equipment_category access_type = Ok (CStr category) ∧
                  (category = "Other" ∨ category ∈ map snd equipment_categories)
  | _ => ∃ msg, map_equipment_category access_type = Raise (AttributeError msg)
  end.
Proof.
  destruct access_type as [t|s|n|]; try by eexists.
  unfold map_equipment_category.
  destruct (list_find (λ kv : string * string, kv.1 = s) equipment_categories)
    as [[i kv]|] eqn:Hdirect.
  - exists kv.2. split; [done|]. right.
    apply list_find_elem in Hdirect as [Hin _].
    apply list_elem_of_In, in_map. by apply list_elem_of_In.
  - destruct (list_find (λ kv : string * string, contains (lower kv.1) (lower s) = true)
                equipment_categories) as [[i kv]|] eqn:Hpart.
    + exists kv.2. split; [done|]. right.
      apply list_find_elem in Hpart as [Hin _].
      apply list_elem_of_In, in_map. by apply list_elem_of_In.
    + exists "Other". split; [done|by left].
Qed.

(** X14 ([map_equipment_category], lines 250-256): the names of the table
    are recognised whatever their case: a string that is a name of the
    table up to the case of its letters gets the category the table gives
    that name. *)
Theorem table_names_are_matched_ignoring_case kv s :
  kv ∈ equipment_categories → lower s = lower kv.1 →
  map_equipment_category (CStr s) = Ok (CStr kv.2).
Proof.
  intros Hkv Hlower. unfold map_equipment_category.
  destruct (list_find (λ kv' : string * string, kv'.1 = s) equipment_categories)
    as [[i kv']|] eqn:Hdirect.
  - apply list_find_elem in Hdirect as [Hin Heq]. cbv beta in Heq.
    pose proof table_names_up_to_case as Hcase.
    rewrite Forall_forall in Hcase. specialize (Hcase kv Hkv).
    rewrite Forall_forall in Hcase. rewrite (Hcase kv' Hin); [done|]. by rewrite Heq.
  - rewrite Hlower.
    pose proof table_names_found_as_parts as Hparts.
    rewrite Forall_forall in Hparts. specialize (Hparts kv Hkv).
    cbv beta in Hparts.
    destruct (list_find (λ kv' : string * string, contains (lower kv'.1) (lower kv.1) = true)
                equipment_categories) as [[i kv'']|]; simpl in Hparts; [|discriminate Hparts].
    by inversion Hparts.
Qed.

Lemma table_names_are_matched_ignoring_case_witness :
  ("Jacobs OMAX Waterjet", "Advanced Prototyping") ∈ equipment_categories ∧
  lower "JACOBS omax waterJet" = lower "Jacobs OMAX Waterjet" ∧
  map_equipment_category (CStr "JACOBS omax waterJet") = Ok (CStr "Advanced Prototyping").
Proof.
  assert (H : ("Jacobs OMAX Waterjet", "Advanced Prototyping") ∈ equipment_categories).
  { apply list_elem_of_In. simpl. do 5 right. by left. }
  split; [exact H|]. split; [reflexivity|].
  exact (table_names_are_matched_ignoring_case _ "JACOBS omax waterJet" H eq_refl).
Defined.

(** X15 ([map_equipment_category], lines 250-259): 'Other' is the category
    of exactly the strings that are no name of the table and hold no name
    of the table as a part, case ignored. *)
Theorem other_means_no_table_name s :
  map_equipment_category (CStr s) = Ok (CStr "Other") ↔
  ∀ kv, kv ∈ equipment_categories →
        kv.1 ≠ s ∧ contains (lower kv.1) (lower s) = false.
Proof.
  unfold map_equipment_category. split.
  - destruct (list_find (λ kv : string * string, kv.1 = s) equipment_categories)
      as [[i kv]|] eqn:Hdirect.
    { intros [= Hother]. apply list_find_elem in Hdirect as [Hin _].
      destruct other_is_no_category. rewrite <- Hother.
      apply list_elem_of_In, in_map. by apply list_elem_of_In. }
    destruct (list_find (λ kv : string * string, contains (lower kv.1) (lower s) = true)
                equipment_categories) as [[i kv]|] eqn:Hpart.
    { intros [= Hother]. apply list_find_elem in Hpart as [Hin _].
      destruct other_is_no_category. rewrite <- Hother.
      apply list_elem_of_In, in_map. by apply list_elem_of_In. }
    intros _ kv Hkv.
    apply list_find_None in Hdirect, Hpart. rewrite Forall_forall in Hdirect, Hpart.
    split; [by apply Hdirect|]. specialize (Hpart kv Hkv). cbv beta in Hpart.
    by destruct (contains (lower kv.1) (lower s)).
  - intros Hnone.
    assert (Hdirect : list_find (λ kv : string * string, kv.1 = s) equipment_categories = None).
    { apply list_find_None, Forall_forall. intros kv Hkv. by apply Hnone. }
    assert (Hpart : list_find (λ kv : string * string, contains (lower kv.1) (lower s) = true)
                      equipment_categories = None).
    { apply list_find_None, Forall_forall. intros kv Hkv.
      destruct (Hnone kv Hkv) as [_ ->]. done. }
    by rewrite Hdirect, Hpart.
Qed.

(** X16 ([enhance_dataset], lines 152-158, with [map_equipment_category]):
    the normalisation of the two long names merges names, not categories:
    for every cell, the category of the normalised access type is the
    category (or the exception) of the access type as it was. *)
Theorem normalization_keeps_the_category (access_type : cell) :
  map_equipment_category (replace_cell equipment_normalization access_type) =
  map_equipment_category access_type.
Proof.
  destruct access_type as [t|s|n|]; try done.
  unfold replace_cell, equipment_normalization.
  cbn [list_find fst snd fmap option_fmap option_map prod_map].
  repeat case_decide; subst; cbn; try reflexivity.
Qed.

Section category_frame_facts.

Lemma category_cell_str s :
  ∃ category, map_equipment_category (CStr s) = Ok (CStr category) ∧
              category_cell (CStr s) = CStr category.
Proof.
  destruct (map_equipment_category_str s) as [v Hv]. exists v. split; [done|].
  unfold category_cell. by rewrite Hv.
Qed.

Lemma replace_cell_normalized s :
  ∃ s', replace_cell equipment_normalization (CStr s) = CStr s' ∧
        s' ≠ "Jacobs DiWire Room 220C" ∧ s' ≠ "Jacobs Vinyl Cutter and Inkjet".
Proof.
  unfold replace_cell, equipment_normalization.
  cbn [list_find fst snd fmap option_fmap option_map prod_map].
  repeat case_decide; subst; cbn; eexists; (split; [reflexivity|]); split; congruence.
Qed.

Lemma category_frame_rows d :
  has_access_types d →
  Forall2 (λ r r',
             (∀ c, c ≠ "Equipment_Category" → r' !! c = r !! c) ∧
             ∃ s category,
               r !! "Access Type" = Some (CStr s) ∧
               map_equipment_category (CStr s) = Ok (CStr category) ∧
               r' !! "Equipment_Category" = Some (CStr category))
          (rows d) (rows (category_frame d)).
Proof.
  intros [_ Hr]. cbn [rows category_frame].
  induction Hr as [|r rs [s Hs] _ IH]; [constructor|].
  cbn [map]. constructor; [|exact IH]. split.
  - intros c Hc. unfold category_row. by rewrite lookup_insert_ne.
  - destruct (category_cell_str s) as (category & Hmap & Hcell).
    exists s, category. split; [done|]. split; [done|].
    unfold category_row. rewrite Hs. change (default CNone (Some (CStr s))) with (CStr s).
    rewrite Hcell. apply lookup_insert_eq.
Qed.

End category_frame_facts.

(** X17 ([add_equipment_category], lines 210-271): on an [Access Type]
    column of strings [add_equipment_category] returns a new frame and
    leaves its argument as it was; the new frame has every row of the
    argument, in order, every cell of it unchanged, and one more column,
    [Equipment_Category], that holds the category of the access type of
    the row. *)
Theorem add_equipment_category_adds_a_column df w d :
  heap w !! df = Some d → has_access_types d →
  ∃ out w' d',
    add_equipment_category df w = (Ok out, w') ∧
    heap w' !! out = Some d' ∧ out ≠ df ∧ heap w' !! df = Some d ∧
    columns d' = add_column "Equipment_Category" (columns d) ∧
    Forall2 (λ r r',
               (∀ c, c ≠ "Equipment_Category" → r' !! c = r !! c) ∧
               ∃ s category,
                 r !! "Access Type" = Some (CStr s) ∧
                 map_equipment_category (CStr s) = Ok (CStr category) ∧
                 r' !! "Equipment_Category" = Some (CStr category))
            (rows d) (rows d').
Proof.
  intros Hdf Hacc.
  destruct (add_equipment_category_run df d w Hdf Hacc) as (w' & Hrun & Hheap).
  exists (fresh (dom (heap w))), w', (category_frame d).
  assert (Hne : fresh (dom (heap w)) ≠ df).
  { intros Heq. rewrite <- Heq in Hdf. by rewrite fresh_loc_None in Hdf. }
  split; [exact Hrun|]. rewrite Hheap.
  split; [apply lookup_insert_eq|]. split; [exact Hne|].
  split; [by rewrite lookup_insert_ne|]. split; [done|].
  by apply category_frame_rows.
Qed.

Lemma add_equipment_category_adds_a_column_witness :
  heap sample_world !! 0%nat = Some sample_frame ∧ has_access_types sample_frame ∧
  ∃ out w' d',
    add_equipment_category 0%nat sample_world = (Ok out, w') ∧
    heap w' !! out = Some d' ∧ heap w' !! 0%nat = Some sample_frame ∧
    (λ r, r !! "Equipment_Category") <$> rows d' =
      [Some (CStr "Basic Prototyping"); Some (CStr "Wood Shop"); Some (CStr "Basic 3D Printing")].
Proof.
  split; [reflexivity|]. split; [exact sample_frame_has_access_types|].
  destruct (add_equipment_category_adds_a_column 0%nat sample_world sample_frame eq_refl
              sample_frame_has_access_types)
    as (out & w' & d' & Hrun & Hout & _ & Hdf & _).
  exists out, w', d'. split; [exact Hrun|]. split; [exact Hout|]. split; [exact Hdf|].
  destruct (add_equipment_category_run 0%nat sample_frame sample_world eq_refl
              sample_frame_has_access_types) as (w0 & Hrun0 & Hheap0).
  rewrite Hrun in Hrun0. inversion Hrun0; subst.
  rewrite Hheap0, lookup_insert_eq in Hout. inversion Hout; subst. reflexivity.
Defined.

(** X18 ([enhance_dataset], lines 152-158 and 190): in the frame that
    [enhance_dataset] returns the two long names are gone - no row has the
    access type 'Jacobs DiWire Room 220C' or 'Jacobs Vinyl Cutter and
    Inkjet' - and every row has, as [Equipment_Category], the category of
    the access type it now has. *)
Theorem enhance_dataset_merges_names_and_categorises df terms_data path w d :
  heap w !! df = Some d → has_timestamps d → has_access_types d →
  ∃ out w' d',
    enhance_dataset df terms_data path w = (Ok out, w') ∧
    heap w' !! out = Some d' ∧
    columns d' = add_column "Equipment_Category"
                   (add_column "Semester_Week" (add_column "Semester" (columns d))) ∧
    ∀ r', r' ∈ rows d' →
      ∃ s category,
        r' !! "Access Type" = Some (CStr s) ∧
        s ≠ "Jacobs DiWire Room 220C" ∧ s ≠ "Jacobs Vinyl Cutter and Inkjet" ∧
        map_equipment_category (CStr s) = Ok (CStr category) ∧
        r' !! "Equipment_Category" = Some (CStr category).
Proof.
  intros Hdf Hts Hacc.
  destruct (enhance_dataset_returns df terms_data path w d Hdf Hts Hacc)
    as (out & w' & Hrun & Hout & _).
  exists out, w', (enhanced_frame terms_data d).
  split; [exact Hrun|]. split; [exact Hout|]. split; [done|].
  intros r' Hr'. cbn [rows enhanced_frame category_frame] in Hr'.
  apply list_elem_of_In, in_map_iff in Hr' as (r1 & <- & Hr1%list_elem_of_In).
  apply list_elem_of_omap in Hr1 as (r0 & Hr0 & Hl).
  apply labelled_Some in Hl as (t & tm & _ & _ & _ & ->).
  cbn [rows normalize_frame] in Hr0.
  apply list_elem_of_In, in_map_iff in Hr0 as (r & <- & Hr%list_elem_of_In).
  destruct Hacc as [_ Hall]. rewrite Forall_forall in Hall. destruct (Hall r Hr) as [s0 Hs0].
  destruct (replace_cell_normalized s0) as (s & Hs & Hne1 & Hne2).
  destruct (category_cell_str s) as (category & Hmap & Hcell).
  assert (Hat : assign tm t (normalize_row r) !! "Access Type" = Some (CStr s)).
  { rewrite assign_other by done. unfold normalize_row. rewrite Hs0.
    change (default CNone (Some (CStr s0))) with (CStr s0).
    rewrite Hs. apply lookup_insert_eq. }
  exists s, category. unfold category_row.
  split; [by rewrite lookup_insert_ne|]. split; [done|]. split; [done|]. split; [done|].
  rewrite Hat. change (default CNone (Some (CStr s))) with (CStr s).
  rewrite Hcell. apply lookup_insert_eq.
Qed.

Lemma enhance_dataset_merges_names_and_categorises_witness :
  heap sample_world !! 0%nat = Some sample_frame ∧
  has_timestamps sample_frame ∧ has_access_types sample_frame ∧
  ∃ out w' d',
    enhance_dataset 0%nat overlapping_terms None sample_world = (Ok out, w') ∧
    heap w' !! out = Some d' ∧
    ∀ r', r' ∈ rows d' →
      ∃ s, r' !! "Access Type" = Some (CStr s) ∧ s ≠ "Jacobs DiWire Room 220C".
Proof.
  split; [reflexivity|]. split; [exact sample_frame_has_timestamps|].
  split; [exact sample_frame_has_access_types|].
  destruct (enhance_dataset_merges_names_and_categorises 0%nat overlapping_terms None
              sample_world sample_frame eq_refl sample_frame_has_timestamps
              sample_frame_has_access_types)
    as (out & w' & d' & Hrun & Hout & _ & Hrows).
  exists out, w', d'. split; [exact Hrun|]. split; [exact Hout|].
  intros r' Hr'. destruct (Hrows r' Hr') as (s & category & Hs & Hne & _).
  exists s. split; [exact Hs|exact Hne].
Defined.

(** ** enhance_dataset: the access types it needs *)
Section enhance_dataset_edges.

(** The run of [enhance_dataset] up to the call of
    [add_equipment_category]: the access types need not be strings. *)
Lemma enhance_dataset_until_categories df terms_data path w d :
  heap w !! df = Some d → has_timestamps d → "Access Type" ∈ columns d →
  ∃ W out1,
    heap W !! out1 = Some (semester_frame terms_data (normalize_frame d)) ∧
    heap W !! df = Some d ∧
    enhance_dataset df terms_data path w =
    (let! enhanced_df := add_equipment_category out1 in
     do! match given path with
         | Some path =>
             do! to_csv enhanced_df path in
             print (Text ("Enhanced data saved to '" +:+ path +:+ "'"))
         | None => ret tt
         end in
     ret enhanced_df) W.
Proof.
  intros Hdf Hts Hcol. unfold enhance_dataset.
  rewrite (bind_Ok _ _ _ _ _ (DataFrame_copy_run _ _ _ Hdf)).
  set (e := fresh (dom (heap w))). cbv zeta.
  run_step getitem_run; [|exact Hcol].
  run_step setitem_series_run; [|unfold replace, column_values; by rewrite !length_map].
  unfold replace, column_values. rewrite map_map, zip_with_map_r.
  rewrite (add_column_id "Access Type") by exact Hcol.
  change (mkDataFrame (columns d) _) with (normalize_frame d).
  unfold print at 1. unfold bind at 1.
  run_step setitem_run.
  run_step setitem_run.
  cbn [columns rows]. rewrite map_map.
  set (d0 := mkDataFrame (add_column "Semester_Week" _) (map _ (rows (normalize_frame d)))).
  assert (Hts0 : has_timestamps d0) by apply has_timestamps_init, has_timestamps_normalize, Hts.
  erewrite bind_Ok;
    [| apply (for_each_loop_run e _ _ d0);
       [heap_lookup | exact Hts0 | apply with_semester_columns_idemp]].
  assert (Hal : mkDataFrame (columns d0)
                   (map (run_terms (sorted (λ x : term, x.1.2) terms_data)) (rows d0)) =
                 after_loop terms_data (normalize_frame d)).
  { unfold d0, after_loop. cbn [columns rows]. by rewrite map_map. }
  rewrite Hal. clear Hal.
  run_step len_run.
  run_step getitem_run; [|apply add_column_elem, add_column_new].
  run_step getitem_mask_run.
  assert (Hkept : select (ne_str (column_values "Semester" (after_loop terms_data (normalize_frame d))) "Unknown")
                         (rows (after_loop terms_data (normalize_frame d))) =
                  omap (labelled terms_data) (rows (normalize_frame d))).
  { unfold column_values, after_loop. cbn [rows]. apply kept_rows, has_timestamps_normalize, Hts. }
  rewrite Hkept.
  change (mkDataFrame (columns (after_loop terms_data (normalize_frame d))) _)
    with (semester_frame terms_data (normalize_frame d)).
  run_step len_run.
  unfold print at 1. unfold bind at 1.
  eexists _, _. split; [|split; [|reflexivity]].
  - heap_lookup.
  - cbn [heap set_heap set_stdout].
    assert (He : heap w !! e = None) by apply fresh_loc_None.
    assert (Hne : e ≠ df) by (intros Heq; by rewrite Heq, Hdf in He).
    set (h1 := <[e := after_loop terms_data (normalize_frame d)]> _).
    assert (Hdf1 : h1 !! df = Some d).
    { unfold h1. by rewrite !lookup_insert_ne. }
    rewrite lookup_insert_ne; [exact Hdf1|].
    intros Heq. pose proof (fresh_loc_None h1) as Hfresh. by rewrite Heq, Hdf1 in Hfresh.
Qed.

Lemma rmap_categories_raise (series : list cell) :
  Exists (λ c, ∀ s, c ≠ CStr s) series →
  rmap map_equipment_category series =
  Raise (AttributeError "object has no attribute 'lower'").
Proof.
  induction 1 as [c l Hc|c l Hex IH].
  - simpl. destruct c as [t|s|n|]; try done. by destruct (Hc s).
  - simpl. destruct c as [t|s|n|]; try done.
    destruct (map_equipment_category_str s) as [v ->]. simpl. by rewrite IH.
Qed.

Lemma add_equipment_category_raises df d w :
  heap w !! df = Some d → "Access Type" ∈ columns d →
  Exists (λ r, ∀ s, r !! "Access Type" ≠ Some (CStr s)) (rows d) →
  ∃ w', add_equipment_category df w =
          (Raise (AttributeError "object has no attribute 'lower'"), w') ∧
        ∀ l x, heap w !! l = Some x → heap w' !! l = Some x.
Proof.
  intros Hdf Hcol Hex. unfold add_equipment_category.
  rewrite (bind_Ok _ _ _ _ _ (DataFrame_copy_run _ _ _ Hdf)).
  run_step getitem_run; [|exact Hcol].
  eexists. split.
  - apply bind_Raise. unfold lift. f_equal. apply rmap_categories_raise.
    unfold column_values. apply Exists_exists in Hex as (r & Hr & Hno).
    apply Exists_exists. exists (default CNone (r !! "Access Type")). split.
    + apply list_elem_of_In, in_map_iff. exists r. split; [done|by apply list_elem_of_In].
    + intros s Hs. destruct (r !! "Access Type") as [c|] eqn:Hc; simpl in Hs; [|done].
      subst c. by destruct (Hno s).
  - intros l x Hl. cbn [heap set_heap]. rewrite lookup_insert_ne; [done|].
    intros Heq. by rewrite <- Heq, fresh_loc_None in Hl.
Qed.

Lemma labelled_normalize_is_Some terms_data r :
  is_Some (labelled terms_data (normalize_row r)) ↔ is_Some (labelled terms_data r).
Proof.
  pose proof (labelled_normalize_row terms_data r) as H.
  destruct (labelled terms_data (normalize_row r)), (labelled terms_data r);
    simpl in H; try done; split; intros [? ?]; done.
Qed.

Lemma normalize_row_access_type r s :
  normalize_row r !! "Access Type" = Some (CStr s) →
  ∃ s0, r !! "Access Type" = Some (CStr s0).
Proof.
  unfold normalize_row. rewrite lookup_insert_eq. intros [= H].
  destruct (r !! "Access Type") as [[t|s0|n|]|]; simpl in H; try done. by exists s0.
Qed.

End enhance_dataset_edges.

(** X19 ([enhance_dataset], line 158): on a frame without an
    [Access Type] column [enhance_dataset] raises [KeyError: 'Access Type']
    before anything is printed; the frame of the caller is as it was. *)
Theorem missing_access_type_column_is_a_key_error df terms_data path w d :
  heap w !! df = Some d → "Access Type" ∉ columns d →
  ∃ w',
    enhance_dataset df terms_data path w = (Raise (KeyError "Access Type"), w') ∧
    heap w' !! df = Some d ∧ stdout w' = stdout w ∧ files w' = files w.
Proof.
  intros Hdf Hcol. unfold enhance_dataset.
  rewrite (bind_Ok _ _ _ _ _ (DataFrame_copy_run _ _ _ Hdf)). cbv zeta.
  eexists. split.
  - apply bind_Raise. apply (getitem_missing _ _ d); [heap_lookup|exact Hcol].
  - cbn [heap stdout files set_heap]. split; [|done].
    rewrite lookup_insert_ne; [done|].
    intros Heq. by rewrite <- Heq, fresh_loc_None in Hdf.
Qed.

(** A log of timestamps only. *)
Definition frame_without_access_types : DataFrame :=
  mkDataFrame ["Timestamp"] [ {[ "Timestamp" := CTime (7 * day) ]} ].

Definition world_without_access_types : world :=
  mkWorld {[ 3%nat := frame_without_access_types ]} [] ∅ (λ _ _, ConnectionError "unreachable").

Lemma missing_access_type_column_is_a_key_error_witness :
  heap world_without_access_types !! 3%nat = Some frame_without_access_types ∧
  ("Access Type" ∉ columns frame_without_access_types) ∧
  ∃ w',
    enhance_dataset 3%nat overlapping_terms None world_without_access_types =
      (Raise (KeyError "Access Type"), w') ∧
    heap w' !! 3%nat = Some frame_without_access_types.
Proof.
  assert (H : "Access Type" ∉ columns frame_without_access_types).
  { intros H. apply elem_of_cons in H as [H|H]; [discriminate H|]. by apply elem_of_nil in H. }
  split; [reflexivity|]. split; [exact H|].
  destruct (missing_access_type_column_is_a_key_error 3%nat overlapping_terms None
              world_without_access_types frame_without_access_types eq_refl H)
    as (w' & Hrun & Hdf & _).
  by exists w'.
Defined.

(** A row that is kept: its timestamp lies in the range of a term, and
    the term that wins is not named 'Unknown'. *)
Definition is_kept (terms_data : list term) (r : gmap string cell) : Prop :=
  ∃ t tm, stamp r = Some t ∧ winner terms_data t = Some tm ∧ tm.1.1 ≠ "Unknown".

Section kept_access_types.

Lemma is_kept_labelled terms_data r : is_kept terms_data r ↔ is_Some (labelled terms_data r).
Proof.
  split.
  - intros (t & tm & Hs & Hw & Hname). unfold labelled. rewrite Hs, Hw.
    rewrite bool_decide_eq_false_2 by done. by eexists.
  - intros [r' (t & tm & Hs & Hw & Hname & _)%labelled_Some]. by exists t, tm.
Qed.

Lemma kept_rows_access_types terms_data d :
  "Access Type" ∈ columns d →
  (∀ r, r ∈ rows d → is_kept terms_data r → ∃ s, r !! "Access Type" = Some (CStr s)) →
  has_access_types (semester_frame terms_data (normalize_frame d)).
Proof.
  intros Hcol Hall. split; cbn [columns rows semester_frame normalize_frame].
  - by apply add_column_elem, add_column_elem.
  - apply Forall_forall. intros r1 (r0 & Hr0 & Hl)%list_elem_of_omap.
    apply list_elem_of_In, in_map_iff in Hr0 as (r & <- & Hr%list_elem_of_In).
    assert (Hkept : is_kept terms_data r).
    { apply is_kept_labelled, labelled_normalize_is_Some. by eexists. }
    destruct (Hall r Hr Hkept) as [s0 Hs0].
    apply labelled_Some in Hl as (t & tm & _ & _ & _ & ->).
    rewrite assign_other by done. unfold normalize_row. rewrite Hs0.
    change (default CNone (Some (CStr s0))) with (CStr s0).
    destruct (replace_cell_str equipment_normalization s0) as [v ->].
    exists v. apply lookup_insert_eq.
Qed.

Lemma kept_row_without_access_type terms_data d :
  (∃ r, r ∈ rows d ∧ is_kept terms_data r ∧ ∀ s, r !! "Access Type" ≠ Some (CStr s)) →
  Exists (λ r, ∀ s, r !! "Access Type" ≠ Some (CStr s))
         (rows (semester_frame terms_data (normalize_frame d))).
Proof.
  intros (r & Hr & Hkept & Hno).
  apply is_kept_labelled, labelled_normalize_is_Some in Hkept as [r1 Hl].
  apply Exists_exists. exists r1. split.
  - cbn [rows semester_frame normalize_frame]. apply list_elem_of_omap.
    exists (normalize_row r). split; [|done].
    apply list_elem_of_In, in_map. by apply list_elem_of_In.
  - apply labelled_Some in Hl as (t & tm & _ & _ & _ & ->).
    intros s. rewrite assign_other by done. intros Hs.
    apply normalize_row_access_type in Hs as [s0 Hs0]. by destruct (Hno s0).
Qed.

Lemma omap_labelled_normalize_length terms_data (rs : list (gmap string cell)) :
  length (omap (labelled terms_data) (map normalize_row rs)) =
  length (omap (labelled terms_data) rs).
Proof.
  pose proof (f_equal length (semester_cells_enhanced terms_data rs)) as H.
  by rewrite !length_map in H.
Qed.

Lemma omap_length_filter {A B} (f : A → option B) (l : list A) :
  length (omap f l) = length (filter (λ x, is_Some (f x)) l).
Proof.
  induction l as [|x l IH]; [done|].
  change (omap f (x :: l))
    with (match f x with Some y => y :: omap f l | None => omap f l end).
  destruct (f x) as [y|] eqn:Hfx.
  - rewrite filter_cons_True by (rewrite Hfx; by eexists). simpl. by rewrite IH.
  - rewrite filter_cons_False; [done|]. rewrite Hfx. by intros [? ?].
Qed.

End kept_access_types.

(** X20 ([enhance_dataset], lines 183-190): the categories are computed
    after the rows with 'Unknown' are removed, so only the rows that are
    kept need an access type. If every kept row has a string there,
    [enhance_dataset] returns, with one row for each kept row, whatever
    the removed rows hold; if some kept row has none (or one that is no
    string), it raises [AttributeError], and the frame of the caller is as
    it was. *)
Theorem enhance_dataset_needs_access_types_of_kept_rows df terms_data path w d :
  heap w !! df = Some d → has_timestamps d → "Access Type" ∈ columns d →
  ((∀ r, r ∈ rows d → is_kept terms_data r → ∃ s, r !! "Access Type" = Some (CStr s)) →
   ∃ out w' d',
     enhance_dataset df terms_data path w = (Ok out, w') ∧
     heap w' !! out = Some d' ∧
     length (rows d') = length (filter (λ r, is_Some (labelled terms_data r)) (rows d)) ∧
     ∀ r', r' ∈ rows d' → ∃ category, r' !! "Equipment_Category" = Some (CStr category)) ∧
  ((∃ r, r ∈ rows d ∧ is_kept terms_data r ∧ ∀ s, r !! "Access Type" ≠ Some (CStr s)) →
   ∃ w',
     enhance_dataset df terms_data path w =
       (Raise (AttributeError "object has no attribute 'lower'"), w') ∧
     heap w' !! df = Some d).
Proof.
  intros Hdf Hts Hcol.
  destruct (enhance_dataset_until_categories df terms_data path w d Hdf Hts Hcol)
    as (W & out1 & Hout1 & HdfW & Hrun).
  split.
  - intros Hall.
    pose proof (kept_rows_access_types terms_data d Hcol Hall) as Hacc.
    destruct (add_equipment_category_run out1 _ W Hout1 Hacc) as (w2 & Hcat & Hheap2).
    rewrite (bind_Ok _ _ _ _ _ Hcat) in Hrun.
    set (out := fresh (dom (heap W))) in *.
    assert (Hfinal : ∃ w', (do! match given path with
                                | Some path0 =>
                                    do! to_csv out path0 in
                                    print (Text ("Enhanced data saved to '" +:+ path0 +:+ "'"))
                                | None => ret ()
                                end in ret out) w2 = (Ok out, w') ∧ heap w' = heap w2).
    { destruct (given path) as [p|].
      - unfold bind. erewrite to_csv_run; [|rewrite Hheap2; apply lookup_insert_eq].
        unfold print, ret. by eexists.
      - unfold bind, ret. by eexists. }
    destruct Hfinal as (w' & Hrun' & Hheap').
    exists out, w', (category_frame (semester_frame terms_data (normalize_frame d))).
    split; [by rewrite Hrun|]. rewrite Hheap', Hheap2.
    split; [apply lookup_insert_eq|]. split.
    + cbn [rows category_frame semester_frame normalize_frame].
      rewrite length_map, omap_labelled_normalize_length. apply omap_length_filter.
    + intros r' Hr'.
      pose proof (category_frame_rows _ Hacc) as Hrows.
      apply list_elem_of_lookup in Hr' as [i Hi].
      destruct (Forall2_lookup_r _ _ _ _ _ Hrows Hi) as (r & _ & _ & s & category & _ & _ & Hc).
      by exists category.
  - intros Hex.
    destruct (add_equipment_category_raises out1 _ W Hout1) as (w' & Hraise & Hold).
    { cbn [columns semester_frame normalize_frame]. by apply add_column_elem, add_column_elem. }
    { by apply kept_row_without_access_type. }
    exists w'. split; [|by apply Hold].
    rewrite Hrun. by apply bind_Raise.
Qed.

(** Two accesses in the summer, after the terms, without an access type,
    and one in term A with one. *)
Definition frame_with_gaps : DataFrame :=
  mkDataFrame ["Timestamp"; "Access Type"]
    [ {[ "Timestamp" := CTime (20 * day); "Access Type" := CNone ]};
      {[ "Timestamp" := CTime (3 * day); "Access Type" := CStr "Jacobs Shopbot" ]};
      {[ "Timestamp" := CTime (21 * day) ]} ].

Definition world_with_gaps : world :=
  mkWorld {[ 0%nat := frame_with_gaps ]} [] ∅ (λ _ _, ConnectionError "unreachable").

Lemma frame_with_gaps_has_timestamps : has_timestamps frame_with_gaps.
Proof.
  split.
  - apply list_elem_of_In. simpl. by left.
  - repeat constructor; eexists; reflexivity.
Defined.

Lemma enhance_dataset_needs_access_types_of_kept_rows_witness :
  heap world_with_gaps !! 0%nat = Some frame_with_gaps ∧
  has_timestamps frame_with_gaps ∧ "Access Type" ∈ columns frame_with_gaps ∧
  (∀ r, r ∈ rows frame_with_gaps → is_kept overlapping_terms r →
        ∃ s, r !! "Access Type" = Some (CStr s)) ∧
  ∃ out w' d',
    enhance_dataset 0%nat overlapping_terms None world_with_gaps = (Ok out, w') ∧
    heap w' !! out = Some d' ∧ length (rows d') = 1%nat.
Proof.
  assert (Hcol : "Access Type" ∈ columns frame_with_gaps).
  { apply list_elem_of_In. simpl. right. by left. }
  assert (Hall : ∀ r, r ∈ rows frame_with_gaps → is_kept overlapping_terms r →
                      ∃ s, r !! "Access Type" = Some (CStr s)).
  { intros r Hr Hkept. apply is_kept_labelled in Hkept.
    repeat (apply elem_of_cons in Hr as [->|Hr]);
      [ vm_compute in Hkept; by destruct Hkept
      | by exists "Jacobs Shopbot"
      | vm_compute in Hkept; by destruct Hkept
      | by apply elem_of_nil in Hr ]. }
  split; [reflexivity|]. split; [exact frame_with_gaps_has_timestamps|].
  split; [exact Hcol|]. split; [exact Hall|].
  destruct (enhance_dataset_needs_access_types_of_kept_rows 0%nat overlapping_terms None
              world_with_gaps frame_with_gaps eq_refl frame_with_gaps_has_timestamps Hcol)
    as [Hok _].
  destruct (Hok Hall) as (out & w' & d' & Hrun & Hout & Hlen & _).
  exists out, w', d'. split; [exact Hrun|]. split; [exact Hout|].
  rewrite Hlen. reflexivity.
Defined.
